(** * stock-open: the VN stock visualizer, embedded and verified

    A shallow embedding of [vn_stock_visualizer.py] (class
    [VNStockVisualizer] and [main]) and of the [/api/analyze] handler of
    [web_app.py].

    Conventions of the embedding:
    - Python floats are exact rationals ([Qc], canonical fractions, so
      equality is Leibniz equality); rounding is not modelled, except in
      [Float64], which evaluates the price change on binary64 numbers.  A
      number that is not finite (NaN, or the inf of a division by zero) is
      [None]; where the program treats inf and NaN differently (the
      histogram of the returns, the volatility) the division that
      overflows is looked at.
    - [print], the chart calls and the file writes are recorded, in order,
      in a trace of [event]s; exceptions are values of [exn].
    - pandas, the market-data provider and the clock are the environment:
      the provider and [pd.to_datetime] are parameters, the pandas
      operations the program calls ([rolling(..).mean()], [pct_change],
      [std], [max], [min], [mean]) are written out. *)

From Stdlib Require Import ZArith QArith Qcanon String Ascii List Lia.
From Stdlib Require Import DecimalString.
From Stdlib Require Floats.PrimFloat Floats.FloatOps Floats.SpecFloat.
From stdpp Require Import base option list strings numbers.

Local Open Scope string_scope.
Local Open Scope list_scope.

(** ** Strings *)

Module Str.

Definition upper_ascii (c : ascii) : ascii :=
  let n := nat_of_ascii c in
  if (97 <=? n)%nat && (n <=? 122)%nat then ascii_of_nat (n - 32) else c.

Definition lower_ascii (c : ascii) : ascii :=
  let n := nat_of_ascii c in
  if (65 <=? n)%nat && (n <=? 90)%nat then ascii_of_nat (n + 32) else c.

(** [s.upper()] and [s.lower()] on strings of ASCII characters, which the
    symbols of the exchange and the column labels of the provider are; a
    character outside ASCII is left as it is. *)
Fixpoint upper (s : string) : string :=
  match s with
  | EmptyString => EmptyString
  | String c r => String (upper_ascii c) (upper r)
  end.

Fixpoint lower (s : string) : string :=
  match s with
  | EmptyString => EmptyString
  | String c r => String (lower_ascii c) (lower r)
  end.

(** ['=' * n] *)
Fixpoint times (c : ascii) (n : nat) : string :=
  match n with
  | O => EmptyString
  | S k => String c (times c k)
  end.

(** [sub in s] *)
Fixpoint contains (sub s : string) : bool :=
  String.prefix sub s
  || match s with
     | EmptyString => false
     | String _ r => contains sub r
     end.

(** [s.endswith(c)] for one character. *)
Fixpoint ends_with (c : ascii) (s : string) : bool :=
  match s with
  | EmptyString => false
  | String d EmptyString => Ascii.eqb c d
  | String _ r => ends_with c r
  end.

(** [str(n)] for a natural number. *)
Definition of_nat (n : nat) : string := NilZero.string_of_uint (Nat.to_uint n).

(** [str(z)] for an integer. *)
Definition of_Z (z : Z) : string :=
  if (z <? 0)%Z then "-" ++ of_nat (Z.to_nat (- z)) else of_nat (Z.to_nat z).

Definition digit (n : Z) : ascii := ascii_of_nat (48 + Z.to_nat (n mod 10)).

(** The [w] low decimal digits of [n], zero padded (["%02d"], ["%04d"]). *)
Fixpoint zpad (w : nat) (n : Z) : string :=
  match w with
  | O => EmptyString
  | S k => zpad k (n / 10) ++ String (digit n) EmptyString
  end.

Definition is_digit (c : ascii) : bool :=
  let n := nat_of_ascii c in (48 <=? n)%nat && (n <=? 57)%nat.

(** Value of a string of decimal digits, [None] when another character occurs. *)
Fixpoint digits_from (acc : Z) (s : string) : option Z :=
  match s with
  | EmptyString => Some acc
  | String c r =>
      if is_digit c
      then digits_from (10 * acc + Z.of_nat (nat_of_ascii c - 48)) r
      else None
  end.

End Str.

(** ** Dates and the clock *)

Module Date.

(** A [datetime]: days since 1970-01-01 in the proleptic Gregorian
    calendar and the second within the day. *)
Record datetime := { days : Z; secs : Z }.

(** [dt - timedelta(days=n)] *)
Definition minus_days (dt : datetime) (n : Z) : datetime :=
  {| days := (days dt - n)%Z; secs := secs dt |}.

Local Open Scope Z_scope.

(** Year, month and day of a day number. *)
Definition civil_of_days (z0 : Z) : Z * Z * Z :=
  let z := z0 + 719468 in
  let era := z / 146097 in
  let doe := z - era * 146097 in
  let yoe := (doe - doe / 1460 + doe / 36524 - doe / 146096) / 365 in
  let doy := doe - (365 * yoe + yoe / 4 - yoe / 100) in
  let mp := (5 * doy + 2) / 153 in
  let d := doy - (153 * mp + 2) / 5 + 1 in
  let m := if mp <? 10 then mp + 3 else mp - 9 in
  let y := yoe + era * 400 in
  (if m <=? 2 then y + 1 else y, m, d).

(** Day number of a year, month and day. *)
Definition days_of_civil (y0 m d : Z) : Z :=
  let y := if m <=? 2 then y0 - 1 else y0 in
  let era := y / 400 in
  let yoe := y - era * 400 in
  let doy := (153 * (if 2 <? m then m - 3 else m + 9) + 2) / 5 + d - 1 in
  let doe := yoe * 365 + yoe / 4 - yoe / 100 + doy in
  era * 146097 + doe - 719468.

(** [dt.strftime('%Y-%m-%d')] *)
Definition strftime_ymd (dt : datetime) : string :=
  let '(y, m, d) := civil_of_days (days dt) in
  (Str.zpad 4 y ++ "-" ++ Str.zpad 2 m ++ "-" ++ Str.zpad 2 d)%string.

(** [dt.strftime('%Y%m%d%H%M%S')] *)
Definition strftime_compact (dt : datetime) : string :=
  let '(y, m, d) := civil_of_days (days dt) in
  let s := secs dt in
  (Str.zpad 4 y ++ Str.zpad 2 m ++ Str.zpad 2 d
     ++ Str.zpad 2 (s / 3600) ++ Str.zpad 2 (s / 60 mod 60) ++ Str.zpad 2 (s mod 60))%string.

(** The day number written by a ['YYYY-MM-DD'] string.  The program never
    parses its date strings; this reading is used to state what a date
    string denotes. *)
Definition parse_ymd (s : string) : option Z :=
  match Str.digits_from 0 (substring 0 4 s),
        Str.digits_from 0 (substring 5 2 s),
        Str.digits_from 0 (substring 8 2 s) with
  | Some y, Some m, Some d =>
      if (String.length s =? 10)%nat
         && String.eqb (substring 4 1 s) "-" && String.eqb (substring 7 1 s) "-"
      then Some (days_of_civil y m d) else None
  | _, _, _ => None
  end.

(** The clock: the value of the [k]-th call of [datetime.now()]. *)
Definition clock := nat -> datetime.

End Date.

Import Date.

(** ** The analyzer object *)

(** A cell of a data frame. *)
Inductive cell :=
| Num (q : Qc)
| NaN
| Text (s : string)
| Time (t : datetime).

(** A pandas [DataFrame]: the row labels, their name, and the columns in
    order, each with its label. *)
Record DataFrame := {
  index_name : option string;
  index : list cell;
  columns : list (string * list cell)
}.

(** [VNStockVisualizer]: the fields [__init__] sets. *)
Record visualizer := {
  symbol : string;
  start_date : string;
  end_date : string;
  data : option DataFrame
}.

(** [VNStockVisualizer.__init__].  [now] is the clock and [t] the number of
    [datetime.now()] calls made so far; the result carries the new count. *)
Definition init (now : clock) (t : nat)
    (symbol : string) (start_date end_date : option string) : visualizer * nat :=
  let sym := Str.upper symbol in
  let '(e, t) :=
    match end_date with
    | None => (strftime_ymd (now t), S t)
    | Some e => (e, t)
    end in
  let '(s, t) :=
    match start_date with
    | None => (strftime_ymd (minus_days (now t) 180), S t)
    | Some s => (s, t)
    end in
  ({| symbol := sym; start_date := s; end_date := e; data := None |}, t).

(** ** Exceptions, events and the effect monad *)

(** The exceptions of the program, all of them subclasses of [Exception]:
    the ones the library calls raise, and [UpstreamError] for whatever the
    provider raises (network, parsing, authentication).  [KeyboardInterrupt]
    and [SystemExit], which [except Exception] lets through, are not among
    them: no run of the model is interrupted from outside. *)
Inductive exn :=
| KeyError (key : string)
| TypeError (msg : string)
| ValueError (msg : string)
| AttributeError (msg : string)
| FileNotFoundError (msg : string)
| UpstreamError (msg : string).

(** [str(e)] *)
Definition exn_str (e : exn) : string :=
  match e with
  | KeyError k => "'" ++ k ++ "'"
  | TypeError m | ValueError m | AttributeError m | FileNotFoundError m
  | UpstreamError m => m
  end.

(** What a run leaves behind, in order.  A chart call carries the series it
    draws; colours other than the per-bar ones, sizes, titles and axis
    labels are left out. *)
Inductive event :=
| Print (s : string)
| PrintF (fmt : string) (args : list (option Qc))
| PrintExc (e : exn)
| Candlestick (x open high low close : list cell)
| Bar (x y : list cell) (colors : list string)
| Line (label : string) (x y : list cell)
| Hist (y : list cell)
| WriteHtml (path : string)
| SaveFig (path : string)
| Show
| MakeDirs (path : string).

(** Events that draw, show or store a chart. *)
Definition renders (e : event) : bool :=
  match e with
  | Candlestick _ _ _ _ _ | Bar _ _ _ | Line _ _ _ | Hist _
  | WriteHtml _ | SaveFig _ | Show => true
  | _ => false
  end.

(** Events that report a computed statistic. *)
Definition reports_statistic (e : event) : bool :=
  match e with
  | PrintF _ _ => true
  | _ => false
  end.

Record outcome (A : Type) := Outcome {
  result : exn + A;
  final : visualizer;
  trace : list event
}.
Arguments Outcome {A} _ _ _.
Arguments result {A} _.
Arguments final {A} _.
Arguments trace {A} _.

(** A method of the analyzer: it reads and updates [self], leaves a trace,
    and returns or raises. *)
Definition M (A : Type) : Type := visualizer -> outcome A.

Definition ret {A} (a : A) : M A := fun self => Outcome (inr a) self [].

Definition raise {A} (e : exn) : M A := fun self => Outcome (inl e) self [].

Definition bind {A B} (m : M A) (f : A -> M B) : M B := fun self =>
  let o := m self in
  match result o with
  | inl e => Outcome (inl e) (final o) (trace o)
  | inr a =>
      let o' := f a (final o) in
      Outcome (result o') (final o') (trace o ++ trace o')
  end.

(** [try: m  except Exception as e: h e]; every exception of [exn] is an
    [Exception]. *)
Definition try_except {A} (m : M A) (h : exn -> M A) : M A := fun self =>
  let o := m self in
  match result o with
  | inl e =>
      let o' := h e (final o) in
      Outcome (result o') (final o') (trace o ++ trace o')
  | inr _ => o
  end.

Definition emit (e : event) : M unit := fun self => Outcome (inr tt) self [e].

Definition get_self : M visualizer := fun self => Outcome (inr self) self [].

(** [self.data = d] *)
Definition with_frame (self : visualizer) (d : option DataFrame) : visualizer :=
  {| symbol := symbol self; start_date := start_date self;
     end_date := end_date self; data := d |}.

Definition set_data (d : option DataFrame) : M unit := fun self =>
  Outcome (inr tt) (with_frame self d) [].

(** A library call that returns or raises. *)
Definition lift {A} (r : exn + A) : M A :=
  match r with
  | inl e => raise e
  | inr a => ret a
  end.

Notation "x <- m ;; k" := (bind m (fun x => k))
  (at level 100, m at next level, right associativity).
Notation "m ;;; k" := (bind m (fun _ => k))
  (at level 100, right associativity).

Definition print (s : string) : M unit := emit (Print s).

(** [for x in xs: body x] *)
Fixpoint for_each {A} (xs : list A) (body : A -> M unit) : M unit :=
  match xs with
  | [] => ret tt
  | x :: r => body x ;;; for_each r body
  end.

(** ** The pandas operations the program calls *)

Module Pd.

Local Open Scope Qc_scope.

Definition qz (z : Z) : Qc := Q2Qc (inject_Z z).
Definition qn (n : nat) : Qc := qz (Z.of_nat n).

(** [len(df)] *)
Definition len (df : DataFrame) : nat := length (index df).

(** [df.empty]: no row or no column. *)
Definition empty (df : DataFrame) : bool :=
  (len df =? 0)%nat || (length (columns df) =? 0)%nat.

(** [name in df.columns] *)
Definition has_column (name : string) (df : DataFrame) : bool :=
  existsb (String.eqb name) (map fst (columns df)).

Fixpoint find_column (name : string) (cols : list (string * list cell))
    : option (list cell) :=
  match cols with
  | [] => None
  | (n, c) :: r => if String.eqb n name then Some c else find_column name r
  end.

(** [df[name]] *)
Definition getitem (df : DataFrame) (name : string) : exn + list cell :=
  match find_column name (columns df) with
  | Some c => inr c
  | None => inl (KeyError name)
  end.

(** [df.columns = df.columns.str.lower()] *)
Definition lower_columns (df : DataFrame) : DataFrame :=
  {| index_name := index_name df;
     index := index df;
     columns := map (fun nc => (Str.lower (fst nc), snd nc)) (columns df) |}.

(** [df[name] = values], for a label that occurs once. *)
Definition setitem (df : DataFrame) (name : string) (values : list cell) : DataFrame :=
  {| index_name := index_name df;
     index := index df;
     columns :=
       map (fun nc => if String.eqb (fst nc) name then (fst nc, values) else nc)
         (columns df) |}.

(** [df.set_index(name, inplace=True)]: the column becomes the row labels
    and leaves the columns. *)
Definition set_index (df : DataFrame) (name : string) : exn + DataFrame :=
  match find_column name (columns df) with
  | None => inl (KeyError name)
  | Some c =>
      inr {| index_name := Some name;
             index := c;
             columns := List.filter (fun nc => negb (String.eqb (fst nc) name)) (columns df) |}
  end.

(** The value of a cell in arithmetic: text and timestamps are no numbers. *)
Definition number (c : cell) : exn + option Qc :=
  match c with
  | Num q => inr (Some q)
  | NaN => inr None
  | Text _ => inl (TypeError "unsupported operand type: str")
  | Time _ => inl (TypeError "unsupported operand type: Timestamp")
  end.

Fixpoint numbers (col : list cell) : exn + list (option Qc) :=
  match col with
  | [] => inr []
  | c :: r =>
      match number c with
      | inl e => inl e
      | inr v =>
          match numbers r with
          | inl e => inl e
          | inr vs => inr (v :: vs)
          end
      end
  end.

Definition of_option (v : option Qc) : cell :=
  match v with
  | Some q => Num q
  | None => NaN
  end.

Definition cells (vs : list (option Qc)) : list cell := map of_option vs.

(** [a < b] on cells; a comparison with NaN is false. *)
Definition lt_cell (a b : cell) : exn + bool :=
  match a, b with
  | Num x, Num y => inr (bool_decide (x < y))
  | Num _, NaN | NaN, Num _ | NaN, NaN => inr false
  | Text s, Text t => inr (String.ltb s t)
  | Time s, Time t =>
      inr ((days s <? days t)%Z || ((days s =? days t)%Z && (secs s <? secs t)%Z))
  | _, _ => inl (TypeError "'<' not supported between these instances")
  end.

(** The values that are numbers (what [skipna=True] keeps). *)
Definition dropna (xs : list (option Qc)) : list Qc := omap id xs.

Definition sum (l : list Qc) : Qc := foldr Qcplus 0 l.

Definition fmul (a : option Qc) (k : Qc) : option Qc :=
  match a with
  | Some x => Some (x * k)
  | None => None
  end.

Definition fsub (a b : option Qc) : option Qc :=
  match a, b with
  | Some x, Some y => Some (x - y)
  | _, _ => None
  end.

(** [a / b]; a zero divisor gives inf or NaN, which is no finite number.
    [None] stands for both; [overflows] tells them apart where the program
    treats them differently. *)
Definition fdiv (a b : option Qc) : option Qc :=
  match a, b with
  | Some x, Some y => if decide (y = 0) then None else Some (x / y)
  | _, _ => None
  end.

(** [a / b] is inf or -inf: a non-zero number over zero. *)
Definition overflows (a b : option Qc) : bool :=
  match a, b with
  | Some x, Some y => bool_decide (y = 0) && negb (bool_decide (x = 0))
  | _, _ => false
  end.

(** [s.mean()] *)
Definition mean (xs : list (option Qc)) : option Qc :=
  let v := dropna xs in
  if (length v =? 0)%nat then None else Some (sum v / qn (length v)).

Definition qmax (a b : Qc) : Qc := if decide (a <= b) then b else a.
Definition qmin (a b : Qc) : Qc := if decide (a <= b) then a else b.

(** [s.max()] and [s.min()] *)
Definition max (xs : list (option Qc)) : option Qc :=
  match dropna xs with
  | [] => None
  | x :: r => Some (foldl qmax x r)
  end.

Definition min (xs : list (option Qc)) : option Qc :=
  match dropna xs with
  | [] => None
  | x :: r => Some (foldl qmin x r)
  end.

(** [s.std()]: [ddof=1] and [skipna=True] are the defaults; fewer than two
    numbers give NaN.  [sqrt] is the square root of the floats. *)
Definition std (sqrt : Qc -> Qc) (xs : list (option Qc)) : option Qc :=
  let v := dropna xs in
  let n := length v in
  if (n <=? 1)%nat then None
  else
    let m := sum v / qn n in
    Some (sqrt (sum (map (fun x => (x - m) * (x - m)) v) / qn (n - 1))).

(** [s.shift(1)] *)
Definition shift1 (xs : list (option Qc)) : list (option Qc) :=
  match xs with
  | [] => []
  | _ :: _ => None :: removelast xs
  end.

(** [s.pct_change()]: [s / s.shift(1) - 1], on a series without gaps
    (no fill is modelled). *)
Definition pct_change (xs : list (option Qc)) : list (option Qc) :=
  zip_with (fun cur prev => fsub (fdiv cur prev) (Some 1)) xs (shift1 xs).

(** Whether [s.pct_change()] has an infinite entry.  Unlike NaN, such an
    entry is kept by [dropna()] and is not skipped by [std()]. *)
Definition pct_infinite (xs : list (option Qc)) : bool :=
  existsb id (zip_with overflows xs (shift1 xs)).

(** [s.rolling(window=w).mean()], as pandas runs it: one pass that keeps
    the sum and the number of observations of the current window, adds
    the entering value, removes the leaving one, and reports the mean when
    at least [minp] (by default the window) observations are present. *)
Definition add_mean (x : option Qc) (st : Qc * nat) : Qc * nat :=
  match x with
  | Some v => (fst st + v, S (snd st))
  | None => st
  end.

Definition remove_mean (x : option Qc) (st : Qc * nat) : Qc * nat :=
  match x with
  | Some v => (fst st - v, pred (snd st))
  | None => st
  end.

Definition calc_mean (minp : nat) (st : Qc * nat) : option Qc :=
  if (minp <=? snd st)%nat && (0 <? snd st)%nat
  then Some (fst st / qn (snd st))
  else None.

Fixpoint roll_mean (w minp : nat) (all : list (option Qc)) (i : nat)
    (st : Qc * nat) (xs : list (option Qc)) : list (option Qc) :=
  match xs with
  | [] => []
  | x :: r =>
      let st1 := add_mean x st in
      let st2 :=
        if (w <=? i)%nat
        then match all !! (i - w)%nat with
             | Some old => remove_mean old st1
             | None => st1
             end
        else st1 in
      calc_mean minp st2 :: roll_mean w minp all (S i) st2 r
  end.

Definition rolling_mean (window : Z) (xs : list (option Qc))
    : exn + list (option Qc) :=
  if (window <? 0)%Z
  then inl (ValueError "window must be an integer 0 or greater")
  else
    let w := Z.to_nat window in
    inr (roll_mean w w xs 0 (0, 0%nat) xs).

(** [s.iloc[0]] and [s.iloc[-1]] of a column of a frame that has rows. *)
Definition first_cell (col : list cell) : cell := hd NaN col.
Definition last_cell (col : list cell) : cell := List.last col NaN.

(** [t.strftime('%Y-%m-%d')] for a row label [t]. *)
Definition label_ymd (c : cell) : exn + string :=
  match c with
  | Time t => inr (strftime_ymd t)
  | _ => inl (AttributeError "object has no attribute 'strftime'")
  end.

End Pd.

(** Equality of the values of the embedding is decidable, so closed facts
    are settled by evaluation. *)
#[global] Instance datetime_eq_dec : EqDecision datetime.
Proof. solve_decision. Defined.
#[global] Instance cell_eq_dec : EqDecision cell.
Proof. solve_decision. Defined.
#[global] Instance DataFrame_eq_dec : EqDecision DataFrame.
Proof. solve_decision. Defined.
#[global] Instance visualizer_eq_dec : EqDecision visualizer.
Proof. solve_decision. Defined.
#[global] Instance exn_eq_dec : EqDecision exn.
Proof. solve_decision. Defined.
#[global] Instance event_eq_dec : EqDecision event.
Proof. solve_decision. Defined.
#[global] Instance outcome_eq_dec {A} `{EqDecision A} : EqDecision (outcome A).
Proof. solve_decision. Defined.

Ltac by_evaluation := apply (bool_decide_unpack _); vm_compute; exact I.

(** ** [VNStockVisualizer] *)

Definition nl : string := String (ascii_of_nat 10) EmptyString.

Definition rule60 : string := Str.times "="%char 60.

Section Program.

(** The environment: the square root of the floats, [pd.to_datetime], the
    provider variant found at import time with its two retrieval calls
    (symbol, start, end), the clock, and the chart directory of the web
    application. *)
Variable sqrt : Qc -> Qc.
Variable to_datetime : list cell -> exn + list cell.
Variable VNSTOCK_VERSION : Z.
Variable history : string -> string -> string -> exn + option DataFrame.
Variable stock_historical_data : string -> string -> string -> exn + option DataFrame.
Variable now : clock.
Variable CHART_OUTPUT_DIR : string.

(** [self.data['time']] in [pd.to_datetime(self.data['time'])]: with the
    label on several columns the selection is a frame, which
    [pd.to_datetime] refuses. *)
Definition time_series (df : DataFrame) : exn + list cell :=
  if (1 <? length (List.filter (fun nc => String.eqb (fst nc) "time") (columns df)))%nat
  then inl (ValueError "to assemble mappings requires at least that [year, month, day] be specified")
  else Pd.getitem df "time".

(** Lines 69-75 of [fetch_data]: the column labels are lowercased and a
    [time] column becomes the row labels, in place. *)
Definition normalize : M unit :=
  self <- get_self ;;
  match data self with
  | None => ret tt
  | Some df =>
      let df1 := Pd.lower_columns df in
      set_data (Some df1) ;;;
      if Pd.has_column "time" df1
      then
        col <- lift (time_series df1) ;;
        parsed <- lift (to_datetime col) ;;
        let df2 := Pd.setitem df1 "time" parsed in
        set_data (Some df2) ;;;
        df3 <- lift (Pd.set_index df2 "time") ;;
        set_data (Some df3)
      else ret tt
  end.

Definition fetch_data : M bool :=
  try_except
    (self <- get_self ;;
     print ("Fetching data for " +:+ symbol self +:+ " from " +:+ start_date self
            +:+ " to " +:+ end_date self +:+ "...") ;;;
     (if (VNSTOCK_VERSION =? 3)%Z
      then
        d <- lift (history (symbol self) (start_date self) (end_date self)) ;;
        set_data d ;;;
        normalize
      else
        d <- lift (stock_historical_data (symbol self) (start_date self) (end_date self)) ;;
        set_data d) ;;;
     self <- get_self ;;
     match data self with
     | Some df =>
         if negb (Pd.empty df)
         then
           print ("Successfully fetched " +:+ Str.of_nat (Pd.len df) +:+ " data points") ;;;
           ret true
         else print "No data retrieved" ;;; ret false
     | None => print "No data retrieved" ;;; ret false
     end)
    (fun e =>
       print ("Error fetching data: " +:+ exn_str e) ;;;
       emit (PrintExc e) ;;;
       ret false).

(** The guard every chart and summary method opens with:
    [if self.data is None or self.data.empty: print(...); return]. *)
Definition with_data (body : DataFrame -> M unit) : M unit :=
  self <- get_self ;;
  match data self with
  | None => print "No data available. Please fetch data first."
  | Some df =>
      if Pd.empty df
      then print "No data available. Please fetch data first."
      else body df
  end.

(** [if save_path:] is false for [None] and for the empty string. *)
Definition given (save_path : option string) : option string :=
  match save_path with
  | Some EmptyString => None
  | p => p
  end.

(** [['red' if close < open else 'green' for close, open in zip(..)]] *)
Fixpoint bar_colors (close open : list cell) : exn + list string :=
  match close, open with
  | c :: cr, o :: or =>
      match Pd.lt_cell c o with
      | inl e => inl e
      | inr b =>
          match bar_colors cr or with
          | inl e => inl e
          | inr r => inr ((if b then "red" else "green") :: r)
          end
      end
  | _, _ => inr []
  end.

(** The end of the three matplotlib charts. *)
Definition savefig_or_show (save_path : option string) : M unit :=
  match given save_path with
  | Some p => emit (SaveFig p) ;;; print ("Chart saved to " +:+ p)
  | None => emit Show
  end.

Definition plot_candlestick_chart (save_path : option string) : M unit :=
  with_data (fun df =>
    o <- lift (Pd.getitem df "open") ;;
    h <- lift (Pd.getitem df "high") ;;
    l <- lift (Pd.getitem df "low") ;;
    c <- lift (Pd.getitem df "close") ;;
    emit (Candlestick (index df) o h l c) ;;;
    colors <- lift (bar_colors c o) ;;
    v <- lift (Pd.getitem df "volume") ;;
    emit (Bar (index df) v colors) ;;;
    match given save_path with
    | Some p => emit (WriteHtml p) ;;; print ("Chart saved to " +:+ p)
    | None => emit Show
    end).

(** [self.data[field].rolling(window=window).mean()], the moving average
    both charts draw. *)
Definition moving_average (df : DataFrame) (field : string) (window : Z)
    : exn + list (option Qc) :=
  match Pd.getitem df field with
  | inl e => inl e
  | inr col =>
      match Pd.numbers col with
      | inl e => inl e
      | inr xs => Pd.rolling_mean window xs
      end
  end.

Definition plot_price_and_moving_averages
    (ma_periods : list Z) (save_path : option string) : M unit :=
  with_data (fun df =>
    c <- lift (Pd.getitem df "close") ;;
    emit (Line "Close Price" (index df) c) ;;;
    for_each ma_periods (fun period =>
      if (period <=? Z.of_nat (Pd.len df))%Z
      then
        ma <- lift (moving_average df "close" period) ;;
        emit (Line ("MA" +:+ Str.of_Z period) (index df) (Pd.cells ma))
      else ret tt) ;;;
    savefig_or_show save_path).

(** [ma_periods=[20, 50, 100]] *)
Definition default_ma_periods : list Z := [20; 50; 100]%Z.

Definition plot_volume_analysis (save_path : option string) : M unit :=
  with_data (fun df =>
    c <- lift (Pd.getitem df "close") ;;
    emit (Line "" (index df) c) ;;;
    o <- lift (Pd.getitem df "open") ;;
    colors <- lift (bar_colors c o) ;;
    v <- lift (Pd.getitem df "volume") ;;
    emit (Bar (index df) v colors) ;;;
    volume_ma <- lift (moving_average df "volume" 20) ;;
    emit (Line "Volume MA20" (index df) (Pd.cells volume_ma)) ;;;
    savefig_or_show save_path).

(** [self.data['close'].pct_change() * 100] *)
Definition daily_returns_pct (close : list (option Qc)) : list (option Qc) :=
  map (fun r => Pd.fmul r (Pd.qz 100)) (Pd.pct_change close).

(** [ax2.hist(daily_returns.dropna(), bins=50)]: an infinite return
    survives [dropna()] and the histogram refuses a range that is not
    finite (the library's text also names the range). *)
Definition hist (close daily_returns : list (option Qc)) : M unit :=
  if Pd.pct_infinite close
  then raise (ValueError "range of the histogram is not finite")
  else emit (Hist (map Num (Pd.dropna daily_returns))).

Definition plot_daily_returns (save_path : option string) : M unit :=
  with_data (fun df =>
    c <- lift (Pd.getitem df "close") ;;
    xs <- lift (Pd.numbers c) ;;
    let daily_returns := daily_returns_pct xs in
    emit (Line "" (tail (index df)) (Pd.cells (tail daily_returns))) ;;;
    hist xs daily_returns ;;;
    savefig_or_show save_path).

(** [self.data['close'].pct_change().std() * 100]; with an infinite return
    among them the deviation is NaN. *)
Definition volatility_pct (close : list (option Qc)) : option Qc :=
  if Pd.pct_infinite close
  then None
  else Pd.fmul (Pd.std sqrt (Pd.pct_change close)) (Pd.qz 100).

Definition print_summary : M unit :=
  with_data (fun df =>
    self <- get_self ;;
    print (nl +:+ rule60) ;;;
    print ("Summary Statistics for " +:+ symbol self) ;;;
    print ("Period: " +:+ start_date self +:+ " to " +:+ end_date self) ;;;
    print rule60 ;;;
    c <- lift (Pd.getitem df "close") ;;
    latest <- lift (Pd.number (Pd.last_cell c)) ;;
    emit (PrintF (nl +:+ "Latest Price (Close): {:,.0f} VND") [latest]) ;;;
    d <- lift (Pd.label_ymd (Pd.last_cell (index df))) ;;
    print ("Latest Date: " +:+ d) ;;;
    print (nl +:+ "Price Range:") ;;;
    h <- lift (Pd.getitem df "high") ;;
    hs <- lift (Pd.numbers h) ;;
    emit (PrintF "  Highest: {:,.0f} VND" [Pd.max hs]) ;;;
    l <- lift (Pd.getitem df "low") ;;
    ls <- lift (Pd.numbers l) ;;
    emit (PrintF "  Lowest: {:,.0f} VND" [Pd.min ls]) ;;;
    first <- lift (Pd.number (Pd.first_cell c)) ;;
    let price_change := Pd.fsub latest first in
    let price_change_pct := Pd.fmul (Pd.fdiv price_change first) (Pd.qz 100) in
    emit (PrintF (nl +:+ "Price Change: {:+,.0f} VND ({:+.2f}%)")
            [price_change; price_change_pct]) ;;;
    print (nl +:+ "Volume Statistics:") ;;;
    v <- lift (Pd.getitem df "volume") ;;
    vs <- lift (Pd.numbers v) ;;
    emit (PrintF "  Average Daily Volume: {:,.0f}" [Pd.mean vs]) ;;;
    emit (PrintF "  Highest Volume: {:,.0f}" [Pd.max vs]) ;;;
    xs <- lift (Pd.numbers c) ;;
    emit (PrintF (nl +:+ "Volatility (Daily Std Dev): {:.2f}%") [volatility_pct xs]) ;;;
    print (rule60 +:+ nl)).

(** The parsed command line of [main]. *)
Record args := {
  arg_symbol : string;
  arg_start : option string;
  arg_end : option string;
  save_charts : bool;
  output_dir : string
}.

(** [os.makedirs(path, exist_ok=True)]: the empty path is refused; that
    the file system lets the directory be made is taken for granted. *)
Definition makedirs (path : string) : M unit :=
  if String.eqb path ""
  then raise (FileNotFoundError "[Errno 2] No such file or directory: ''")
  else emit (MakeDirs path).

(** [main], after [parser.parse_args()]; [t] counts the clock readings made
    before the call. *)
Definition main (t : nat) (a : args) : outcome unit :=
  let '(visualizer, _) := init now t (arg_symbol a) (arg_start a) (arg_end a) in
  (ok <- fetch_data ;;
   if negb ok
   then print "Failed to fetch data. Exiting."
   else
     print_summary ;;;
     if save_charts a
     then
       makedirs (output_dir a) ;;;
       self <- get_self ;;
       let symbol := symbol self in
       print (nl +:+ "Generating charts...") ;;;
       plot_candlestick_chart
         (Some (output_dir a +:+ "/" +:+ symbol +:+ "_candlestick.html")) ;;;
       plot_price_and_moving_averages default_ma_periods
         (Some (output_dir a +:+ "/" +:+ symbol +:+ "_ma.png")) ;;;
       plot_volume_analysis
         (Some (output_dir a +:+ "/" +:+ symbol +:+ "_volume.png")) ;;;
       plot_daily_returns
         (Some (output_dir a +:+ "/" +:+ symbol +:+ "_returns.png")) ;;;
       print (nl +:+ "All charts saved to " +:+ output_dir a +:+ "/")
     else
       print (nl +:+ "Generating interactive candlestick chart...") ;;;
       plot_candlestick_chart None) visualizer.

(** ** The [/api/analyze] handler *)

(** A JSON value, as far as the handler looks at it: its kind, and the
    text of a string. *)
Inductive json :=
| JNull
| JBool (b : bool)
| JInt (n : Z)
| JFloat (x : Qc)
| JString (s : string)
| JArray
| JObject.

(** [type(v).__name__] *)
Definition type_name (v : json) : string :=
  match v with
  | JNull => "NoneType"
  | JBool _ => "bool"
  | JInt _ => "int"
  | JFloat _ => "float"
  | JString _ => "str"
  | JArray => "list"
  | JObject => "dict"
  end.

(** The JSON object of the request: the value under [symbol], if the key
    is there, and the two dates, a string each or [None] for a missing key
    and for null. *)
Record request := {
  req_symbol : option json;
  req_start_date : option string;
  req_end_date : option string
}.

(** [v.upper()] on the value found under [symbol]. *)
Definition json_upper (v : json) : exn + string :=
  match v with
  | JString s => inr (Str.upper s)
  | _ => inl (AttributeError ("'" +:+ type_name v +:+ "' object has no attribute 'upper'"))
  end.

(** [os.path.join(a, b)] *)
Definition path_join (a b : string) : string :=
  if String.prefix "/" b then b
  else if String.eqb a "" then b
  else if Str.ends_with "/"%char a then a +:+ b
  else a +:+ "/" +:+ b.

(** The [summary] dictionary. *)
Record summary := {
  sum_symbol : string;
  latest_price : option Qc;
  latest_date : string;
  highest_price : option Qc;
  lowest_price : option Qc;
  price_change : option Qc;
  price_change_pct : option Qc;
  avg_volume : option Qc;
  max_volume : option Qc;
  volatility : option Qc;
  data_points : nat
}.

(** What the handler returns: an error body with its status, or the
    summary with the chart addresses. *)
Inductive response :=
| ErrorBody (error : string) (status : Z)
| Success (s : summary) (charts : list (string * string)).

(** Lines 51-72: the statistics of the fetched frame. *)
Definition analyze_summary (symbol : string) (df : DataFrame) : M summary :=
  c <- lift (Pd.getitem df "close") ;;
  latest <- lift (Pd.number (Pd.last_cell c)) ;;
  first <- lift (Pd.number (Pd.first_cell c)) ;;
  let price_change := Pd.fsub latest first in
  let price_change_pct := Pd.fmul (Pd.fdiv price_change first) (Pd.qz 100) in
  xs <- lift (Pd.numbers c) ;;
  let volatility := volatility_pct xs in
  d <- lift (Pd.label_ymd (Pd.last_cell (index df))) ;;
  h <- lift (Pd.getitem df "high") ;;
  hs <- lift (Pd.numbers h) ;;
  l <- lift (Pd.getitem df "low") ;;
  ls <- lift (Pd.numbers l) ;;
  v <- lift (Pd.getitem df "volume") ;;
  vs <- lift (Pd.numbers v) ;;
  ret {| sum_symbol := symbol;
         latest_price := latest;
         latest_date := d;
         highest_price := Pd.max hs;
         lowest_price := Pd.min ls;
         price_change := price_change;
         price_change_pct := price_change_pct;
         avg_volume := Pd.mean vs;
         max_volume := Pd.max vs;
         volatility := volatility;
         data_points := Pd.len df |}.

(** The handler's work on the analyzer it created; [t] counts the clock
    readings made so far. *)
Definition analyze_body (t : nat) (symbol : string) : M response :=
  ok <- fetch_data ;;
  if negb ok
  then ret (ErrorBody ("Failed to fetch data for " +:+ symbol) 400)
  else
    self <- get_self ;;
    match data self with
    | None => ret (ErrorBody "No data available" 400)
    | Some df =>
        if Pd.empty df
        then ret (ErrorBody "No data available" 400)
        else
          s <- analyze_summary symbol df ;;
          let chart_id := symbol +:+ "_" +:+ strftime_compact (now t) in
          plot_candlestick_chart
            (Some (path_join CHART_OUTPUT_DIR (chart_id +:+ "_candlestick.html"))) ;;;
          plot_price_and_moving_averages default_ma_periods
            (Some (path_join CHART_OUTPUT_DIR (chart_id +:+ "_ma.png"))) ;;;
          plot_volume_analysis
            (Some (path_join CHART_OUTPUT_DIR (chart_id +:+ "_volume.png"))) ;;;
          plot_daily_returns
            (Some (path_join CHART_OUTPUT_DIR (chart_id +:+ "_returns.png"))) ;;;
          ret (Success s
                 [("candlestick", "/static/charts/" +:+ chart_id +:+ "_candlestick.html");
                  ("moving_average", "/static/charts/" +:+ chart_id +:+ "_ma.png");
                  ("volume", "/static/charts/" +:+ chart_id +:+ "_volume.png");
                  ("returns", "/static/charts/" +:+ chart_id +:+ "_returns.png")])
    end.

(** [analyze_stock]: the response and what the request left behind.  A
    request without a JSON body fails on [data.get]; every exception ends
    in the handler's [except] with status 500. *)
Definition analyze_stock (t : nat) (body : option request) : response * list event :=
  match body with
  | None =>
      let e := AttributeError "'NoneType' object has no attribute 'get'" in
      (ErrorBody (exn_str e) 500, [PrintExc e])
  | Some r =>
      match json_upper (default (JString "") (req_symbol r)) with
      | inl e => (ErrorBody (exn_str e) 500, [PrintExc e])
      | inr symbol =>
          if String.eqb symbol ""
          then (ErrorBody "Stock symbol is required" 400, [])
          else
            let '(visualizer, t) :=
              init now t symbol (req_start_date r) (req_end_date r) in
            let o := analyze_body t symbol visualizer in
            match result o with
            | inl e => (ErrorBody (exn_str e) 500, trace o ++ [PrintExc e])
            | inr resp => (resp, trace o)
            end
      end
  end.

End Program.

(** ** [example_usage.py] *)

Module ExampleUsage.

Section Run.

Variable sqrt : Qc -> Qc.
Variable to_datetime : list cell -> exn + list cell.
Variable VNSTOCK_VERSION : Z.
Variable history : string -> string -> string -> exn + option DataFrame.
Variable stock_historical_data : string -> string -> string -> exn + option DataFrame.
Variable now : clock.

(** The body of the loop of [example_multiple_stocks], on the analyzer
    made for one symbol. *)
Definition analyze_one : M unit :=
  ok <- fetch_data to_datetime VNSTOCK_VERSION history stock_historical_data ;;
  if ok then print_summary sqrt else ret tt.

(** [for symbol in stocks: ...]: an exception ends the loop and leaves the
    function. *)
Fixpoint analyze_each (start_date end_date : string) (stocks : list string) (t : nat)
    : (exn + unit) * list event :=
  match stocks with
  | [] => (inr tt, [])
  | symbol :: rest =>
      let header := Print (nl +:+ "--- Analyzing " +:+ symbol +:+ " ---") in
      let '(visualizer, t) := init now t symbol (Some start_date) (Some end_date) in
      let o := analyze_one visualizer in
      match result o with
      | inl e => (inl e, header :: trace o)
      | inr _ =>
          let '(r, tr) := analyze_each start_date end_date rest t in
          (r, header :: trace o ++ tr)
      end
  end.

Definition stocks : list string := ["VNM"; "VCB"; "HPG"].

(** [example_multiple_stocks]; [t] counts the clock readings made before. *)
Definition example_multiple_stocks (t : nat) : (exn + unit) * list event :=
  let end_date := strftime_ymd (now t) in
  let start_date := strftime_ymd (minus_days (now (S t)) 90) in
  let '(r, tr) := analyze_each start_date end_date stocks (S (S t)) in
  (r, [Print (nl +:+ rule60); Print "Example 3: Compare Multiple Stocks"; Print rule60]
        ++ tr).

(** [main]: the one example it runs, inside [try ... except Exception]. *)
Definition main (t : nat) : list event :=
  let '(r, tr) := example_multiple_stocks t in
  [Print (nl +:+ Str.times "#"%char 60);
   Print "# VN Stock Visualizer - Example Usage Demonstrations";
   Print (Str.times "#"%char 60)]
  ++ tr
  ++ match r with
     | inl e => [Print (nl +:+ nl +:+ "Error running examples: " +:+ exn_str e)]
     | inr _ => []
     end.

End Run.

End ExampleUsage.

(** ** The series of the data model and the words of the specification *)

(** One trading day. *)
Record bar := {
  date : datetime;
  open : Qc;
  high : Qc;
  low : Qc;
  close : Qc;
  volume : Qc
}.

(** The canonical frame of a series: the dates are the row labels, the five
    fields the columns. *)
Definition ohlcv (bars : list bar) : DataFrame :=
  {| index_name := Some "time";
     index := map (fun b => Time (date b)) bars;
     columns :=
       [("open", map (fun b => Num (open b)) bars);
        ("high", map (fun b => Num (high b)) bars);
        ("low", map (fun b => Num (low b)) bars);
        ("close", map (fun b => Num (close b)) bars);
        ("volume", map (fun b => Num (volume b)) bars)] |}.

(** An analyzer that holds a frame. *)
Definition holding (sym start stop : string) (df : DataFrame) : visualizer :=
  {| symbol := sym; start_date := start; end_date := stop; data := Some df |}.

(** No frame, or a frame without rows or columns. *)
Definition has_no_data (self : visualizer) : bool :=
  match data self with
  | None => true
  | Some df => Pd.empty df
  end.

(** Every column has one cell per row. *)
Definition well_formed (df : DataFrame) : Prop :=
  Forall (fun nc => length (snd nc) = length (index df)) (columns df).

(** The arithmetic mean of a list of numbers. *)
Definition arithmetic_mean (l : list Qc) : Qc := (Pd.sum l / Pd.qn (length l))%Qc.

(** The day-over-day return fractions of a list of closes:
    [(c[i] - c[i-1]) / c[i-1]] for [i > 0]. *)
Definition return_fractions (cs : list Qc) : list Qc :=
  zip_with (fun cur prev => ((cur - prev) / prev)%Qc) (tail cs) cs.

(** The sample variance (divisor [n - 1]) and the population variance
    (divisor [n]). *)
Definition sample_variance (rs : list Qc) : Qc :=
  (Pd.sum (map (fun r => (r - arithmetic_mean rs) * (r - arithmetic_mean rs)) rs)
   / Pd.qn (length rs - 1))%Qc.

Definition population_variance (rs : list Qc) : Qc :=
  (Pd.sum (map (fun r => (r - arithmetic_mean rs) * (r - arithmetic_mean rs)) rs)
   / Pd.qn (length rs))%Qc.

(** The sample standard deviation, undefined below two observations. *)
Definition sample_std (sqrt : Qc -> Qc) (rs : list Qc) : option Qc :=
  if (length rs <? 2)%nat then None else Some (sqrt (sample_variance rs)).

(** The result of the retrieval call [fetch_data] makes for an analyzer. *)
Definition retrieved (VNSTOCK_VERSION : Z)
    (history stock_historical_data : string -> string -> string -> exn + option DataFrame)
    (self : visualizer) : exn + option DataFrame :=
  if (VNSTOCK_VERSION =? 3)%Z
  then history (symbol self) (start_date self) (end_date self)
  else stock_historical_data (symbol self) (start_date self) (end_date self).

(** The price change as the interpreter computes it: lines 54-55 of the
    handler and 302-303 of [print_summary] on IEEE 754 binary64 numbers,
    each operation rounded to nearest, ties to even. *)
Module Float64.

Import PrimFloat.

Definition price_change (latest first : float) : float := (latest - first)%float.

Definition price_change_pct (latest first : float) : float :=
  (price_change latest first / first * 100)%float.

(** The rational a finite binary64 number is. *)
Definition to_Qc (x : float) : option Qc :=
  match FloatOps.Prim2SF x with
  | SpecFloat.S754_zero _ => Some (Q2Qc 0)
  | SpecFloat.S754_finite s m e =>
      Some (Q2Qc ((if s then -1 else 1) * inject_Z (Z.pos m) * Qpower 2 e))
  | _ => None
  end.

(** A first close of 3 and a last close of 100000000. *)
Definition low_close : float := 3%float.
Definition high_close : float := 100000000%float.

End Float64.

(** Equal within the floating-point tolerance [1e-9]. *)
Definition tolerance : Qc := Q2Qc (1 # 1000000000).

Definition within_tolerance (a b : Qc) : Prop :=
  (a - b <= tolerance /\ b - a <= tolerance)%Qc.

(** What the specification asks of a failed fetch: an exception reaches
    the caller, and its message names the symbol. *)
Definition signals_no_data (o : outcome bool) (sym : string) : Prop :=
  exists e, result o = inl e /\ Str.contains sym (exn_str e) = true.

(** An error of the retrieval call reaches the caller of the fetch. *)
Definition propagates (o : outcome bool) (cause : exn) : Prop :=
  result o = inl cause.

(** A run that neither draws nor reports a statistic. *)
Definition quiet (tr : list event) : bool :=
  forallb (fun e => negb (renders e || reports_statistic e)) tr.

(** The moving-average overlays of a trace, with their labels. *)
Definition overlays (tr : list event) : list (string * list cell) :=
  omap (fun e =>
          match e with
          | Line label _ y =>
              if String.prefix "MA" label || String.prefix "Volume MA" label
              then Some (label, y) else None
          | _ => None
          end) tr.

(** ** Sample inputs *)

Definition q (z : Z) : Qc := Pd.qz z.

Definition day (n : Z) : datetime := {| days := n; secs := 0 |}.

(** 2026-11-04, 09:00. *)
Definition sample_clock : clock := fun _ => {| days := 20761; secs := 32400 |}.

(** A raw frame in the provider's shape: capitalised labels and the dates in
    a column. *)
Definition raw3 : DataFrame :=
  {| index_name := None;
     index := [Num (q 0); Num (q 1); Num (q 2)];
     columns :=
       [("Time", [Text "2024-01-02"; Text "2024-01-03"; Text "2024-01-04"]);
        ("Open", [Num (q 100); Num (q 100); Num (q 102)]);
        ("High", [Num (q 101); Num (q 103); Num (q 102)]);
        ("Low", [Num (q 99); Num (q 100); Num (q 98)]);
        ("Close", [Num (q 100); Num (q 102); Num (q 99)]);
        ("Volume", [Num (q 1000); Num (q 1000); Num (q 1000)])] |}.

(** A frame without rows. *)
Definition raw0 : DataFrame :=
  {| index_name := None;
     index := [];
     columns := [("time", []); ("open", []); ("high", []); ("low", []);
                 ("close", []); ("volume", [])] |}.

(** [pd.to_datetime] on ISO dates. *)
Definition parse_cell (c : cell) : exn + cell :=
  match c with
  | Text s =>
      match parse_ymd s with
      | Some d => inr (Time (day d))
      | None => inl (ValueError ("Unknown datetime string format: " +:+ s))
      end
  | Time t => inr (Time t)
  | _ => inl (TypeError "not convertible to datetime")
  end.

Fixpoint sample_to_datetime (col : list cell) : exn + list cell :=
  match col with
  | [] => inr []
  | c :: r =>
      match parse_cell c with
      | inl e => inl e
      | inr v =>
          match sample_to_datetime r with
          | inl e => inl e
          | inr vs => inr (v :: vs)
          end
      end
  end.

(** A stand-in for the square root in the samples: the theorems hold for
    every function. *)
Definition sample_sqrt (x : Qc) : Qc := x.

(** A retrieval call, and the one that answers every request with [r]. *)
Definition provider := string -> string -> string -> exn + option DataFrame.

Definition gives (r : exn + option DataFrame) : provider := fun _ _ _ => r.

(** 2024-01-02. *)
Definition first_day : bar :=
  {| date := day 19724; open := q 100; high := q 101; low := q 99;
     close := q 100; volume := q 1000 |}.

(** Five days with closes 100, 102, 99, 101, 105 and volume 1000. *)
Definition five_days : list bar :=
  [ first_day;
    {| date := day 19725; open := q 100; high := q 103; low := q 100; close := q 102; volume := q 1000 |};
    {| date := day 19726; open := q 102; high := q 102; low := q 98; close := q 99; volume := q 1000 |};
    {| date := day 19727; open := q 99; high := q 101; low := q 99; close := q 101; volume := q 1000 |};
    {| date := day 19728; open := q 101; high := q 106; low := q 101; close := q 105; volume := q 1000 |} ].

Definition three_days : list bar := firstn 3 five_days.

(** A fetch for "XYZ" whose provider returns a frame without rows. *)
Definition fetch_xyz_empty : outcome bool :=
  fetch_data sample_to_datetime 3 (gives (inr (Some raw0))) (gives (inr None))
    (fst (init sample_clock 0 "XYZ" None None)).

(** A fetch for "XYZ" whose provider raises. *)
Definition timed_out : exn := UpstreamError "Connection timed out".

Definition fetch_xyz_timeout : outcome bool :=
  fetch_data sample_to_datetime 3 (gives (inl timed_out)) (gives (inr None))
    (fst (init sample_clock 0 "XYZ" None None)).

(** The price chart of a three-day series with a window of five. *)
Definition price_chart_three_days : outcome unit :=
  plot_price_and_moving_averages [5%Z] None
    (holding "XYZ" "2024-01-02" "2024-01-04" (ohlcv three_days)).

(** An analyzer for "XYZ" that holds the first three days. *)
Definition xyz_three_days : visualizer :=
  holding "XYZ" "2024-01-02" "2024-01-04" (ohlcv three_days).

(** A raw frame whose dates [pd.to_datetime] cannot read. *)
Definition raw_bad : DataFrame :=
  {| index_name := None;
     index := [Num (q 0)];
     columns := [("Time", [Text "yesterday"]); ("Close", [Num (q 100)])] |}.

(** Three days with closes 100, 0 and 50, as the provider returns them and
    as a series. *)
Definition raw_zero : DataFrame :=
  {| index_name := None;
     index := [Num (q 0); Num (q 1); Num (q 2)];
     columns :=
       [("Time", [Text "2024-01-02"; Text "2024-01-03"; Text "2024-01-04"]);
        ("Open", [Num (q 100); Num (q 100); Num (q 0)]);
        ("High", [Num (q 101); Num (q 100); Num (q 50)]);
        ("Low", [Num (q 99); Num (q 0); Num (q 0)]);
        ("Close", [Num (q 100); Num (q 0); Num (q 50)]);
        ("Volume", [Num (q 1000); Num (q 1000); Num (q 1000)])] |}.

Definition zero_days : list bar :=
  [ first_day;
    {| date := day 19725; open := q 100; high := q 100; low := q 0; close := q 0; volume := q 1000 |};
    {| date := day 19726; open := q 0; high := q 50; low := q 0; close := q 50; volume := q 1000 |} ].

(** The analyzer [main] and the web handler make for "vnm" with no dates. *)
Definition vnm : visualizer := fst (init sample_clock 0 "vnm" None None).

(** ** Definitions for the proofs *)

(** The analyzer the examples make for a symbol and a range. *)
Definition analyzer (sym start stop : string) : visualizer :=
  {| symbol := Str.upper sym; start_date := start; end_date := stop; data := None |}.

(** The line the examples print before each stock. *)
Definition analyzing (sym : string) : event :=
  Print (nl +:+ "--- Analyzing " +:+ sym +:+ " ---").

(** The first lines of [example_multiple_stocks] and of the examples'
    [main]. *)
Definition example_banner : list event :=
  [Print (nl +:+ rule60); Print "Example 3: Compare Multiple Stocks"; Print rule60].

Definition examples_banner : list event :=
  [Print (nl +:+ Str.times "#"%char 60);
   Print "# VN Stock Visualizer - Example Usage Demonstrations";
   Print (Str.times "#"%char 60)].

(** The one line a method prints when there is no data. *)
Definition no_data_message : event := Print "No data available. Please fetch data first.".

(** An outcome with earlier events in front of its trace. *)
Definition after {B} (evs : list event) (o : outcome B) : outcome B :=
  Outcome (result o) (final o) (evs ++ trace o).

(** The first line [fetch_data] prints. *)
Definition fetching (self : visualizer) : event :=
  Print ("Fetching data for " +:+ symbol self +:+ " from " +:+ start_date self
         +:+ " to " +:+ end_date self +:+ "...").

(** Column labels that lowercasing leaves as they are. *)
Definition lowered (cols : list (string * list cell)) : Prop :=
  Forall (fun nc => Str.lower (fst nc) = fst nc) cols.

(** The end of the [try] block: [True] for a frame with rows and columns. *)
Definition fetch_verdict (first : event) (self : visualizer) : outcome bool :=
  match data self with
  | Some df =>
      if negb (Pd.empty df)
      then Outcome (inr true) self
             [first; Print ("Successfully fetched " +:+ Str.of_nat (Pd.len df) +:+ " data points")]
      else Outcome (inr false) self [first; Print "No data retrieved"]
  | None => Outcome (inr false) self [first; Print "No data retrieved"]
  end.

(** The [except] block. *)
Definition fetch_caught (first : event) (self : visualizer) (e : exn) : outcome bool :=
  Outcome (inr false) self
    [first; Print ("Error fetching data: " +:+ exn_str e); PrintExc e].

(** Every column is empty. *)
Definition columns_without_rows (df : DataFrame) : Prop :=
  Forall (fun nc => snd nc = []) (columns df).

(** The sum and the count the pass holds before it reads position [i]: those
    of the last [w] values before [i]. *)
Definition window_state (cs : list Qc) (w i : nat) : Qc * nat :=
  (Pd.sum (take (i `min` w) (drop (i - w) cs)), i `min` w).

(** One step of [pct_change]: the current value against the previous one. *)
Definition change (cur prev : option Qc) : option Qc :=
  Pd.fsub (Pd.fdiv cur prev) (Some 1%Qc).

(** The price change in per cent, as both computations write it. *)
Definition change_pct (latest first : Qc) : option Qc :=
  Pd.fmul (Pd.fdiv (Pd.fsub (Some latest) (Some first)) (Some first)) (Pd.qz 100).

(** The end date as a day, moved back by 180 days and written out again. *)
Definition days_before_end (stop : string) (n : Z) : option string :=
  option_map (fun d => strftime_ymd (day (d - n))) (parse_ymd stop).

(** A method that leaves the analyzer as it found it, however it ends. *)
Definition keeps_self {A} (m : M A) : Prop :=
  forall self, final (m self) = self.

(** The files a run has written, in order. *)
Definition written (tr : list event) : list string :=
  omap (fun e =>
          match e with
          | WriteHtml p | SaveFig p => Some p
          | _ => None
          end) tr.

(** How often a run opened a chart window. *)
Definition shown (tr : list event) : nat :=
  length (List.filter (fun e => match e with Show => true | _ => false end) tr).

(** The end of a matplotlib chart and of the candlestick chart. *)
Definition figure_end (save_path : option string) : list event :=
  match given save_path with
  | Some p => [SaveFig p; Print ("Chart saved to " +:+ p)]
  | None => [Show]
  end.

Definition html_end (save_path : option string) : list event :=
  match given save_path with
  | Some p => [WriteHtml p; Print ("Chart saved to " +:+ p)]
  | None => [Show]
  end.

(** Red for a day that closed below its open, green otherwise. *)
Definition colors_of (closes opens : list Qc) : list string :=
  zip_with (fun c o => if bool_decide (c < o)%Qc then "red" else "green") closes opens.

(** The rolling mean of a column of numbers for a window that is no
    negative number. *)
Definition rolled (window : Z) (xs : list Qc) : list (option Qc) :=
  Pd.roll_mean (Z.to_nat window) (Z.to_nat window) (map Some xs) 0 (0%Qc, 0%nat)
    (map Some xs).

(** The overlay of the price chart for one period. *)
Definition ma_line (bars : list bar) (period : Z) : event :=
  Line ("MA" +:+ Str.of_Z period) (index (ohlcv bars))
    (Pd.cells (rolled period (map close bars))).

(** The daily returns of a series in per cent, from the second day on. *)
Definition return_percents (closes : list Qc) : list Qc :=
  map (fun r => (r * Pd.qz 100)%Qc) (return_fractions closes).

(** * Properties *)

(** ** The effect monad *)

Lemma outcome_eta {A} (o : outcome A) : Outcome (result o) (final o) (trace o) = o.
Proof. destruct o; reflexivity. Qed.

Lemma bind_ret {A B} (a : A) (f : A -> M B) self : bind (ret a) f self = f a self.
Proof. unfold bind, ret; simpl. apply outcome_eta. Qed.

Lemma bind_get_self {B} (f : visualizer -> M B) self : bind get_self f self = f self self.
Proof. unfold bind, get_self; simpl. apply outcome_eta. Qed.

Lemma bind_lift_inr {A B} (a : A) (f : A -> M B) self :
  bind (lift (inr a)) f self = f a self.
Proof. apply bind_ret. Qed.

Lemma bind_lift_inl {A B} (e : exn) (f : A -> M B) self :
  bind (lift (inl e)) f self = Outcome (inl e) self [].
Proof. reflexivity. Qed.

Lemma bind_emit {B} (ev : event) (f : unit -> M B) self :
  bind (emit ev) f self = after [ev] (f tt self).
Proof. reflexivity. Qed.

Lemma bind_print {B} (s : string) (f : unit -> M B) self :
  bind (print s) f self = after [Print s] (f tt self).
Proof. reflexivity. Qed.

Lemma bind_assoc {A B C} (m : M A) (f : A -> M B) (g : B -> M C) self :
  bind (bind m f) g self = bind m (fun a => bind (f a) g) self.
Proof.
  unfold bind. destruct (m self) as [[e|a] s tr]; cbn [result final trace]; [reflexivity|].
  destruct (f a s) as [[e|b] s' tr']; cbn [result final trace]; [reflexivity|].
  rewrite app_assoc. reflexivity.
Qed.

Lemma bind_run {A B} (m : M A) (f : A -> M B) self :
  bind m f self =
  match result (m self) with
  | inl e => Outcome (inl e) (final (m self)) (trace (m self))
  | inr a =>
      Outcome (result (f a (final (m self)))) (final (f a (final (m self))))
        (trace (m self) ++ trace (f a (final (m self))))
  end.
Proof. reflexivity. Qed.

Lemma bind_set_data {B} (d : option DataFrame) (f : unit -> M B) self :
  bind (set_data d) f self = f tt (with_frame self d).
Proof. unfold bind, set_data; simpl. apply outcome_eta. Qed.

Lemma with_frame_data (self : visualizer) : with_frame self (data self) = self.
Proof. destruct self; reflexivity. Qed.

Lemma with_frame_twice (self : visualizer) d d' :
  with_frame (with_frame self d) d' = with_frame self d'.
Proof. reflexivity. Qed.

Create Rewrite HintDb run.
#[export] Hint Rewrite @bind_ret @bind_get_self @bind_lift_inr @bind_lift_inl
  @bind_emit @bind_print @bind_set_data : run.

(** ** Calling a method without data *)

Lemma with_data_without_data (body : DataFrame -> M unit) (self : visualizer) :
  has_no_data self = true ->
  with_data body self = Outcome (inr tt) self [no_data_message].
Proof.
  unfold has_no_data, with_data. rewrite bind_get_self.
  destruct (data self) as [df|]; [|reflexivity].
  intros ->. reflexivity.
Qed.

(** C10: a chart or summary method called while the stored data is [None]
    or an empty frame prints the one message and returns: it raises
    nothing, draws nothing, shows nothing, writes no file, and leaves the
    analyzer as it was. *)
Theorem methods_return_without_data
    (sqrt : Qc -> Qc) (self : visualizer)
    (save_path : option string) (ma_periods : list Z) :
  has_no_data self = true ->
  plot_candlestick_chart save_path self = Outcome (inr tt) self [no_data_message]
  /\ plot_price_and_moving_averages ma_periods save_path self
     = Outcome (inr tt) self [no_data_message]
  /\ plot_volume_analysis save_path self = Outcome (inr tt) self [no_data_message]
  /\ plot_daily_returns save_path self = Outcome (inr tt) self [no_data_message]
  /\ print_summary sqrt self = Outcome (inr tt) self [no_data_message]
  /\ quiet [no_data_message] = true.
Proof.
  intros H. repeat split; try (apply with_data_without_data; exact H).
Qed.

Lemma methods_return_without_data_witness :
  has_no_data (holding "XYZ" "2024-01-01" "2024-06-30" raw0) = true
  /\ plot_daily_returns (Some "returns.png") (holding "XYZ" "2024-01-01" "2024-06-30" raw0)
     = Outcome (inr tt) (holding "XYZ" "2024-01-01" "2024-06-30" raw0) [no_data_message].
Proof.
  split; [reflexivity|].
  apply (methods_return_without_data sample_sqrt
           (holding "XYZ" "2024-01-01" "2024-06-30" raw0) (Some "returns.png") [20%Z]).
  reflexivity.
Defined.

(** ** Fetching *)

Section Fetch.

Variable to_datetime : list cell -> exn + list cell.
Variable VNSTOCK_VERSION : Z.
Variable history : string -> string -> string -> exn + option DataFrame.
Variable stock_historical_data : string -> string -> string -> exn + option DataFrame.

Local Abbreviation fetch :=
  (fetch_data to_datetime VNSTOCK_VERSION history stock_historical_data).
Local Abbreviation upstream :=
  (retrieved VNSTOCK_VERSION history stock_historical_data).

(** The normalization step, case by case. *)
Lemma normalize_cases (self : visualizer) :
  normalize to_datetime self =
  match data self with
  | None => Outcome (inr tt) self []
  | Some df =>
      let df1 := Pd.lower_columns df in
      if Pd.has_column "time" df1
      then
        match time_series df1 with
        | inl e => Outcome (inl e) (with_frame self (Some df1)) []
        | inr col =>
            match to_datetime col with
            | inl e => Outcome (inl e) (with_frame self (Some df1)) []
            | inr parsed =>
                match Pd.set_index (Pd.setitem df1 "time" parsed) "time" with
                | inl e =>
                    Outcome (inl e)
                      (with_frame self (Some (Pd.setitem df1 "time" parsed))) []
                | inr df3 => Outcome (inr tt) (with_frame self (Some df3)) []
                end
            end
        end
      else Outcome (inr tt) (with_frame self (Some df1)) []
  end.
Proof.
  unfold normalize. rewrite bind_get_self.
  destruct (data self) as [df|]; [|reflexivity].
  cbv zeta. rewrite bind_set_data.
  destruct (Pd.has_column "time" (Pd.lower_columns df)); [|reflexivity].
  destruct (time_series (Pd.lower_columns df)) as [e|col]; [reflexivity|].
  rewrite bind_lift_inr.
  destruct (to_datetime col) as [e|parsed]; [reflexivity|].
  rewrite bind_lift_inr, bind_set_data.
  destruct (Pd.set_index _ "time") as [e|df3]; reflexivity.
Qed.

Lemma normalize_silent (self : visualizer) : trace (normalize to_datetime self) = [].
Proof.
  rewrite normalize_cases.
  destruct (data self) as [df|]; [|reflexivity]. cbv zeta.
  destruct (Pd.has_column "time" _); [|reflexivity].
  destruct (time_series _) as [e|col]; [reflexivity|].
  destruct (to_datetime col) as [e|parsed]; [reflexivity|].
  destruct (Pd.set_index _ "time"); reflexivity.
Qed.

(** *** Normalizing twice *)

Lemma lower_ascii_idempotent (c : ascii) :
  Str.lower_ascii (Str.lower_ascii c) = Str.lower_ascii c.
Proof. destruct c as [[] [] [] [] [] [] [] []]; reflexivity. Qed.

Lemma lower_idempotent (s : string) : Str.lower (Str.lower s) = Str.lower s.
Proof.
  induction s as [|c s IH]; simpl; [reflexivity|].
  rewrite lower_ascii_idempotent, IH. reflexivity.
Qed.

Lemma lowered_lower_columns (df : DataFrame) : lowered (columns (Pd.lower_columns df)).
Proof.
  unfold lowered; simpl. induction (columns df) as [|nc cols IH]; simpl; constructor.
  - simpl. apply lower_idempotent.
  - exact IH.
Qed.

Lemma lower_columns_fixed (df : DataFrame) :
  lowered (columns df) -> Pd.lower_columns df = df.
Proof.
  destruct df as [nm idx cols]; unfold Pd.lower_columns, lowered; simpl.
  intros H. f_equal. induction H as [|[n c] cols Hn _ IH]; simpl; [reflexivity|].
  simpl in Hn. rewrite Hn, IH. reflexivity.
Qed.

Lemma lowered_setitem (df : DataFrame) name values :
  lowered (columns df) -> lowered (columns (Pd.setitem df name values)).
Proof.
  unfold lowered; simpl. induction 1 as [|nc cols Hn _ IH]; simpl; constructor; [|exact IH].
  destruct (String.eqb (fst nc) name); exact Hn.
Qed.

Lemma set_index_columns (df df' : DataFrame) name :
  Pd.set_index df name = inr df' ->
  columns df' = List.filter (fun nc => negb (String.eqb (fst nc) name)) (columns df).
Proof.
  unfold Pd.set_index. destruct (Pd.find_column name (columns df)); [|discriminate].
  intros [= <-]. reflexivity.
Qed.

Lemma lowered_filter (f : string * list cell -> bool) cols :
  lowered cols -> lowered (List.filter f cols).
Proof.
  unfold lowered. induction 1 as [|nc cols Hn _ IH]; simpl; [constructor|].
  destruct (f nc); [constructor|]; assumption.
Qed.

Lemma has_column_after_set_index (df df' : DataFrame) name :
  Pd.set_index df name = inr df' -> Pd.has_column name df' = false.
Proof.
  intros H. unfold Pd.has_column. rewrite (set_index_columns _ _ _ H).
  induction (columns df) as [|[n c] cols IH]; simpl; [reflexivity|].
  destruct (String.eqb n name) eqn:E; simpl; [exact IH|].
  rewrite String.eqb_sym, E. exact IH.
Qed.

(** A frame the step leaves, when it succeeds, is left as it is by a
    second step. *)
Lemma normalize_fixed_point (self self' : visualizer) :
  normalize to_datetime self = Outcome (inr tt) self' [] ->
  normalize to_datetime self' = Outcome (inr tt) self' [].
Proof.
  rewrite (normalize_cases self).
  destruct (data self) as [df|] eqn:Hd.
  2:{ intros [= <-]. rewrite normalize_cases, Hd. reflexivity. }
  cbv zeta.
  pose proof (lowered_lower_columns df) as Hlow.
  destruct (Pd.has_column "time" (Pd.lower_columns df)) eqn:Ht.
  - destruct (time_series _) as [e|col]; [discriminate|].
    destruct (to_datetime col) as [e|parsed]; [discriminate|].
    destruct (Pd.set_index _ "time") as [e|df3] eqn:Hs; [discriminate|].
    intros [= <-]. rewrite normalize_cases. simpl.
    assert (Pd.lower_columns df3 = df3) as ->.
    { apply lower_columns_fixed. rewrite (set_index_columns _ _ _ Hs).
      apply lowered_filter, lowered_setitem, Hlow. }
    rewrite (has_column_after_set_index _ _ _ Hs). reflexivity.
  - intros [= <-]. rewrite normalize_cases. simpl.
    rewrite (lower_columns_fixed _ Hlow), Ht. reflexivity.
Qed.

(** C9: the normalization step (labels to lowercase, a [time] column parsed
    and made the row labels) is idempotent: run twice on an analyzer it
    ends as one run does, with the same frame, result and trace; and a
    frame it has produced is left unchanged by a further run. *)
Theorem normalize_idempotent (self : visualizer) :
  bind (normalize to_datetime) (fun _ => normalize to_datetime) self
  = normalize to_datetime self
  /\ forall self',
       normalize to_datetime self = Outcome (inr tt) self' [] ->
       normalize to_datetime self' = Outcome (inr tt) self' [].
Proof.
  split; [|apply normalize_fixed_point].
  unfold bind.
  destruct (normalize to_datetime self) as [[e|[]] self' tr] eqn:H;
    cbn [result final trace]; [reflexivity|].
  pose proof (normalize_silent self) as Htr. rewrite H in Htr. simpl in Htr. subst tr.
  rewrite (normalize_fixed_point _ _ H). reflexivity.
Qed.

(** *** The verdict of [fetch_data] *)

Lemma fetch_data_cases (self : visualizer) :
  fetch self =
  match upstream self with
  | inl e => fetch_caught (fetching self) self e
  | inr r =>
      if (VNSTOCK_VERSION =? 3)%Z
      then
        let o := normalize to_datetime (with_frame self r) in
        match result o with
        | inl e => fetch_caught (fetching self) (final o) e
        | inr _ => fetch_verdict (fetching self) (final o)
        end
      else fetch_verdict (fetching self) (with_frame self r)
  end.
Proof.
  unfold fetch_data, retrieved, try_except.
  rewrite bind_get_self, bind_print.
  destruct (VNSTOCK_VERSION =? 3)%Z.
  - rewrite !bind_assoc.
    destruct (history _ _ _) as [e|r]; [reflexivity|].
    rewrite bind_lift_inr, bind_assoc, bind_set_data.
    cbv zeta. rewrite (bind_run (normalize to_datetime)).
    pose proof (normalize_silent (with_frame self r)) as Htr.
    destruct (normalize to_datetime (with_frame self r)) as [[e|[]] v tr];
      cbn [result final trace] in *; subst tr; [reflexivity|].
    rewrite bind_get_self. unfold fetch_verdict.
    destruct (data v) as [df|]; [|reflexivity].
    destruct (Pd.empty df); reflexivity.
  - rewrite !bind_assoc.
    destruct (stock_historical_data _ _ _) as [e|r]; [reflexivity|].
    rewrite bind_lift_inr, bind_set_data, bind_get_self. unfold fetch_verdict.
    cbn [data with_frame].
    destruct r as [df|]; [|reflexivity].
    destruct (Pd.empty df); reflexivity.
Qed.

(** C8, as the code has it: an error raised by the retrieval call is caught
    inside [fetch_data], which prints "Error fetching data: " with the
    message, prints the traceback, and returns [False]; nothing is raised to
    the caller, the cause is attached to nothing it receives, and the
    analyzer is left as it was. *)
Theorem fetch_data_catches_upstream_errors (self : visualizer) (e : exn) :
  upstream self = inl e ->
  fetch self
  = Outcome (inr false) self
      [fetching self; Print ("Error fetching data: " +:+ exn_str e); PrintExc e]
  /\ ~ propagates (fetch self) e.
Proof.
  intros H. rewrite fetch_data_cases, H. split; [reflexivity|].
  unfold propagates, fetch_caught. cbn [result]. discriminate.
Qed.

(** *** Nothing retrieved *)

Lemma find_column_without_rows (df : DataFrame) name c :
  columns_without_rows df -> Pd.find_column name (columns df) = Some c -> c = [].
Proof.
  unfold columns_without_rows.
  induction 1 as [|[n col] cols Hc _ IH]; simpl; [discriminate|].
  destruct (String.eqb n name); [|exact IH].
  intros [= <-]. exact Hc.
Qed.

Lemma empty_frame_shape (df : DataFrame) :
  well_formed df -> Pd.empty df = true ->
  columns df = [] \/ (index df = [] /\ columns_without_rows df).
Proof.
  unfold well_formed, Pd.empty, Pd.len, columns_without_rows. intros Hwf He.
  apply orb_true_iff in He as [He|He].
  - right. apply Nat.eqb_eq in He. apply length_zero_iff_nil in He as Hi.
    split; [exact Hi|].
    eapply Forall_impl; [|exact Hwf]. intros nc Hn. simpl in Hn.
    rewrite He in Hn. apply length_zero_iff_nil. exact Hn.
  - left. apply Nat.eqb_eq in He. apply length_zero_iff_nil. exact He.
Qed.

Lemma lower_columns_without_rows (df : DataFrame) :
  columns_without_rows df -> columns_without_rows (Pd.lower_columns df).
Proof.
  unfold columns_without_rows; simpl.
  induction 1 as [|nc cols Hc _ IH]; simpl; constructor; assumption.
Qed.

Lemma setitem_without_rows (df : DataFrame) name :
  columns_without_rows df -> columns_without_rows (Pd.setitem df name []).
Proof.
  unfold columns_without_rows; simpl.
  induction 1 as [|nc cols Hc _ IH]; simpl; constructor; [|exact IH].
  destruct (String.eqb (fst nc) name); [reflexivity|exact Hc].
Qed.

Lemma time_series_find (df : DataFrame) col :
  time_series df = inr col -> Pd.find_column "time" (columns df) = Some col.
Proof.
  unfold time_series, Pd.getitem.
  destruct (1 <? _)%nat; [discriminate|].
  destruct (Pd.find_column "time" (columns df)); [|discriminate].
  intros [= <-]. reflexivity.
Qed.

Lemma empty_no_rows (df : DataFrame) : index df = [] -> Pd.empty df = true.
Proof. unfold Pd.empty, Pd.len. intros ->. reflexivity. Qed.

Lemma empty_no_columns (df : DataFrame) : columns df = [] -> Pd.empty df = true.
Proof. unfold Pd.empty. intros ->. apply orb_true_r. Qed.

(** Normalizing an empty frame, whether it ends well or not, leaves an
    empty frame. *)
Lemma normalize_keeps_no_data (self : visualizer) :
  (forall col out, to_datetime col = inr out -> length out = length col) ->
  match data self with
  | None => True
  | Some df => well_formed df /\ Pd.empty df = true
  end ->
  has_no_data (final (normalize to_datetime self)) = true.
Proof.
  intros Hlen Hd. rewrite normalize_cases. unfold has_no_data.
  destruct (data self) as [df|] eqn:E; [|simpl; rewrite E; reflexivity].
  destruct Hd as [Hwf He]. cbv zeta.
  destruct (empty_frame_shape df Hwf He) as [Hc|[Hi Hr]].
  { assert (Pd.has_column "time" (Pd.lower_columns df) = false) as ->
      by (unfold Pd.has_column; simpl; rewrite Hc; reflexivity).
    simpl. apply empty_no_columns. simpl. rewrite Hc. reflexivity. }
  assert (Pd.empty (Pd.lower_columns df) = true) as He1
    by (apply empty_no_rows; exact Hi).
  destruct (Pd.has_column "time" _); [|exact He1].
  destruct (time_series _) as [e|col] eqn:Hts; [exact He1|].
  apply time_series_find in Hts.
  apply (find_column_without_rows _ _ _ (lower_columns_without_rows _ Hr)) in Hts.
  subst col.
  destruct (to_datetime []) as [e|parsed] eqn:Htd; [exact He1|].
  apply Hlen in Htd. apply length_zero_iff_nil in Htd. subst parsed.
  destruct (Pd.set_index _ "time") as [e|df3] eqn:Hs; simpl.
  - apply empty_no_rows. exact Hi.
  - apply empty_no_rows. unfold Pd.set_index in Hs.
    destruct (Pd.find_column "time" _) as [c|] eqn:Hf; [|discriminate].
    injection Hs as <-. simpl.
    apply (find_column_without_rows (Pd.setitem (Pd.lower_columns df) "time" []) "time").
    + apply setitem_without_rows, lower_columns_without_rows, Hr.
    + exact Hf.
Qed.

Lemma fetch_verdict_no_data (first : event) (self : visualizer) :
  has_no_data self = true ->
  fetch_verdict first self = Outcome (inr false) self [first; Print "No data retrieved"].
Proof.
  unfold has_no_data, fetch_verdict. destruct (data self) as [df|]; [|reflexivity].
  intros ->. reflexivity.
Qed.

(** A fetch that retrieves nothing returns [False]; it raises nothing, and
    all it leaves are printed lines: "No data retrieved", or the error of a
    normalization that the empty frame made raise. *)
Lemma fetch_data_nothing_retrieved (self : visualizer) (r : option DataFrame) :
  (forall col out, to_datetime col = inr out -> length out = length col) ->
  upstream self = inr r ->
  match r with
  | None => True
  | Some df => well_formed df /\ Pd.empty df = true
  end ->
  exists v tr,
    fetch self = Outcome (inr false) v (fetching self :: tr)
    /\ has_no_data v = true
    /\ quiet tr = true
    /\ (r = None -> v = with_frame self None /\ tr = [Print "No data retrieved"])
    /\ (tr = [Print "No data retrieved"]
        \/ exists e,
             VNSTOCK_VERSION = 3%Z /\ r <> None
             /\ result (normalize to_datetime (with_frame self r)) = inl e
             /\ tr = [Print ("Error fetching data: " +:+ exn_str e); PrintExc e]).
Proof.
  intros Hlen Hup Hr. rewrite fetch_data_cases, Hup.
  assert (has_no_data (with_frame self r) = true) as H0.
  { unfold has_no_data; simpl. destruct r as [df|]; [apply Hr|reflexivity]. }
  destruct (VNSTOCK_VERSION =? 3)%Z eqn:Hv3.
  - cbv zeta. apply Z.eqb_eq in Hv3.
    pose proof (normalize_keeps_no_data (with_frame self r) Hlen Hr) as Hn.
    destruct r as [df|].
    + destruct (result (normalize to_datetime _)) as [e|[]] eqn:Hres.
      * eexists _, _. split; [reflexivity|].
        split; [exact Hn|]. split; [reflexivity|]. split; [discriminate|].
        right. exists e. repeat split; [exact Hv3|discriminate].
      * rewrite (fetch_verdict_no_data _ _ Hn).
        eexists _, _. split; [reflexivity|].
        split; [exact Hn|]. split; [reflexivity|]. split; [discriminate|].
        left. reflexivity.
    + rewrite normalize_cases. simpl.
      eexists _, _. split; [reflexivity|]. repeat split. left. reflexivity.
  - rewrite (fetch_verdict_no_data _ _ H0).
    eexists _, _. split; [reflexivity|]. split; [exact H0|]. split; [reflexivity|].
    split; [|left; reflexivity].
    intros ->. split; reflexivity.
Qed.

End Fetch.

(** ** The callers of [fetch_data] *)

Lemma upper_ascii_idempotent (c : ascii) :
  Str.upper_ascii (Str.upper_ascii c) = Str.upper_ascii c.
Proof. destruct c as [[] [] [] [] [] [] [] []]; reflexivity. Qed.

Lemma upper_idempotent (s : string) : Str.upper (Str.upper s) = Str.upper s.
Proof.
  induction s as [|c s IH]; simpl; [reflexivity|].
  rewrite upper_ascii_idempotent, IH. reflexivity.
Qed.

Lemma init_upper (now : clock) (t : nat) (sym : string) (start stop : option string) :
  init now t (Str.upper sym) start stop = init now t sym start stop.
Proof. unfold init. rewrite upper_idempotent. reflexivity. Qed.

Lemma quiet_app (tr tr' : list event) : quiet (tr ++ tr') = quiet tr && quiet tr'.
Proof. apply forallb_app. Qed.

Section Callers.

Variable sqrt : Qc -> Qc.
Variable to_datetime : list cell -> exn + list cell.
Variable VNSTOCK_VERSION : Z.
Variable history : string -> string -> string -> exn + option DataFrame.
Variable stock_historical_data : string -> string -> string -> exn + option DataFrame.
Variable now : clock.
Variable CHART_OUTPUT_DIR : string.

Local Abbreviation fetch :=
  (fetch_data to_datetime VNSTOCK_VERSION history stock_historical_data).
Local Abbreviation upstream :=
  (retrieved VNSTOCK_VERSION history stock_historical_data).
Local Abbreviation run_main :=
  (main sqrt to_datetime VNSTOCK_VERSION history stock_historical_data now).
Local Abbreviation handle :=
  (analyze_stock sqrt to_datetime VNSTOCK_VERSION history stock_historical_data now
     CHART_OUTPUT_DIR).

(** C1, as the code has it: when the retrieval call returns [None] or an
    empty frame, [fetch_data] raises nothing: it returns [False], the same
    value it returns for a provider error, and leaves an analyzer without
    data.  After its first line it prints "No data retrieved", a line that
    does not name the symbol; only when the normalization of the empty
    frame itself raises does it print "Error fetching data: " with that
    error and the traceback instead.  Its callers stop there: [main] prints
    these lines, then "Failed to fetch data. Exiting.", and returns; the web
    handler prints these lines and answers 400 with "Failed to fetch data
    for" and the symbol; neither computes a statistic or draws a chart. *)
Theorem nothing_retrieved_nothing_rendered
    (t : nat) (sym : string) (start stop : option string)
    (charts : bool) (dir : string) (r : option DataFrame) :
  (forall col out, to_datetime col = inr out -> length out = length col) ->
  upstream (fst (init now t sym start stop)) = inr r ->
  match r with
  | None => True
  | Some df => well_formed df /\ Pd.empty df = true
  end ->
  result (fetch (fst (init now t sym start stop))) = inr false
  /\ ~ signals_no_data (fetch (fst (init now t sym start stop))) (Str.upper sym)
  /\ quiet (trace (fetch (fst (init now t sym start stop)))) = true
  /\ (r = None ->
      trace (fetch (fst (init now t sym start stop)))
      = [fetching (fst (init now t sym start stop)); Print "No data retrieved"])
  /\ has_no_data (final (fetch (fst (init now t sym start stop)))) = true
  /\ (trace (fetch (fst (init now t sym start stop)))
      = [fetching (fst (init now t sym start stop)); Print "No data retrieved"]
      \/ exists e,
           VNSTOCK_VERSION = 3%Z /\ r <> None
           /\ result (normalize to_datetime
                        (with_frame (fst (init now t sym start stop)) r)) = inl e
           /\ trace (fetch (fst (init now t sym start stop)))
              = [fetching (fst (init now t sym start stop));
                 Print ("Error fetching data: " +:+ exn_str e); PrintExc e])
  /\ run_main t {| arg_symbol := sym; arg_start := start; arg_end := stop;
                   save_charts := charts; output_dir := dir |}
     = Outcome (inr tt) (final (fetch (fst (init now t sym start stop))))
         (trace (fetch (fst (init now t sym start stop)))
          ++ [Print "Failed to fetch data. Exiting."])
  /\ quiet (trace (run_main t {| arg_symbol := sym; arg_start := start; arg_end := stop;
                                 save_charts := charts; output_dir := dir |})) = true
  /\ (Str.upper sym <> "" ->
      handle t (Some {| req_symbol := Some (JString sym); req_start_date := start;
                        req_end_date := stop |})
      = (ErrorBody ("Failed to fetch data for " +:+ Str.upper sym) 400,
         trace (fetch (fst (init now t sym start stop))))).
Proof.
  intros Hlen Hup Hr.
  destruct (fetch_data_nothing_retrieved to_datetime VNSTOCK_VERSION history
              stock_historical_data _ r Hlen Hup Hr)
    as (v & tr & Hf & Hv & Hq & Hnone & Hline).
  assert (forall k : bool -> M unit,
            bind fetch k (fst (init now t sym start stop))
            = Outcome (result (k false v)) (final (k false v))
                ((fetching (fst (init now t sym start stop)) :: tr) ++ trace (k false v)))
    as Hm.
  { intros k. rewrite bind_run, Hf. reflexivity. }
  assert (run_main t {| arg_symbol := sym; arg_start := start; arg_end := stop;
                        save_charts := charts; output_dir := dir |}
          = Outcome (inr tt) v
              ((fetching (fst (init now t sym start stop)) :: tr)
               ++ [Print "Failed to fetch data. Exiting."])) as Hmain.
  { unfold main. cbn [arg_symbol arg_start arg_end].
    destruct (init now t sym start stop) as [self t'] eqn:Hi. cbn [fst] in *.
    rewrite Hm. reflexivity. }
  rewrite Hmain, Hf. cbn [result final trace].
  split; [reflexivity|].
  split; [intros (e & He & _); discriminate|].
  split; [exact Hq|].
  split; [intros ->; destruct (Hnone eq_refl) as [_ ->]; reflexivity|].
  split; [exact Hv|].
  split.
  { destruct Hline as [->|(e & H3 & Hr0 & Hres & ->)]; [left; reflexivity|].
    right. exists e. repeat split; assumption. }
  split; [reflexivity|].
  split.
  { rewrite quiet_app.
    change (quiet (fetching (fst (init now t sym start stop)) :: tr)) with (quiet tr).
    rewrite Hq. reflexivity. }
  intros Hsym. unfold analyze_stock.
  cbn [req_symbol req_start_date req_end_date default from_option json_upper]. unfold id.
  cbn [json_upper].
  destruct (String.eqb (Str.upper sym) "") eqn:E;
    [apply String.eqb_eq in E; contradiction|].
  rewrite init_upper.
  destruct (init now t sym start stop) as [self t'] eqn:Hi. cbn [fst] in *.
  unfold analyze_body. rewrite bind_run, Hf. cbn [result final trace negb ret fst snd].
  rewrite app_nil_r. reflexivity.
Qed.

End Callers.

(** ** Moving averages *)

Section Rolling.

Local Open Scope Qc_scope.

Lemma map_fmap {A B} (f : A -> B) (l : list A) : map f l = f <$> l.
Proof. reflexivity. Qed.

Lemma sum_app (l k : list Qc) : Pd.sum (l ++ k) = Pd.sum l + Pd.sum k.
Proof.
  induction l as [|x l IH]; simpl; [ring|]. rewrite IH. ring.
Qed.

Lemma sum_take_S (l : list Qc) (n : nat) (x : Qc) :
  l !! n = Some x -> Pd.sum (take (S n) l) = Pd.sum (take n l) + x.
Proof.
  intros H. rewrite (take_S_r _ _ _ H), sum_app. simpl. ring.
Qed.

(** Sliding a full window one place to the right. *)
Lemma sum_window_slide (l : list Qc) (s w : nat) (x y : Qc) :
  l !! s = Some y -> l !! (s + w)%nat = Some x ->
  Pd.sum (take w (drop (S s) l)) = Pd.sum (take w (drop s l)) + x - y.
Proof.
  intros Hy Hx.
  assert (Pd.sum (take (S w) (drop s l)) = Pd.sum (take w (drop s l)) + x) as H1.
  { apply sum_take_S. rewrite lookup_drop. exact Hx. }
  rewrite (drop_S _ _ _ Hy) in H1 at 1. simpl in H1.
  rewrite <- H1. ring.
Qed.

Lemma window_state_step (cs : list Qc) (w i : nat) (x : Qc) :
  cs !! i = Some x ->
  (if (w <=? i)%nat
   then match map Some cs !! (i - w)%nat with
        | Some old => Pd.remove_mean old (Pd.add_mean (Some x) (window_state cs w i))
        | None => Pd.add_mean (Some x) (window_state cs w i)
        end
   else Pd.add_mean (Some x) (window_state cs w i))
  = window_state cs w (S i).
Proof.
  intros Hx. unfold window_state, Pd.add_mean. cbn [fst snd].
  destruct (w <=? i)%nat eqn:E.
  - apply Nat.leb_le in E.
    destruct (lookup_lt_is_Some_2 cs (i - w)) as [y Hy].
    { apply lookup_lt_Some in Hx. lia. }
    rewrite map_fmap, list_lookup_fmap, Hy. cbn [fmap option_fmap option_map].
    unfold Pd.remove_mean. cbn [fst snd pred].
    replace (S i `min` w)%nat with w by lia.
    replace (i `min` w)%nat with w by lia.
    replace (S i - w)%nat with (S (i - w)) by lia.
    rewrite (sum_window_slide cs (i - w) w x y Hy); [reflexivity|].
    replace (i - w + w)%nat with i by lia. exact Hx.
  - apply Nat.leb_gt in E.
    replace (S i `min` w)%nat with (S i) by lia.
    replace (i `min` w)%nat with i by lia.
    replace (S i - w)%nat with 0%nat by lia.
    replace (i - w)%nat with 0%nat by lia.
    rewrite !drop_0, (sum_take_S _ _ _ Hx). reflexivity.
Qed.

(** The pass computes, at each position, the mean of the window that ends
    there. *)
Lemma roll_mean_windows (cs : list Qc) (w minp n i : nat) :
  (i + n)%nat = length cs ->
  Pd.roll_mean w minp (map Some cs) i (window_state cs w i) (map Some (drop i cs))
  = map (fun j => Pd.calc_mean minp (window_state cs w (S j))) (seq i n).
Proof.
  revert i. induction n as [|n IH]; intros i Hn.
  - rewrite drop_ge by lia. reflexivity.
  - destruct (lookup_lt_is_Some_2 cs i) as [x Hx]; [lia|].
    rewrite (drop_S _ _ _ Hx). cbn [map seq Pd.roll_mean]. cbv zeta.
    rewrite (window_state_step cs w i x Hx).
    f_equal. apply IH. lia.
Qed.

Lemma rolling_mean_windows (cs : list Qc) (w : Z) :
  (0 <= w)%Z ->
  Pd.rolling_mean w (map Some cs)
  = inr (map (fun j => Pd.calc_mean (Z.to_nat w) (window_state cs (Z.to_nat w) (S j)))
           (seq 0 (length cs))).
Proof.
  intros Hw. unfold Pd.rolling_mean.
  destruct (w <? 0)%Z eqn:E; [apply Z.ltb_lt in E; lia|].
  cbv zeta. f_equal.
  apply (roll_mean_windows cs (Z.to_nat w) (Z.to_nat w) (length cs) 0). reflexivity.
Qed.

Lemma numbers_map_Num (xs : list Qc) : Pd.numbers (map Num xs) = inr (map Some xs).
Proof.
  induction xs as [|x xs IH]; simpl; [reflexivity|]. rewrite IH. reflexivity.
Qed.

Lemma lookup_map_seq {A} (f : nat -> A) (n i : nat) :
  (i < n)%nat -> map f (seq 0 n) !! i = Some (f i).
Proof.
  intros Hi. rewrite map_fmap, list_lookup_fmap.
  replace (seq 0 n !! i) with (Some i); [reflexivity|].
  symmetry. apply lookup_seq. split; [reflexivity|exact Hi].
Qed.

(** The window that ends at position [i] reads no value after [i]. *)
Lemma window_state_prefix (cs cs' : list Qc) (w i : nat) :
  take i cs' = take i cs -> window_state cs' w i = window_state cs w i.
Proof.
  intros H. unfold window_state. f_equal.
  rewrite !take_drop_commute.
  replace (i - w + i `min` w)%nat with i by lia.
  rewrite H. reflexivity.
Qed.

Lemma moving_average_numeric (df : DataFrame) (field : string) (xs : list Qc) (w : Z) :
  Pd.getitem df field = inr (map Num xs) ->
  moving_average df field w = Pd.rolling_mean w (map Some xs).
Proof.
  intros H. unfold moving_average. rewrite H, numbers_map_Num. reflexivity.
Qed.

(** C5: for a column of numbers and a window [w >= 1], the moving average
    at position [i] is undefined when [i < w - 1] and is the arithmetic mean
    of the [w] values at positions [i - w + 1 .. i] otherwise; it is the
    same for every series that agrees on positions [0 .. i], so no later
    record enters it. *)
Theorem moving_average_is_trailing_mean
    (df : DataFrame) (field : string) (xs : list Qc) (w : Z) (i : nat) :
  Pd.getitem df field = inr (map Num xs) ->
  (0 < w)%Z ->
  (i < length xs)%nat ->
  exists ma,
    moving_average df field w = inr ma
    /\ ((Z.of_nat i < w - 1)%Z -> ma !! i = Some None)
    /\ ((w - 1 <= Z.of_nat i)%Z ->
        ma !! i
        = Some (Some (arithmetic_mean
                        (take (Z.to_nat w) (drop (i + 1 - Z.to_nat w) xs)))))
    /\ (forall df' ys,
          Pd.getitem df' field = inr (map Num ys) ->
          take (S i) ys = take (S i) xs ->
          exists ma', moving_average df' field w = inr ma' /\ ma' !! i = ma !! i).
Proof.
  intros Hcol Hw Hi.
  rewrite (moving_average_numeric _ _ _ _ Hcol), rolling_mean_windows by lia.
  eexists. split; [reflexivity|].
  rewrite (lookup_map_seq _ _ _ Hi).
  unfold Pd.calc_mean, window_state. cbn [fst snd].
  split; [|split].
  - intros Hlt. replace (S i `min` Z.to_nat w)%nat with (S i) by lia.
    destruct (Z.to_nat w <=? S i)%nat eqn:E; [apply Nat.leb_le in E; lia|reflexivity].
  - intros Hge. replace (S i `min` Z.to_nat w)%nat with (Z.to_nat w) by lia.
    rewrite Nat.leb_refl.
    destruct (0 <? Z.to_nat w)%nat eqn:E; [|apply Nat.ltb_ge in E; lia].
    cbn [andb]. unfold arithmetic_mean.
    rewrite length_take, length_drop.
    replace (S i - Z.to_nat w)%nat with (i + 1 - Z.to_nat w)%nat by lia.
    replace (Z.to_nat w `min` (length xs - (i + 1 - Z.to_nat w)))%nat
      with (Z.to_nat w) by lia.
    reflexivity.
  - intros df' ys Hcol' Hpre.
    rewrite (moving_average_numeric _ _ _ _ Hcol'), rolling_mean_windows by lia.
    eexists. split; [reflexivity|].
    assert (i < length ys)%nat as Hi'.
    { assert (length (take (S i) ys) = length (take (S i) xs)) as Hl by (rewrite Hpre; reflexivity).
      rewrite !length_take in Hl. lia. }
    rewrite (lookup_map_seq _ _ _ Hi').
    unfold Pd.calc_mean. rewrite (window_state_prefix xs ys _ (S i) Hpre). reflexivity.
Qed.

(** *** A window longer than the series *)

Lemma getitem_open (bars : list bar) :
  Pd.getitem (ohlcv bars) "open" = inr (map Num (map open bars)).
Proof. rewrite map_map. reflexivity. Qed.

Lemma getitem_high (bars : list bar) :
  Pd.getitem (ohlcv bars) "high" = inr (map Num (map high bars)).
Proof. rewrite map_map. reflexivity. Qed.

Lemma getitem_low (bars : list bar) :
  Pd.getitem (ohlcv bars) "low" = inr (map Num (map low bars)).
Proof. rewrite map_map. reflexivity. Qed.

Lemma getitem_close (bars : list bar) :
  Pd.getitem (ohlcv bars) "close" = inr (map Num (map close bars)).
Proof. rewrite map_map. reflexivity. Qed.

Lemma getitem_volume (bars : list bar) :
  Pd.getitem (ohlcv bars) "volume" = inr (map Num (map volume bars)).
Proof. rewrite map_map. reflexivity. Qed.

Lemma ohlcv_not_empty (bars : list bar) : bars <> [] -> Pd.empty (ohlcv bars) = false.
Proof. destruct bars; [congruence|reflexivity]. Qed.

Lemma len_ohlcv (bars : list bar) : Pd.len (ohlcv bars) = length bars.
Proof. unfold Pd.len; simpl. apply length_map. Qed.

Lemma bar_colors_numeric (cs os : list Qc) :
  exists colors, bar_colors (map Num cs) (map Num os) = inr colors.
Proof.
  revert os. induction cs as [|c cs IH]; intros [|o os]; simpl; eauto.
  destruct (IH os) as [colors ->]. eauto.
Qed.

Lemma rolling_mean_short (xs : list Qc) (w : Z) :
  (Z.of_nat (length xs) < w)%Z ->
  Pd.rolling_mean w (map Some xs) = inr (replicate (length xs) None).
Proof.
  intros Hw. rewrite rolling_mean_windows by lia. f_equal.
  apply list_eq. intros i.
  destruct (decide (i < length xs)%nat) as [Hi|Hi].
  - rewrite (lookup_map_seq _ _ _ Hi), (lookup_replicate_2 _ _ _ Hi).
    unfold Pd.calc_mean, window_state. cbn [fst snd].
    replace (S i `min` Z.to_nat w)%nat with (S i) by lia.
    destruct (Z.to_nat w <=? S i)%nat eqn:E; [apply Nat.leb_le in E; lia|reflexivity].
  - rewrite !lookup_ge_None_2; [reflexivity| |].
    + rewrite length_replicate. lia.
    + rewrite length_map, length_seq. lia.
Qed.

Lemma cells_replicate_None (n : nat) : Pd.cells (replicate n None) = replicate n NaN.
Proof. induction n as [|n IH]; simpl; [reflexivity|]. f_equal. exact IH. Qed.

Lemma for_each_all_skipped (df : DataFrame) (periods : list Z) self :
  Forall (fun p => (Z.of_nat (Pd.len df) < p)%Z) periods ->
  for_each periods (fun period =>
    if (period <=? Z.of_nat (Pd.len df))%Z
    then
      ma <- lift (moving_average df "close" period) ;;
      emit (Line ("MA" +:+ Str.of_Z period) (index df) (Pd.cells ma))
    else ret tt) self
  = Outcome (inr tt) self [].
Proof.
  induction 1 as [|p periods Hp _ IH]; [reflexivity|].
  cbn [for_each]. apply Z.leb_gt in Hp. rewrite Hp, bind_ret. exact IH.
Qed.

Lemma overlays_cons (e : event) (tr : list event) :
  overlays (e :: tr)
  = match e with
    | Line label _ y =>
        if String.prefix "MA" label || String.prefix "Volume MA" label
        then (label, y) :: overlays tr else overlays tr
    | _ => overlays tr
    end.
Proof.
  destruct e; try reflexivity.
  unfold overlays; simpl. destruct (_ || _); reflexivity.
Qed.

Lemma savefig_or_show_returns (save_path : option string) self :
  exists tr, savefig_or_show save_path self = Outcome (inr tt) self tr
             /\ overlays tr = [].
Proof.
  unfold savefig_or_show. destruct (given save_path); eexists; split; reflexivity.
Qed.

(** C6, as the code has it: on a series shorter than the window the rolling
    mean itself raises nothing and is undefined at every position, and
    that is what the volume chart draws for its window of 20; the price
    chart compares the window with the length first and draws no overlay
    for such a window. *)
Theorem window_longer_than_series
    (bars : list bar) (sym start stop : string) (w : Z) (periods : list Z)
    (save_path : option string) :
  bars <> [] ->
  (Z.of_nat (length bars) < w)%Z ->
  Forall (fun p => (Z.of_nat (length bars) < p)%Z) periods ->
  moving_average (ohlcv bars) "close" w = inr (replicate (length bars) None)
  /\ moving_average (ohlcv bars) "volume" w = inr (replicate (length bars) None)
  /\ result (plot_price_and_moving_averages periods save_path
               (holding sym start stop (ohlcv bars))) = inr tt
  /\ overlays (trace (plot_price_and_moving_averages periods save_path
                        (holding sym start stop (ohlcv bars)))) = []
  /\ ((length bars < 20)%nat ->
      result (plot_volume_analysis save_path (holding sym start stop (ohlcv bars)))
      = inr tt
      /\ overlays (trace (plot_volume_analysis save_path
                            (holding sym start stop (ohlcv bars))))
         = [("Volume MA20", replicate (length bars) NaN)]).
Proof.
  intros Hne Hw Hps.
  assert (forall k, (Z.of_nat (length bars) < k)%Z ->
            moving_average (ohlcv bars) "close" k = inr (replicate (length bars) None)
            /\ moving_average (ohlcv bars) "volume" k = inr (replicate (length bars) None))
    as Hma.
  { intros k Hk. split.
    - rewrite (moving_average_numeric _ _ _ _ (getitem_close bars)).
      rewrite rolling_mean_short; rewrite length_map; [reflexivity|exact Hk].
    - rewrite (moving_average_numeric _ _ _ _ (getitem_volume bars)).
      rewrite rolling_mean_short; rewrite length_map; [reflexivity|exact Hk]. }
  destruct (savefig_or_show_returns save_path (holding sym start stop (ohlcv bars)))
    as (tr & Hsave & Htr).
  split; [apply (Hma w Hw)|]. split; [apply (Hma w Hw)|].
  assert (plot_price_and_moving_averages periods save_path
            (holding sym start stop (ohlcv bars))
          = Outcome (inr tt) (holding sym start stop (ohlcv bars))
              (Line "Close Price" (index (ohlcv bars)) (map Num (map close bars)) :: tr))
    as Hprice.
  { unfold plot_price_and_moving_averages, with_data.
    rewrite bind_get_self. cbn [data holding]. rewrite (ohlcv_not_empty _ Hne).
    rewrite getitem_close, bind_lift_inr, bind_emit.
    rewrite bind_run, for_each_all_skipped by (rewrite len_ohlcv; exact Hps).
    cbn [result final trace]. rewrite Hsave. reflexivity. }
  rewrite Hprice. split; [reflexivity|]. split; [exact Htr|].
  intros H20.
  destruct (bar_colors_numeric (map close bars) (map open bars)) as [colors Hcol].
  assert (plot_volume_analysis save_path (holding sym start stop (ohlcv bars))
          = Outcome (inr tt) (holding sym start stop (ohlcv bars))
              (Line "" (index (ohlcv bars)) (map Num (map close bars))
               :: Bar (index (ohlcv bars)) (map Num (map volume bars)) colors
               :: Line "Volume MA20" (index (ohlcv bars)) (replicate (length bars) NaN)
               :: tr))
    as Hvol.
  { unfold plot_volume_analysis, with_data.
    rewrite bind_get_self. cbn [data holding]. rewrite (ohlcv_not_empty _ Hne).
    rewrite getitem_close, bind_lift_inr, bind_emit.
    rewrite getitem_open, bind_lift_inr, Hcol, bind_lift_inr.
    rewrite getitem_volume, bind_lift_inr, bind_emit.
    rewrite (proj2 (Hma 20%Z ltac:(lia))), bind_lift_inr, bind_emit.
    rewrite Hsave, cells_replicate_None. reflexivity. }
  rewrite Hvol. split; [reflexivity|]. cbn [trace].
  rewrite !overlays_cons, Htr. reflexivity.
Qed.

End Rolling.

(** ** Returns, volatility and the summary *)

Section Statistics.

Local Open Scope Qc_scope.

Lemma zip_with_removelast {A B} (f : A -> A -> B) (x : A) (r : list A) :
  zip_with f r (removelast (x :: r)) = zip_with f r (x :: r).
Proof.
  revert x. induction r as [|y r IH]; intros x; [reflexivity|].
  change (removelast (x :: y :: r)) with (x :: removelast (y :: r)).
  cbn [zip_with]. rewrite IH. reflexivity.
Qed.

Lemma pct_change_cons (x : option Qc) (r : list (option Qc)) :
  Pd.pct_change (x :: r) = None :: zip_with change r (x :: r).
Proof.
  unfold Pd.pct_change, Pd.shift1. cbn [zip_with].
  fold change. rewrite zip_with_removelast.
  destruct x; reflexivity.
Qed.

Lemma change_numeric (c p : Qc) :
  p <> 0 -> change (Some c) (Some p) = Some ((c - p) / p).
Proof.
  intros Hp. unfold change, Pd.fdiv, Pd.fsub.
  destruct (decide (p = 0)) as [E|_]; [contradiction|].
  f_equal. field. exact Hp.
Qed.

Lemma zip_with_change_numeric (r k : list Qc) :
  Forall (fun c => c <> 0) k ->
  zip_with change (map Some r) (map Some k)
  = map Some (zip_with (fun cur prev => (cur - prev) / prev) r k).
Proof.
  intros Hk. revert r. induction Hk as [|p k Hp _ IH]; intros [|c r]; try reflexivity.
  cbn [map zip_with]. rewrite (change_numeric c p Hp), IH. reflexivity.
Qed.

(** The fractional changes of a column of non-zero numbers: nothing at the
    first position, the return fractions after it. *)
Lemma pct_change_numeric (cs : list Qc) :
  cs <> [] ->
  Forall (fun c => c <> 0) cs ->
  Pd.pct_change (map Some cs) = None :: map Some (return_fractions cs).
Proof.
  intros Hne Hnz. destruct cs as [|c r]; [congruence|].
  cbn [map]. rewrite pct_change_cons. f_equal.
  change (Some c :: map Some r) with (map Some (c :: r)).
  apply zip_with_change_numeric. exact Hnz.
Qed.

(** The first position is undefined for every series that has one. *)
Lemma daily_returns_first (c0 : Qc) (r : list Qc) :
  daily_returns_pct (map Some (c0 :: r)) !! 0%nat = Some None.
Proof. unfold daily_returns_pct. cbn [map]. rewrite pct_change_cons. reflexivity. Qed.

(** C4: the daily percentage return of a series is undefined at position 0
    and, at a later position whose previous close is not zero, it is
    [(close[i] - close[i-1]) / close[i-1] * 100]. *)
Theorem daily_returns_formula (cs : list Qc) :
  daily_returns_pct (map Some cs) !! 0%nat
  = match cs with
    | [] => None
    | _ :: _ => Some None
    end
  /\ forall (i : nat) (c p : Qc),
       cs !! S i = Some c ->
       cs !! i = Some p ->
       p <> 0 ->
       daily_returns_pct (map Some cs) !! S i = Some (Some ((c - p) / p * Pd.qz 100)).
Proof.
  split; [destruct cs; [reflexivity|apply daily_returns_first]|].
  intros i c p Hc Hp Hnz. unfold daily_returns_pct.
  destruct cs as [|c0 r]; [discriminate|].
  cbn [map]. rewrite pct_change_cons.
  rewrite lookup_cons in Hc.
  rewrite map_fmap, list_lookup_fmap, lookup_cons, lookup_zip_with.
  change (Some c0 :: map Some r) with (Some <$> (c0 :: r)).
  rewrite (map_fmap Some r), !list_lookup_fmap, Hc, Hp.
  cbn [fmap option_fmap option_map mbind option_bind].
  rewrite (change_numeric c p Hnz). reflexivity.
Qed.

Lemma dropna_None (l : list (option Qc)) : Pd.dropna (None :: l) = Pd.dropna l.
Proof. reflexivity. Qed.

Lemma dropna_map_Some (l : list Qc) : Pd.dropna (map Some l) = l.
Proof.
  unfold Pd.dropna. induction l as [|x l IH]; [reflexivity|].
  cbn [map omap list_omap]. simpl. f_equal. exact IH.
Qed.

(** No return of a column of non-zero numbers is infinite. *)
Lemma overflows_numeric (r k : list Qc) :
  Forall (fun c => c <> 0) k ->
  existsb id (zip_with Pd.overflows (map Some r) (map Some k)) = false.
Proof.
  intros Hk. revert r. induction Hk as [|p k Hp _ IH]; intros [|c r]; try reflexivity.
  cbn [map zip_with existsb Pd.overflows].
  rewrite (bool_decide_eq_false_2 _ Hp), IH. reflexivity.
Qed.

Lemma pct_infinite_cons (x : option Qc) (r : list (option Qc)) :
  Pd.pct_infinite (x :: r) = existsb id (zip_with Pd.overflows r (x :: r)).
Proof.
  unfold Pd.pct_infinite, Pd.shift1. cbn [zip_with existsb].
  rewrite zip_with_removelast. destruct x; reflexivity.
Qed.

Lemma pct_infinite_numeric (cs : list Qc) :
  Forall (fun c => c <> 0) cs -> Pd.pct_infinite (map Some cs) = false.
Proof.
  intros Hnz. destruct cs as [|c r]; [reflexivity|].
  cbn [map]. rewrite pct_infinite_cons.
  change (Some c :: map Some r) with (map Some (c :: r)).
  apply overflows_numeric. exact Hnz.
Qed.

(** A zero followed by a number that is not zero gives an infinite
    return. *)
Lemma overflows_at (r k : list Qc) (i : nat) (c : Qc) :
  r !! i = Some c -> k !! i = Some 0 -> c <> 0 ->
  existsb id (zip_with Pd.overflows (map Some r) (map Some k)) = true.
Proof.
  revert r k. induction i as [|i IH]; intros [|x r] [|y k] Hr Hk Hc; try discriminate.
  - injection Hr as ->. injection Hk as ->.
    cbn [map zip_with existsb Pd.overflows].
    rewrite (bool_decide_eq_true_2 _ eq_refl), (bool_decide_eq_false_2 _ Hc). reflexivity.
  - cbn [map zip_with existsb]. rewrite (IH r k Hr Hk Hc). apply orb_true_r.
Qed.

Lemma pct_infinite_at (cs : list Qc) (i : nat) (c : Qc) :
  cs !! i = Some 0 -> cs !! S i = Some c -> c <> 0 ->
  Pd.pct_infinite (map Some cs) = true.
Proof.
  intros H0 Hc Hnz. destruct cs as [|c0 r]; [discriminate|].
  cbn [map]. rewrite pct_infinite_cons.
  change (Some c0 :: map Some r) with (map Some (c0 :: r)).
  exact (overflows_at r (c0 :: r) i c Hc H0 Hnz).
Qed.

(** The deviation of the fractional changes of a column of non-zero
    numbers. *)
Lemma volatility_pct_numeric (sqrt : Qc -> Qc) (cs : list Qc) :
  cs <> [] ->
  Forall (fun c => c <> 0) cs ->
  volatility_pct sqrt (map Some cs)
  = option_map (fun s => s * Pd.qz 100) (sample_std sqrt (return_fractions cs)).
Proof.
  intros Hne Hnz. unfold volatility_pct.
  rewrite (pct_infinite_numeric cs Hnz), (pct_change_numeric cs Hne Hnz).
  unfold Pd.std, sample_std.
  change (Pd.dropna (None :: map Some (return_fractions cs)))
    with (Pd.dropna (map Some (return_fractions cs))).
  rewrite dropna_map_Some. cbv zeta.
  destruct (length (return_fractions cs)) as [|[|n]] eqn:E; [reflexivity|reflexivity|].
  unfold sample_variance, arithmetic_mean. rewrite E. reflexivity.
Qed.

(** *** The summary of a series *)

Lemma last_cons {A} (rest : list A) (b b0 : A) :
  List.last (b :: rest) b0 = List.last rest b.
Proof.
  revert b b0. induction rest as [|r rest IH]; intros b b0; [reflexivity|].
  change (List.last (b :: r :: rest) b0) with (List.last (r :: rest) b0).
  rewrite (IH r b0), (IH r b). reflexivity.
Qed.

Lemma last_cell_column (f : bar -> Qc) (b0 : bar) (rest : list bar) :
  Pd.last_cell (map Num (map f (b0 :: rest))) = Num (f (List.last rest b0)).
Proof.
  unfold Pd.last_cell. revert b0.
  induction rest as [|b rest IH]; intros b0; [reflexivity|].
  change (List.last (map Num (map f (b0 :: b :: rest))) NaN)
    with (List.last (map Num (map f (b :: rest))) NaN).
  rewrite IH, last_cons. reflexivity.
Qed.

Lemma last_label (b0 : bar) (rest : list bar) :
  Pd.label_ymd (Pd.last_cell (index (ohlcv (b0 :: rest))))
  = inr (strftime_ymd (date (List.last rest b0))).
Proof.
  unfold Pd.last_cell. cbn [ohlcv index]. revert b0.
  induction rest as [|b rest IH]; intros b0; [reflexivity|].
  change (List.last (map (fun b => Time (date b)) (b0 :: b :: rest)) NaN)
    with (List.last (map (fun b => Time (date b)) (b :: rest)) NaN).
  rewrite IH, last_cons. reflexivity.
Qed.

Lemma change_pct_value (latest first : Qc) :
  first <> 0 ->
  change_pct latest first = Some (Pd.qz 100 * (latest - first) / first).
Proof.
  intros Hf. unfold change_pct, Pd.fsub, Pd.fdiv, Pd.fmul.
  destruct (decide (first = 0)) as [E|_]; [contradiction|].
  f_equal. field. exact Hf.
Qed.

(** The statistics of the web handler on a series. *)
Lemma analyze_summary_series (sqrt : Qc -> Qc) (sym : string)
    (b0 : bar) (rest : list bar) (self : visualizer) :
  analyze_summary sqrt sym (ohlcv (b0 :: rest)) self
  = Outcome
      (inr {| sum_symbol := sym;
              latest_price := Some (close (List.last rest b0));
              latest_date := strftime_ymd (date (List.last rest b0));
              highest_price := Pd.max (map Some (map high (b0 :: rest)));
              lowest_price := Pd.min (map Some (map low (b0 :: rest)));
              price_change := Some (close (List.last rest b0) - close b0);
              price_change_pct := change_pct (close (List.last rest b0)) (close b0);
              avg_volume := Pd.mean (map Some (map volume (b0 :: rest)));
              max_volume := Pd.max (map Some (map volume (b0 :: rest)));
              volatility := volatility_pct sqrt (map Some (map close (b0 :: rest)));
              data_points := length (b0 :: rest) |})
      self [].
Proof.
  unfold analyze_summary.
  rewrite getitem_close, bind_lift_inr, last_cell_column.
  cbn [Pd.number]. rewrite bind_lift_inr.
  cbn [Pd.first_cell map hd Pd.number]. rewrite bind_lift_inr.
  change (Num (close b0) :: map Num (map close rest)) with (map Num (map close (b0 :: rest))).
  rewrite numbers_map_Num, bind_lift_inr.
  rewrite last_label, bind_lift_inr.
  rewrite getitem_high, bind_lift_inr, numbers_map_Num, bind_lift_inr.
  rewrite getitem_low, bind_lift_inr, numbers_map_Num, bind_lift_inr.
  rewrite getitem_volume, bind_lift_inr, numbers_map_Num, bind_lift_inr.
  rewrite len_ohlcv. reflexivity.
Qed.

(** What [print_summary] prints for a series. *)
Lemma print_summary_series (sqrt : Qc -> Qc) (sym start stop : string)
    (b0 : bar) (rest : list bar) :
  print_summary sqrt (holding sym start stop (ohlcv (b0 :: rest)))
  = Outcome (inr tt) (holding sym start stop (ohlcv (b0 :: rest)))
      [ Print (nl +:+ rule60);
        Print ("Summary Statistics for " +:+ sym);
        Print ("Period: " +:+ start +:+ " to " +:+ stop);
        Print rule60;
        PrintF (nl +:+ "Latest Price (Close): {:,.0f} VND")
          [Some (close (List.last rest b0))];
        Print ("Latest Date: " +:+ strftime_ymd (date (List.last rest b0)));
        Print (nl +:+ "Price Range:");
        PrintF "  Highest: {:,.0f} VND" [Pd.max (map Some (map high (b0 :: rest)))];
        PrintF "  Lowest: {:,.0f} VND" [Pd.min (map Some (map low (b0 :: rest)))];
        PrintF (nl +:+ "Price Change: {:+,.0f} VND ({:+.2f}%)")
          [Some (close (List.last rest b0) - close b0);
           change_pct (close (List.last rest b0)) (close b0)];
        Print (nl +:+ "Volume Statistics:");
        PrintF "  Average Daily Volume: {:,.0f}"
          [Pd.mean (map Some (map volume (b0 :: rest)))];
        PrintF "  Highest Volume: {:,.0f}" [Pd.max (map Some (map volume (b0 :: rest)))];
        PrintF (nl +:+ "Volatility (Daily Std Dev): {:.2f}%")
          [volatility_pct sqrt (map Some (map close (b0 :: rest)))];
        Print (rule60 +:+ nl) ].
Proof.
  unfold print_summary, with_data.
  rewrite bind_get_self. cbn [data holding].
  rewrite (ohlcv_not_empty (b0 :: rest)) by discriminate.
  rewrite bind_get_self, !bind_print.
  rewrite getitem_close, bind_lift_inr, last_cell_column.
  cbn [Pd.number]. rewrite bind_lift_inr, bind_emit.
  rewrite last_label, bind_lift_inr, !bind_print.
  rewrite getitem_high, bind_lift_inr, numbers_map_Num, bind_lift_inr, bind_emit.
  rewrite getitem_low, bind_lift_inr, numbers_map_Num, bind_lift_inr, bind_emit.
  cbn [Pd.first_cell map hd Pd.number]. rewrite bind_lift_inr, bind_emit, bind_print.
  rewrite getitem_volume, bind_lift_inr, numbers_map_Num, bind_lift_inr, !bind_emit.
  change (Num (close b0) :: map Num (map close rest)) with (map Num (map close (b0 :: rest))).
  rewrite numbers_map_Num, bind_lift_inr, bind_emit.
  reflexivity.
Qed.

(** C3, as the code has it: for a series whose first close is not zero,
    the absolute change of the summary is [c[-1] - c[0]] and its percentage
    change is [((c[-1] - c[0]) / c[0]) * 100], which in exact arithmetic is
    [100 * (c[-1] - c[0]) / c[0]]; the web handler returns these two
    numbers and [print_summary] prints them. *)
Theorem price_change_formula (sqrt : Qc -> Qc) (sym start stop : string)
    (b0 : bar) (rest : list bar) (self : visualizer) :
  close b0 <> 0 ->
  exists s pct,
    analyze_summary sqrt sym (ohlcv (b0 :: rest)) self = Outcome (inr s) self []
    /\ price_change s = Some (close (List.last rest b0) - close b0)
    /\ price_change_pct s = Some pct
    /\ pct = (close (List.last rest b0) - close b0) / close b0 * Pd.qz 100
    /\ pct = Pd.qz 100 * (close (List.last rest b0) - close b0) / close b0
    /\ In (PrintF (nl +:+ "Price Change: {:+,.0f} VND ({:+.2f}%)")
             [Some (close (List.last rest b0) - close b0); Some pct])
          (trace (print_summary sqrt (holding sym start stop (ohlcv (b0 :: rest))))).
Proof.
  intros Hc.
  eexists _, (Pd.qz 100 * (close (List.last rest b0) - close b0) / close b0).
  split; [apply analyze_summary_series|]. cbn [price_change price_change_pct].
  split; [reflexivity|].
  split; [apply change_pct_value, Hc|].
  split; [field; exact Hc|].
  split; [reflexivity|].
  rewrite print_summary_series, (change_pct_value _ _ Hc). cbn [trace].
  do 9 right. left. reflexivity.
Qed.

(** C7: for a series whose closes are not zero, the volatility in the
    summary of the web handler, and the one [print_summary] prints, is the
    sample standard deviation (divisor [n - 1]) of the day-over-day return
    fractions, times 100 and nothing else; with fewer than two returns,
    that is fewer than three days, it is undefined. *)
Theorem volatility_is_sample_std (sqrt : Qc -> Qc) (sym start stop : string)
    (b0 : bar) (rest : list bar) (self : visualizer) :
  Forall (fun c => c <> 0) (map close (b0 :: rest)) ->
  exists s,
    analyze_summary sqrt sym (ohlcv (b0 :: rest)) self = Outcome (inr s) self []
    /\ volatility s
       = option_map (fun x => x * Pd.qz 100)
           (sample_std sqrt (return_fractions (map close (b0 :: rest))))
    /\ In (PrintF (nl +:+ "Volatility (Daily Std Dev): {:.2f}%")
             [option_map (fun x => x * Pd.qz 100)
                (sample_std sqrt (return_fractions (map close (b0 :: rest))))])
          (trace (print_summary sqrt (holding sym start stop (ohlcv (b0 :: rest)))))
    /\ ((length rest < 2)%nat -> volatility s = None)
    /\ ((2 <= length rest)%nat ->
        volatility s
        = Some (sqrt (sample_variance (return_fractions (map close (b0 :: rest))))
                * Pd.qz 100)).
Proof.
  intros Hnz.
  assert (volatility_pct sqrt (map Some (map close (b0 :: rest)))
          = option_map (fun x => x * Pd.qz 100)
              (sample_std sqrt (return_fractions (map close (b0 :: rest))))) as Hv
    by (apply volatility_pct_numeric; [discriminate|exact Hnz]).
  assert (length (return_fractions (map close (b0 :: rest))) = length rest) as Hlen.
  { unfold return_fractions. rewrite length_zip_with. cbn [map tail length].
    rewrite !length_map. lia. }
  eexists. split; [apply analyze_summary_series|]. cbn [volatility].
  split; [exact Hv|].
  split.
  { rewrite print_summary_series, Hv. cbn [trace]. do 13 right. left. reflexivity. }
  rewrite Hv. unfold sample_std. rewrite Hlen.
  split; intros Hl.
  - destruct (Nat.ltb_spec (length rest) 2) as [_|Hge]; [reflexivity|lia].
  - destruct (Nat.ltb_spec (length rest) 2) as [Hlt|_]; [lia|reflexivity].
Qed.

End Statistics.

(** ** Construction *)

Lemma init_symbol (now : clock) (t : nat) (sym : string) (start stop : option string) :
  symbol (fst (init now t sym start stop)) = Str.upper sym.
Proof. unfold init. destruct stop, start; reflexivity. Qed.

Lemma init_end_date (now : clock) (t : nat) (sym : string) (start stop : option string) :
  end_date (fst (init now t sym start stop))
  = match stop with
    | Some e => e
    | None => strftime_ymd (now t)
    end.
Proof. unfold init. destruct stop, start; reflexivity. Qed.

(** The default start is 180 days before the clock reading taken for it,
    whatever the end date is. *)
Lemma init_start_date (now : clock) (t : nat) (sym : string) (stop : option string) :
  start_date (fst (init now t sym None stop))
  = strftime_ymd (minus_days (now match stop with Some _ => t | None => S t end) 180).
Proof. unfold init. destruct stop; reflexivity. Qed.

(** C2: constructed on 2026-11-04 with the end date 2023-12-31 and no start
    date, the analyzer takes 2026-05-08 as its start, 180 days before the
    clock and after its own end date; 180 days before the end date is
    2023-07-04.  The symbol is uppercased and the given end date kept. *)
Theorem init_start_default_ignores_end :
  start_date (fst (init sample_clock 0 "vnm" None (Some "2023-12-31"))) = "2026-05-08"
  /\ days_before_end "2023-12-31" 180 = Some "2023-07-04"
  /\ end_date (fst (init sample_clock 0 "vnm" None (Some "2023-12-31"))) = "2023-12-31"
  /\ symbol (fst (init sample_clock 0 "vnm" None (Some "2023-12-31"))) = "VNM".
Proof. repeat split. Qed.

(** With both dates left out the start is 180 days before the end, as long
    as the two clock readings fall on the same day. *)
Lemma init_defaults (now : clock) (t : nat) (sym : string) :
  days (now (S t)) = days (now t) ->
  end_date (fst (init now t sym None None)) = strftime_ymd (now t)
  /\ start_date (fst (init now t sym None None))
     = strftime_ymd (minus_days (now t) 180).
Proof.
  intros H. split; [reflexivity|].
  unfold init, strftime_ymd, minus_days; simpl. rewrite H. reflexivity.
Qed.

(** ** Sample runs *)

Lemma sample_to_datetime_length (col out : list cell) :
  sample_to_datetime col = inr out -> length out = length col.
Proof.
  revert out. induction col as [|c col IH]; intros out; simpl.
  - intros [= <-]. reflexivity.
  - destruct (parse_cell c); [discriminate|].
    destruct (sample_to_datetime col) as [|vs]; [discriminate|].
    intros [= <-]. simpl. f_equal. apply IH. reflexivity.
Qed.

(** C1, the claim refuted: the fetch for "XYZ" on an empty result raises
    nothing that names the symbol; it returns [False] after printing
    "No data retrieved". *)
Lemma fetch_empty_signals_nothing :
  result fetch_xyz_empty = inr false
  /\ trace fetch_xyz_empty
     = [Print "Fetching data for XYZ from 2026-05-08 to 2026-11-04...";
        Print "No data retrieved"]
  /\ ~ signals_no_data fetch_xyz_empty "XYZ".
Proof.
  split; [reflexivity|]. split; [reflexivity|].
  intros (e & He & _). discriminate He.
Qed.

(** C3, the claim refuted: for a first close of 3 and a last close of
    100000000 the absolute change is exact in binary64, but the percentage
    [(change / first) * 100] comes out as 3495253228475733 / 1048576, that
    is 3333333233.33333302, and misses [100 * (c[-1] - c[0]) / c[0]] by
    1 / 3145728, about 3.2e-7, more than the tolerance. *)
Lemma float_price_change_pct_misses_tolerance :
  Float64.to_Qc (Float64.price_change Float64.high_close Float64.low_close)
  = Some (q 100000000 - q 3)%Qc
  /\ Float64.to_Qc (Float64.price_change_pct Float64.high_close Float64.low_close)
     = Some (q 3495253228475733 / q 1048576)%Qc
  /\ (Pd.qz 100 * (q 100000000 - q 3) / q 3 - q 3495253228475733 / q 1048576
      = q 1 / q 3145728)%Qc
  /\ ~ within_tolerance (q 3495253228475733 / q 1048576)%Qc
        (Pd.qz 100 * (q 100000000 - q 3) / q 3)%Qc.
Proof.
  split; [by_evaluation|]. split; [by_evaluation|]. split; [by_evaluation|].
  unfold within_tolerance. by_evaluation.
Qed.

(** C8, the claim refuted: the provider's error does not reach the caller
    of the fetch, which prints it and returns [False]. *)
Lemma fetch_timeout_is_swallowed :
  result fetch_xyz_timeout = inr false
  /\ trace fetch_xyz_timeout
     = [Print "Fetching data for XYZ from 2026-05-08 to 2026-11-04...";
        Print "Error fetching data: Connection timed out";
        PrintExc timed_out]
  /\ ~ propagates fetch_xyz_timeout timed_out.
Proof.
  split; [reflexivity|]. split; [reflexivity|].
  unfold propagates. discriminate.
Qed.

(** C6, the claim refuted: for three days and a window of five the price
    chart draws the closes and nothing else; there is no overlay, defined
    or undefined. *)
Lemma short_series_has_no_price_overlay :
  result price_chart_three_days = inr tt
  /\ overlays (trace price_chart_three_days) = []
  /\ ~ (exists y, In (Line "MA5" (index (ohlcv three_days)) y)
                    (trace price_chart_three_days)).
Proof.
  split; [reflexivity|]. split; [by_evaluation|].
  assert (List.length (trace price_chart_three_days) = 2%nat) as Hlen by reflexivity.
  intros (y & Hy).
  destruct (trace price_chart_three_days) as [|e1 [|e2 [|e3 tr]]] eqn:E;
    try discriminate Hlen.
  assert (e1 = Line "Close Price" (index (ohlcv three_days))
                 (map Num (map close three_days)) /\ e2 = Show) as [-> ->].
  { assert (Some e1 = Some (Line "Close Price" (index (ohlcv three_days))
                              (map Num (map close three_days)))
            /\ Some e2 = Some Show) as [H1 H2].
    { change (Some e1) with ((e1 :: e2 :: nil) !! 0%nat).
      change (Some e2) with ((e1 :: e2 :: nil) !! 1%nat).
      rewrite <- E. split; reflexivity. }
    injection H1 as ->. injection H2 as ->. split; reflexivity. }
  destruct Hy as [Hy|[Hy|[]]]; discriminate Hy.
Qed.

(** ** The theorems at the samples *)

Lemma raw0_well_formed : well_formed raw0.
Proof. repeat constructor. Qed.

Lemma nothing_retrieved_witness :
  result fetch_xyz_empty = inr false
  /\ ~ signals_no_data fetch_xyz_empty "XYZ"
  /\ main sample_sqrt sample_to_datetime 3 (gives (inr (Some raw0))) (gives (inr None))
       sample_clock 0
       {| arg_symbol := "XYZ"; arg_start := None; arg_end := None;
          save_charts := true; output_dir := "./charts" |}
     = Outcome (inr tt) (final fetch_xyz_empty)
         (trace fetch_xyz_empty ++ [Print "Failed to fetch data. Exiting."]).
Proof.
  pose proof (nothing_retrieved_nothing_rendered sample_sqrt sample_to_datetime 3
                (gives (inr (Some raw0))) (gives (inr None)) sample_clock "static/charts"
                0 "XYZ" None None true "./charts" (Some raw0)
                sample_to_datetime_length eq_refl
                (conj raw0_well_formed eq_refl)) as H.
  destruct H as (H1 & H2 & _ & _ & _ & _ & H7 & _).
  split; [exact H1|]. split; [exact H2|exact H7].
Defined.

Lemma upstream_error_witness :
  fetch_xyz_timeout
  = Outcome (inr false) (fst (init sample_clock 0 "XYZ" None None))
      [fetching (fst (init sample_clock 0 "XYZ" None None));
       Print ("Error fetching data: " +:+ exn_str timed_out); PrintExc timed_out]
  /\ ~ propagates fetch_xyz_timeout timed_out.
Proof.
  exact (fetch_data_catches_upstream_errors sample_to_datetime 3
           (gives (inl timed_out)) (gives (inr None))
           (fst (init sample_clock 0 "XYZ" None None)) timed_out eq_refl).
Defined.

(** The raw sample normalizes to the canonical three-day frame. *)
Example ex_normalize_raw3 :
  normalize sample_to_datetime (holding "XYZ" "2024-01-02" "2024-01-04" raw3)
  = Outcome (inr tt) xyz_three_days [].
Proof. by_evaluation. Qed.

Lemma normalize_idempotent_witness :
  bind (normalize sample_to_datetime) (fun _ => normalize sample_to_datetime)
    (holding "XYZ" "2024-01-02" "2024-01-04" raw3)
  = normalize sample_to_datetime (holding "XYZ" "2024-01-02" "2024-01-04" raw3)
  /\ normalize sample_to_datetime xyz_three_days = Outcome (inr tt) xyz_three_days [].
Proof.
  destruct (normalize_idempotent sample_to_datetime
              (holding "XYZ" "2024-01-02" "2024-01-04" raw3)) as [H1 H2].
  split; [exact H1|exact (H2 _ ex_normalize_raw3)].
Defined.

Lemma moving_average_witness :
  exists ma,
    moving_average (ohlcv five_days) "close" 2 = inr ma
    /\ ((Z.of_nat 1 < 2 - 1)%Z -> ma !! 1%nat = Some None)
    /\ ((2 - 1 <= Z.of_nat 1)%Z ->
        ma !! 1%nat
        = Some (Some (arithmetic_mean
                        (take (Z.to_nat 2) (drop (1 + 1 - Z.to_nat 2) (map close five_days))))))
    /\ (forall df' ys,
          Pd.getitem df' "close" = inr (map Num ys) ->
          take 2 ys = take 2 (map close five_days) ->
          exists ma', moving_average df' "close" 2 = inr ma' /\ ma' !! 1%nat = ma !! 1%nat).
Proof.
  apply (moving_average_is_trailing_mean (ohlcv five_days) "close"
           (map close five_days) 2 1).
  - reflexivity.
  - lia.
  - simpl. lia.
Defined.

Lemma window_longer_witness :
  moving_average (ohlcv three_days) "close" 5 = inr (replicate (length three_days) None)
  /\ overlays (trace (plot_price_and_moving_averages [5; 20]%Z (Some "ma.png") xyz_three_days))
     = [].
Proof.
  pose proof (window_longer_than_series three_days "XYZ" "2024-01-02" "2024-01-04" 5
                [5; 20]%Z (Some "ma.png")) as H.
  assert (three_days <> []) as H1 by discriminate.
  assert (Z.of_nat (length three_days) < 5)%Z as H2 by (simpl; lia).
  assert (Forall (fun p => (Z.of_nat (length three_days) < p)%Z) [5; 20]%Z) as H3
    by (repeat constructor; simpl; lia).
  specialize (H H1 H2 H3).
  split; [exact (proj1 H)|exact (proj1 (proj2 (proj2 (proj2 H))))].
Defined.

Lemma daily_returns_witness :
  daily_returns_pct (map Some [q 100; q 102; q 99]) !! 0%nat = Some None
  /\ daily_returns_pct (map Some [q 100; q 102; q 99]) !! 1%nat
     = Some (Some ((q 102 - q 100) / q 100 * Pd.qz 100)%Qc).
Proof.
  destruct (daily_returns_formula [q 100; q 102; q 99]) as [H0 H].
  split; [exact H0|].
  apply (H 0%nat (q 102) (q 100)).
  - reflexivity.
  - reflexivity.
  - by_evaluation.
Defined.

Lemma volatility_witness :
  exists s,
    analyze_summary sample_sqrt "XYZ" (ohlcv five_days) xyz_three_days
    = Outcome (inr s) xyz_three_days []
    /\ volatility s
       = option_map (fun x => (x * Pd.qz 100)%Qc)
           (sample_std sample_sqrt (return_fractions (map close five_days))).
Proof.
  destruct (volatility_is_sample_std sample_sqrt "XYZ" "2024-01-02" "2024-01-08"
              first_day (tail five_days) xyz_three_days) as (s & H1 & H2 & _).
  - repeat constructor; by_evaluation.
  - exists s. split; [exact H1|exact H2].
Defined.

Lemma price_change_witness :
  exists s pct,
    analyze_summary sample_sqrt "XYZ" (ohlcv five_days) xyz_three_days
    = Outcome (inr s) xyz_three_days []
    /\ price_change s = Some (close (List.last (tail five_days) first_day) - close first_day)%Qc
    /\ price_change_pct s = Some pct.
Proof.
  destruct (price_change_formula sample_sqrt "XYZ" "2024-01-02" "2024-01-08"
              first_day (tail five_days) xyz_three_days) as (s & pct & H1 & H2 & H3 & _).
  - by_evaluation.
  - exists s, pct. split; [exact H1|]. split; [exact H2|exact H3].
Defined.

(** The scenario of the specification: five closes 100, 102, 99, 101, 105
    with volume 1000 give a latest price of 105, a change of +5 and +5 %,
    a highest price of 106 and an average volume of 1000. *)
Example ex_summary_five_days :
  exists s,
    result (analyze_summary sample_sqrt "XYZ" (ohlcv five_days) xyz_three_days) = inr s
    /\ latest_price s = Some (q 105)
    /\ price_change s = Some (q 5)
    /\ price_change_pct s = Some (q 5)
    /\ highest_price s = Some (q 106)
    /\ avg_volume s = Some (q 1000)
    /\ data_points s = 5%nat.
Proof.
  eexists. split; [reflexivity|]. cbn [latest_price price_change price_change_pct
    highest_price avg_volume data_points].
  repeat split; by_evaluation.
Qed.

(** The sample and the population variance of the sample's returns differ:
    the divisor matters. *)
Example ex_sample_is_not_population :
  sample_variance (return_fractions (map close five_days))
  <> population_variance (return_fractions (map close five_days)).
Proof. by_evaluation. Qed.

(** Series of length 3, window 5: the rolling mean is undefined throughout. *)
Example ex_window_five_on_three :
  moving_average (ohlcv three_days) "close" 5 = inr [None; None; None].
Proof. by_evaluation. Qed.

Example ex_roll :
  Pd.rolling_mean 2 [Some (q 1); Some (q 2); Some (q 6)]
  = inr [None; Some (q 3 / q 2)%Qc; Some (q 4)].
Proof. by_evaluation. Qed.

Example ex_strftime : strftime_ymd (day 20761) = "2026-11-04".
Proof. reflexivity. Qed.

Example ex_parse : parse_ymd "2023-12-31" = Some 19722%Z.
Proof. reflexivity. Qed.

Example ex_fetch_normalizes :
  data (final (fetch_data sample_to_datetime 3 (gives (inr (Some raw3))) (gives (inr None))
                 (fst (init sample_clock 0 "vnm" None None))))
  = Some (ohlcv three_days).
Proof. by_evaluation. Qed.

(** * Further properties of the program *)

(** ** What [fetch_data] can do *)

Section FetchMore.

Variable to_datetime : list cell -> exn + list cell.
Variable VNSTOCK_VERSION : Z.
Variable history : string -> string -> string -> exn + option DataFrame.
Variable stock_historical_data : string -> string -> string -> exn + option DataFrame.

Local Abbreviation fetch :=
  (fetch_data to_datetime VNSTOCK_VERSION history stock_historical_data).
Local Abbreviation upstream :=
  (retrieved VNSTOCK_VERSION history stock_historical_data).

Lemma fetch_verdict_shape (first : event) (self : visualizer) :
  exists b tr,
    fetch_verdict first self = Outcome (inr b) self (first :: tr)
    /\ quiet tr = true
    /\ (b = true ->
        exists df, data self = Some df /\ Pd.empty df = false
                   /\ tr = [Print ("Successfully fetched " +:+ Str.of_nat (Pd.len df)
                                   +:+ " data points")]).
Proof.
  unfold fetch_verdict. destruct (data self) as [df|].
  - destruct (Pd.empty df) eqn:E; cbn [negb].
    + eexists _, _. split; [reflexivity|]. split; [reflexivity|]. discriminate.
    + eexists _, _. split; [reflexivity|]. split; [reflexivity|]. eauto.
  - eexists _, _. split; [reflexivity|]. split; [reflexivity|]. discriminate.
Qed.

(** Whatever the provider and the normalization do, [fetch_data] returns a
    boolean: no exception leaves it, its first printed line is the
    "Fetching data" line, and it neither draws nor reports a statistic. *)
Lemma fetch_data_returns (self : visualizer) :
  exists b v tr,
    fetch self = Outcome (inr b) v (fetching self :: tr) /\ quiet tr = true.
Proof.
  rewrite fetch_data_cases.
  destruct (upstream self) as [e|r].
  { eexists _, _, _. split; reflexivity. }
  destruct (VNSTOCK_VERSION =? 3)%Z.
  - cbv zeta. destruct (result (normalize to_datetime (with_frame self r))) as [e|[]].
    + eexists _, _, _. split; reflexivity.
    + destruct (fetch_verdict_shape (fetching self)
                  (final (normalize to_datetime (with_frame self r))))
        as (b & tr & -> & Hq & _). eauto.
  - destruct (fetch_verdict_shape (fetching self) (with_frame self r))
      as (b & tr & -> & Hq & _). eauto.
Qed.

(** A fetch that returns [True] has stored a frame with rows and columns,
    and its second and last line reports the number of rows. *)
Lemma fetch_data_true_shape (self : visualizer) :
  result (fetch self) = inr true ->
  exists df,
    data (final (fetch self)) = Some df
    /\ Pd.empty df = false
    /\ trace (fetch self)
       = [fetching self;
          Print ("Successfully fetched " +:+ Str.of_nat (Pd.len df) +:+ " data points")].
Proof.
  rewrite fetch_data_cases.
  destruct (upstream self) as [e|r]; [discriminate|].
  destruct (VNSTOCK_VERSION =? 3)%Z.
  - cbv zeta. destruct (result (normalize to_datetime (with_frame self r))) as [e|[]];
      [discriminate|].
    destruct (fetch_verdict_shape (fetching self)
                (final (normalize to_datetime (with_frame self r))))
      as (b & tr & -> & _ & Hb).
    cbn [result final trace]. intros [= ->].
    destruct (Hb eq_refl) as (df & Hd & He & ->). eauto.
  - destruct (fetch_verdict_shape (fetching self) (with_frame self r))
      as (b & tr & -> & _ & Hb).
    cbn [result final trace]. intros [= ->].
    destruct (Hb eq_refl) as (df & Hd & He & ->). eauto.
Qed.

(** A fetch that returns [False] has printed, after its first line, either
    "No data retrieved" or the error it caught with the traceback. *)
Lemma fetch_data_false_shape (self : visualizer) :
  result (fetch self) = inr false ->
  trace (fetch self) = [fetching self; Print "No data retrieved"]
  \/ exists e,
       trace (fetch self)
       = [fetching self; Print ("Error fetching data: " +:+ exn_str e); PrintExc e].
Proof.
  rewrite fetch_data_cases.
  destruct (upstream self) as [e|r]; [intros _; right; exists e; reflexivity|].
  assert (forall v, result (fetch_verdict (fetching self) v) = inr false ->
                    trace (fetch_verdict (fetching self) v)
                    = [fetching self; Print "No data retrieved"]) as Hv.
  { intros v. unfold fetch_verdict. destruct (data v) as [df|]; [|reflexivity].
    destruct (Pd.empty df); [reflexivity|discriminate]. }
  destruct (VNSTOCK_VERSION =? 3)%Z.
  - cbv zeta. destruct (result (normalize to_datetime (with_frame self r))) as [e|[]].
    + intros _. right. exists e. reflexivity.
    + intros H. left. apply Hv, H.
  - intros H. left. apply Hv, H.
Qed.

(** With the vnstock 0.x provider the frame is stored as retrieved: its
    labels are not lowercased and no column becomes the row labels. *)
Theorem fetch_data_old_provider_keeps_frame (self : visualizer) (r : option DataFrame) :
  VNSTOCK_VERSION <> 3%Z ->
  stock_historical_data (symbol self) (start_date self) (end_date self) = inr r ->
  final (fetch self) = with_frame self r
  /\ result (fetch self) = inr (negb (has_no_data (with_frame self r))).
Proof.
  intros HV Hr. rewrite fetch_data_cases. unfold retrieved.
  apply Z.eqb_neq in HV. rewrite HV, Hr.
  unfold fetch_verdict, has_no_data. cbn [data with_frame].
  destruct r as [df|]; [|split; reflexivity].
  destruct (Pd.empty df); split; reflexivity.
Qed.

Lemma find_column_has_column (df : DataFrame) (name : string) (c : list cell) :
  Pd.find_column name (columns df) = Some c -> Pd.has_column name df = true.
Proof.
  unfold Pd.has_column.
  induction (columns df) as [|[n col] cols IH]; [discriminate|].
  cbn [Pd.find_column map fst existsb]. rewrite (String.eqb_sym name n).
  destruct (String.eqb n name); [reflexivity|]. exact IH.
Qed.

(** When [pd.to_datetime] refuses the [time] column, the fetch returns
    [False] and prints the error, but the frame it has stored stays: with
    lowercased labels, the [time] column unparsed and the old row labels. *)
Theorem fetch_data_unparsed_time_is_kept
    (self : visualizer) (df : DataFrame) (col : list cell) (e : exn) :
  VNSTOCK_VERSION = 3%Z ->
  history (symbol self) (start_date self) (end_date self) = inr (Some df) ->
  time_series (Pd.lower_columns df) = inr col ->
  to_datetime col = inl e ->
  fetch self
  = Outcome (inr false) (with_frame self (Some (Pd.lower_columns df)))
      [fetching self; Print ("Error fetching data: " +:+ exn_str e); PrintExc e].
Proof.
  intros HV Hh Hts Htd. rewrite fetch_data_cases. unfold retrieved.
  rewrite HV. cbn [Z.eqb Pos.eqb]. rewrite Hh. cbv zeta.
  rewrite normalize_cases. cbn [data with_frame]. cbv zeta.
  rewrite (find_column_has_column _ _ _ (time_series_find _ _ Hts)).
  rewrite Hts, Htd. reflexivity.
Qed.

End FetchMore.

(** ** What normalization changes *)

Lemma filter_setitem (df : DataFrame) (name : string) (values : list cell) :
  List.filter (fun nc => negb (String.eqb (fst nc) name)) (columns (Pd.setitem df name values))
  = List.filter (fun nc => negb (String.eqb (fst nc) name)) (columns df).
Proof.
  cbn [Pd.setitem columns].
  induction (columns df) as [|[n c] cols IH]; [reflexivity|].
  simpl. destruct (String.eqb n name) eqn:E; simpl; rewrite E; simpl.
  - exact IH.
  - rewrite IH. reflexivity.
Qed.

Lemma filter_without_column (df : DataFrame) (name : string) :
  Pd.has_column name df = false ->
  List.filter (fun nc => negb (String.eqb (fst nc) name)) (columns df) = columns df.
Proof.
  unfold Pd.has_column.
  induction (columns df) as [|[n c] cols IH]; [reflexivity|].
  cbn [map existsb List.filter fst]. rewrite (String.eqb_sym name n).
  destruct (String.eqb n name); [discriminate|].
  cbn [orb negb]. intros H. rewrite (IH H). reflexivity.
Qed.

(** A successful normalization changes labels and row labels only: the
    columns it leaves are the columns other than [time], under their
    lowercased labels, cell for cell; the row labels are the parsed [time]
    column when there is one and the old row labels otherwise. *)
Theorem normalize_keeps_the_cells
    (to_datetime : list cell -> exn + list cell)
    (self self' : visualizer) (df : DataFrame) :
  data self = Some df ->
  normalize to_datetime self = Outcome (inr tt) self' [] ->
  exists df',
    self' = with_frame self (Some df')
    /\ columns df'
       = List.filter (fun nc => negb (String.eqb (fst nc) "time"))
           (map (fun nc => (Str.lower (fst nc), snd nc)) (columns df))
    /\ (Pd.has_column "time" (Pd.lower_columns df) = false ->
        index df' = index df /\ index_name df' = index_name df)
    /\ (Pd.has_column "time" (Pd.lower_columns df) = true ->
        exists col,
          Pd.find_column "time" (columns (Pd.lower_columns df)) = Some col
          /\ to_datetime col = inr (index df')
          /\ index_name df' = Some "time").
Proof.
  intros Hd. rewrite normalize_cases, Hd. cbv zeta.
  destruct (Pd.has_column "time" (Pd.lower_columns df)) eqn:Ht.
  - destruct (time_series _) as [e|col] eqn:Hts; [discriminate|].
    destruct (to_datetime col) as [e|parsed] eqn:Htd; [discriminate|].
    destruct (Pd.set_index _ "time") as [e|df3] eqn:Hs; [discriminate|].
    intros [= <-]. exists df3. split; [reflexivity|].
    split.
    { rewrite (set_index_columns _ _ _ Hs), filter_setitem. reflexivity. }
    split; [discriminate|]. intros _. exists col.
    split; [apply time_series_find, Hts|].
    unfold Pd.set_index in Hs.
    destruct (Pd.find_column "time" _) as [c|] eqn:Hf; [|discriminate].
    injection Hs as <-. cbn [index index_name]. split; [|reflexivity].
    rewrite Htd. f_equal.
    clear - Hf Hts. apply time_series_find in Hts. revert Hf Hts.
    cbn [Pd.setitem columns].
    induction (columns (Pd.lower_columns df)) as [|[n c0] cols IH]; [discriminate|].
    cbn [map Pd.find_column fst]. destruct (String.eqb n "time") eqn:E.
    + cbn [fst]. rewrite E. intros [= <-] _. reflexivity.
    + rewrite E. exact IH.
  - intros [= <-]. exists (Pd.lower_columns df). split; [reflexivity|].
    split.
    { symmetry. apply (filter_without_column (Pd.lower_columns df) "time" Ht). }
    split; [intros _; split; reflexivity|discriminate].
Qed.

(** ** Methods that only read *)

Lemma keeps_ret {A} (a : A) : keeps_self (ret a).
Proof. intros self. reflexivity. Qed.

Lemma keeps_lift {A} (r : exn + A) : keeps_self (lift r).
Proof. intros self. destruct r; reflexivity. Qed.

Lemma keeps_emit (e : event) : keeps_self (emit e).
Proof. intros self. reflexivity. Qed.

Lemma keeps_print (s : string) : keeps_self (print s).
Proof. intros self. reflexivity. Qed.

Lemma keeps_get_self : keeps_self get_self.
Proof. intros self. reflexivity. Qed.

Lemma keeps_bind {A B} (m : M A) (f : A -> M B) :
  keeps_self m -> (forall a, keeps_self (f a)) -> keeps_self (bind m f).
Proof.
  intros Hm Hf self. unfold bind. specialize (Hm self).
  destruct (m self) as [[e|a] v tr]; cbn [result final trace] in *; [exact Hm|].
  subst v. apply Hf.
Qed.

Lemma keeps_for_each {A} (xs : list A) (body : A -> M unit) :
  (forall x, keeps_self (body x)) -> keeps_self (for_each xs body).
Proof.
  intros Hb. induction xs as [|x xs IH]; [apply keeps_ret|].
  cbn [for_each]. apply keeps_bind; [apply Hb|intros _; exact IH].
Qed.

Lemma keeps_with_data (body : DataFrame -> M unit) :
  (forall df, keeps_self (body df)) -> keeps_self (with_data body).
Proof.
  intros Hb. unfold with_data. apply keeps_bind; [apply keeps_get_self|].
  intros self. destruct (data self) as [df|]; [|apply keeps_print].
  destruct (Pd.empty df); [apply keeps_print|apply Hb].
Qed.

Lemma keeps_savefig_or_show (save_path : option string) :
  keeps_self (savefig_or_show save_path).
Proof.
  unfold savefig_or_show. destruct (given save_path).
  - apply keeps_bind; [apply keeps_emit|intros _; apply keeps_print].
  - apply keeps_emit.
Qed.

Lemma keeps_raise {A} (e : exn) : keeps_self (@raise A e).
Proof. intros self. reflexivity. Qed.

Lemma keeps_hist (close daily_returns : list (option Qc)) :
  keeps_self (hist close daily_returns).
Proof. unfold hist. destruct (Pd.pct_infinite close); [apply keeps_raise|apply keeps_emit]. Qed.

Ltac keeps_step :=
  lazymatch goal with
  | |- keeps_self (hist _ _) => apply keeps_hist
  | |- keeps_self (bind _ _) => apply keeps_bind; [|intros ?]
  | |- keeps_self (lift _) => apply keeps_lift
  | |- keeps_self (emit _) => apply keeps_emit
  | |- keeps_self (print _) => apply keeps_print
  | |- keeps_self (ret _) => apply keeps_ret
  | |- keeps_self get_self => apply keeps_get_self
  | |- keeps_self (savefig_or_show _) => apply keeps_savefig_or_show
  | |- keeps_self (for_each _ _) => apply keeps_for_each; intros ?
  | |- keeps_self (with_data _) => apply keeps_with_data; intros ?
  | |- keeps_self (if ?b then _ else _) => destruct b
  | |- keeps_self (match given ?p with _ => _ end) => destruct (given p)
  | |- keeps_self (let _ := _ in _) => cbv zeta
  end.

(** The chart methods and [print_summary] never change the analyzer: its
    symbol, its dates and its frame are after the call what they were
    before it, whether the call returns or raises. *)
Theorem methods_keep_the_analyzer
    (sqrt : Qc -> Qc) (self : visualizer)
    (save_path : option string) (ma_periods : list Z) :
  final (plot_candlestick_chart save_path self) = self
  /\ final (plot_price_and_moving_averages ma_periods save_path self) = self
  /\ final (plot_volume_analysis save_path self) = self
  /\ final (plot_daily_returns save_path self) = self
  /\ final (print_summary sqrt self) = self.
Proof.
  assert (keeps_self (plot_candlestick_chart save_path)) as H1
    by (unfold plot_candlestick_chart; repeat keeps_step).
  assert (keeps_self (plot_price_and_moving_averages ma_periods save_path)) as H2
    by (unfold plot_price_and_moving_averages; repeat keeps_step).
  assert (keeps_self (plot_volume_analysis save_path)) as H3
    by (unfold plot_volume_analysis; repeat keeps_step).
  assert (keeps_self (plot_daily_returns save_path)) as H4
    by (unfold plot_daily_returns; repeat keeps_step).
  assert (keeps_self (print_summary sqrt)) as H5
    by (unfold print_summary; repeat keeps_step).
  repeat split; [apply H1|apply H2|apply H3|apply H4|apply H5].
Qed.

(** ** The charts of a series *)

Section Charts.

Variables (sym start stop : string) (bars : list bar).
Hypothesis has_days : bars <> [].

Local Abbreviation v := (holding sym start stop (ohlcv bars)).

Lemma with_data_series (body : DataFrame -> M unit) :
  with_data body v = body (ohlcv bars) v.
Proof.
  unfold with_data. rewrite bind_get_self. cbn [data holding].
  rewrite (ohlcv_not_empty _ has_days). reflexivity.
Qed.

Lemma savefig_or_show_run (save_path : option string) (self : visualizer) :
  savefig_or_show save_path self = Outcome (inr tt) self (figure_end save_path).
Proof. unfold savefig_or_show, figure_end. destruct (given save_path); reflexivity. Qed.

Lemma bar_colors_value (cs os : list Qc) :
  bar_colors (map Num cs) (map Num os) = inr (colors_of cs os).
Proof.
  revert os. induction cs as [|c cs IH]; intros [|o os]; try reflexivity.
  cbn [map bar_colors Pd.lt_cell]. rewrite IH. reflexivity.
Qed.

(** The volume bars are coloured day by day: red when the close is below
    the open, green otherwise, also when the two are equal. *)
Theorem bar_colors_by_day (cs os : list Qc) (i : nat) (c o : Qc) :
  cs !! i = Some c ->
  os !! i = Some o ->
  exists colors,
    bar_colors (map Num cs) (map Num os) = inr colors
    /\ length colors = (length cs `min` length os)%nat
    /\ colors !! i = Some (if bool_decide (c < o)%Qc then "red" else "green")
    /\ (c = o -> colors !! i = Some "green").
Proof.
  intros Hc Ho. exists (colors_of cs os).
  split; [apply bar_colors_value|]. unfold colors_of.
  split; [apply length_zip_with|].
  assert (zip_with (fun c o => if bool_decide (c < o)%Qc then "red" else "green") cs os !! i
          = Some (if bool_decide (c < o)%Qc then "red" else "green")) as H.
  { rewrite lookup_zip_with, Hc, Ho. reflexivity. }
  split; [exact H|]. intros ->. rewrite H.
  rewrite bool_decide_eq_false_2; [reflexivity|]. apply Qcle_not_lt, Qcle_refl.
Qed.

(** On a series the candlestick chart always succeeds: it draws the candles
    and the coloured volume bars over all days, then writes the page to the
    given path or, without one, shows the chart. *)
Lemma candlestick_chart_run (save_path : option string) :
  plot_candlestick_chart save_path v
  = Outcome (inr tt) v
      ([Candlestick (index (ohlcv bars)) (map Num (map open bars))
          (map Num (map high bars)) (map Num (map low bars)) (map Num (map close bars));
        Bar (index (ohlcv bars)) (map Num (map volume bars))
          (colors_of (map close bars) (map open bars))]
       ++ html_end save_path).
Proof.
  unfold plot_candlestick_chart. rewrite with_data_series.
  rewrite getitem_open, bind_lift_inr, getitem_high, bind_lift_inr.
  rewrite getitem_low, bind_lift_inr, getitem_close, bind_lift_inr, bind_emit.
  rewrite bar_colors_value, bind_lift_inr, getitem_volume, bind_lift_inr, bind_emit.
  unfold html_end. destruct (given save_path); reflexivity.
Qed.

Lemma moving_average_rolled (field : string) (xs : list Qc) (p : Z) :
  Pd.getitem (ohlcv bars) field = inr (map Num xs) ->
  (0 <= p)%Z ->
  moving_average (ohlcv bars) field p = inr (rolled p xs).
Proof.
  intros H Hp. rewrite (moving_average_numeric _ _ _ _ H).
  unfold Pd.rolling_mean, rolled.
  destruct (p <? 0)%Z eqn:E; [apply Z.ltb_lt in E; lia|reflexivity].
Qed.

Lemma periods_run (periods : list Z) (self : visualizer) :
  Forall (fun p => (0 <= p)%Z) periods ->
  for_each periods (fun period =>
    if (period <=? Z.of_nat (Pd.len (ohlcv bars)))%Z
    then
      ma <- lift (moving_average (ohlcv bars) "close" period) ;;
      emit (Line ("MA" +:+ Str.of_Z period) (index (ohlcv bars)) (Pd.cells ma))
    else ret tt) self
  = Outcome (inr tt) self
      (map (ma_line bars)
         (List.filter (fun p => (p <=? Z.of_nat (length bars))%Z) periods)).
Proof.
  rewrite len_ohlcv.
  induction 1 as [|p periods Hp _ IH]; [reflexivity|].
  cbn [for_each List.filter]. rewrite bind_run.
  destruct (p <=? Z.of_nat (length bars))%Z.
  - rewrite (moving_average_rolled "close" _ p (getitem_close bars) Hp).
    rewrite bind_lift_inr. cbn [emit result final trace]. rewrite IH. reflexivity.
  - cbn [ret result final trace]. rewrite IH. reflexivity.
Qed.

(** On a series the price chart always succeeds for periods that are no
    negative numbers: after the closes it draws one overlay for each period
    that is at most the number of days, in the order of the list and
    labelled "MA" with the period, and none for a longer period. *)
Lemma price_chart_run (periods : list Z) (save_path : option string) :
  Forall (fun p => (0 <= p)%Z) periods ->
  plot_price_and_moving_averages periods save_path v
  = Outcome (inr tt) v
      (Line "Close Price" (index (ohlcv bars)) (map Num (map close bars))
       :: map (ma_line bars)
            (List.filter (fun p => (p <=? Z.of_nat (length bars))%Z) periods)
       ++ figure_end save_path).
Proof.
  intros Hp. unfold plot_price_and_moving_averages. rewrite with_data_series.
  rewrite getitem_close, bind_lift_inr, bind_emit.
  rewrite bind_run, (periods_run _ _ Hp). cbn [result final trace].
  rewrite savefig_or_show_run. reflexivity.
Qed.

(** A negative period is not skipped: it passes the length test and the
    rolling window refuses it, so the price chart raises [ValueError] after
    the closes are drawn; the remaining periods are not drawn and nothing
    is saved or shown. *)
Theorem price_chart_negative_period
    (p : Z) (periods : list Z) (save_path : option string) :
  (p < 0)%Z ->
  plot_price_and_moving_averages (p :: periods) save_path v
  = Outcome (inl (ValueError "window must be an integer 0 or greater")) v
      [Line "Close Price" (index (ohlcv bars)) (map Num (map close bars))].
Proof.
  intros Hp. unfold plot_price_and_moving_averages. rewrite with_data_series.
  rewrite getitem_close, bind_lift_inr, bind_emit.
  cbn [for_each].
  assert ((p <=? Z.of_nat (Pd.len (ohlcv bars)))%Z = true) as -> by (apply Z.leb_le; lia).
  rewrite (moving_average_numeric _ _ _ _ (getitem_close bars)).
  unfold Pd.rolling_mean. apply Z.ltb_lt in Hp. rewrite Hp. reflexivity.
Qed.

(** On a series the volume chart always succeeds: closes, coloured volume
    bars and the 20-day volume average, over all days. *)
Lemma volume_chart_run (save_path : option string) :
  plot_volume_analysis save_path v
  = Outcome (inr tt) v
      ([Line "" (index (ohlcv bars)) (map Num (map close bars));
        Bar (index (ohlcv bars)) (map Num (map volume bars))
          (colors_of (map close bars) (map open bars));
        Line "Volume MA20" (index (ohlcv bars))
          (Pd.cells (rolled 20 (map volume bars)))]
       ++ figure_end save_path).
Proof.
  unfold plot_volume_analysis. rewrite with_data_series.
  rewrite getitem_close, bind_lift_inr, bind_emit.
  rewrite getitem_open, bind_lift_inr, bar_colors_value, bind_lift_inr.
  rewrite getitem_volume, bind_lift_inr, bind_emit.
  rewrite (moving_average_rolled "volume" _ 20 (getitem_volume bars)) by lia.
  rewrite bind_lift_inr, bind_emit, savefig_or_show_run. reflexivity.
Qed.

Lemma daily_returns_numeric (cs : list Qc) :
  cs <> [] ->
  Forall (fun c => c <> 0%Qc) cs ->
  daily_returns_pct (map Some cs) = None :: map Some (return_percents cs).
Proof.
  intros Hne Hnz. unfold daily_returns_pct, return_percents.
  rewrite (pct_change_numeric cs Hne Hnz). cbn [map Pd.fmul]. f_equal.
  rewrite !map_map. reflexivity.
Qed.

(** On a series without a zero close the returns chart always succeeds: the
    line and the histogram both hold the day-over-day returns in per cent,
    one for each day but the first. *)
Theorem returns_chart_of_series (save_path : option string) :
  Forall (fun b => close b <> 0%Qc) bars ->
  plot_daily_returns save_path v
  = Outcome (inr tt) v
      ([Line "" (tail (index (ohlcv bars)))
          (map Num (return_percents (map close bars)));
        Hist (map Num (return_percents (map close bars)))]
       ++ figure_end save_path)
  /\ length (return_percents (map close bars)) = (length bars - 1)%nat.
Proof.
  intros Hnz.
  assert (Forall (fun c => c <> 0%Qc) (map close bars)) as Hcs
    by (apply Forall_map; exact Hnz).
  split.
  - unfold plot_daily_returns, hist. rewrite with_data_series.
    rewrite getitem_close, bind_lift_inr, numbers_map_Num, bind_lift_inr. cbv zeta.
    rewrite (pct_infinite_numeric _ Hcs).
    rewrite daily_returns_numeric.
    + cbn [tail]. rewrite bind_emit, bind_emit, savefig_or_show_run.
      rewrite dropna_None, dropna_map_Some. unfold Pd.cells. rewrite map_map. reflexivity.
    + destruct bars; [congruence|discriminate].
    + exact Hcs.
  - unfold return_percents, return_fractions. rewrite length_map, length_zip_with.
    destruct bars as [|b r]; [reflexivity|]. cbn [map tail length].
    rewrite length_map. lia.
Qed.

End Charts.

(** ** A frame without a [close] column *)

Lemma getitem_missing (df : DataFrame) (name : string) :
  Pd.find_column name (columns df) = None -> Pd.getitem df name = inl (KeyError name).
Proof. unfold Pd.getitem. intros ->. reflexivity. Qed.

Lemma with_data_frame (body : DataFrame -> M unit) (self : visualizer) (df : DataFrame) :
  data self = Some df -> Pd.empty df = false -> with_data body self = body df self.
Proof.
  intros Hd He. unfold with_data. rewrite bind_get_self, Hd, He. reflexivity.
Qed.

Lemma print_summary_without_close (sqrt : Qc -> Qc) (self : visualizer) (df : DataFrame) :
  data self = Some df ->
  Pd.empty df = false ->
  Pd.find_column "close" (columns df) = None ->
  print_summary sqrt self
  = Outcome (inl (KeyError "close")) self
      [Print (nl +:+ rule60);
       Print ("Summary Statistics for " +:+ symbol self);
       Print ("Period: " +:+ start_date self +:+ " to " +:+ end_date self);
       Print rule60].
Proof.
  intros Hd He Hc. unfold print_summary. rewrite (with_data_frame _ _ _ Hd He).
  rewrite bind_get_self, !bind_print, (getitem_missing df "close" Hc). reflexivity.
Qed.

(** On a frame with rows and columns but no [close] column, the price,
    volume and returns charts raise [KeyError] for [close] before they draw
    anything, the candlestick chart raises [KeyError] for the first column
    it misses, also before it draws, and [print_summary] raises it after
    the four header lines and before any statistic. *)
Theorem methods_without_close_column
    (sqrt : Qc -> Qc) (self : visualizer) (df : DataFrame)
    (save_path : option string) (ma_periods : list Z) :
  data self = Some df ->
  Pd.empty df = false ->
  Pd.find_column "close" (columns df) = None ->
  plot_price_and_moving_averages ma_periods save_path self
  = Outcome (inl (KeyError "close")) self []
  /\ plot_volume_analysis save_path self = Outcome (inl (KeyError "close")) self []
  /\ plot_daily_returns save_path self = Outcome (inl (KeyError "close")) self []
  /\ (exists k, plot_candlestick_chart save_path self = Outcome (inl (KeyError k)) self [])
  /\ print_summary sqrt self
     = Outcome (inl (KeyError "close")) self
         [Print (nl +:+ rule60);
          Print ("Summary Statistics for " +:+ symbol self);
          Print ("Period: " +:+ start_date self +:+ " to " +:+ end_date self);
          Print rule60].
Proof.
  intros Hd He Hc. pose proof (getitem_missing df "close" Hc) as Hg.
  split; [|split; [|split; [|split]]].
  - unfold plot_price_and_moving_averages. rewrite (with_data_frame _ _ _ Hd He), Hg.
    reflexivity.
  - unfold plot_volume_analysis. rewrite (with_data_frame _ _ _ Hd He), Hg. reflexivity.
  - unfold plot_daily_returns. rewrite (with_data_frame _ _ _ Hd He), Hg. reflexivity.
  - unfold plot_candlestick_chart. rewrite (with_data_frame _ _ _ Hd He).
    destruct (Pd.getitem df "open") as [e|o] eqn:Ho.
    { unfold Pd.getitem in Ho. destruct (Pd.find_column "open" _); [discriminate|].
      injection Ho as <-. exists "open". reflexivity. }
    rewrite bind_lift_inr.
    destruct (Pd.getitem df "high") as [e|h] eqn:Hh.
    { unfold Pd.getitem in Hh. destruct (Pd.find_column "high" _); [discriminate|].
      injection Hh as <-. exists "high". reflexivity. }
    rewrite bind_lift_inr.
    destruct (Pd.getitem df "low") as [e|l] eqn:Hl.
    { unfold Pd.getitem in Hl. destruct (Pd.find_column "low" _); [discriminate|].
      injection Hl as <-. exists "low". reflexivity. }
    rewrite bind_lift_inr, Hg. exists "close". reflexivity.
  - apply (print_summary_without_close sqrt self df Hd He Hc).
Qed.

(** ** Overlays and the date index *)

Lemma length_roll_mean (w minp : nat) (all : list (option Qc)) (i : nat)
    (st : Qc * nat) (xs : list (option Qc)) :
  length (Pd.roll_mean w minp all i st xs) = length xs.
Proof.
  revert i st. induction xs as [|x xs IH]; intros i st; [reflexivity|].
  cbn [Pd.roll_mean length]. cbv zeta. rewrite IH. reflexivity.
Qed.

Lemma length_shift1 (xs : list (option Qc)) : length (Pd.shift1 xs) = length xs.
Proof.
  destruct xs as [|x xs]; [reflexivity|].
  unfold Pd.shift1. cbn [length]. rewrite removelast_firstn_len, length_take.
  cbn [length]. lia.
Qed.

Lemma length_pct_change (xs : list (option Qc)) :
  length (Pd.pct_change xs) = length xs.
Proof. unfold Pd.pct_change. rewrite length_zip_with, length_shift1. lia. Qed.

(** Every overlay has one entry per row, gaps included: a moving average
    that is computed is as long as its column, whatever the window and
    whatever is missing in the column, and so are the daily returns. *)
Theorem overlays_are_aligned
    (df : DataFrame) (field : string) (window : Z) (ma : list (option Qc))
    (xs : list (option Qc)) :
  moving_average df field window = inr ma ->
  (exists col, Pd.getitem df field = inr col /\ length ma = length col)
  /\ length (daily_returns_pct xs) = length xs.
Proof.
  intros H. split.
  - unfold moving_average in H.
    destruct (Pd.getitem df field) as [e|col]; [discriminate|].
    exists col. split; [reflexivity|].
    destruct (Pd.numbers col) as [e|ys] eqn:Hn; [discriminate|].
    unfold Pd.rolling_mean in H. destruct (window <? 0)%Z; [discriminate|].
    injection H as <-. rewrite length_roll_mean.
    clear - Hn. revert ys Hn. induction col as [|c col IH]; intros ys; cbn [Pd.numbers].
    + intros [= <-]. reflexivity.
    + destruct (Pd.number c); [discriminate|].
      destruct (Pd.numbers col) as [|vs]; [discriminate|].
      intros [= <-]. cbn [length]. f_equal. apply IH. reflexivity.
  - unfold daily_returns_pct. rewrite length_map. apply length_pct_change.
Qed.

(** ** Short series and the range of the prices *)

Lemma length_dropna (xs : list (option Qc)) : (length (Pd.dropna xs) <= length xs)%nat.
Proof.
  induction xs as [|[x|] xs IH]; [apply Nat.le_refl| |].
  - change (Pd.dropna (Some x :: xs)) with (x :: Pd.dropna xs). cbn [length]. lia.
  - rewrite dropna_None. cbn [length]. lia.
Qed.

(** A series of one or two days has no volatility: fewer than two returns
    exist, and the sample standard deviation needs two. *)
Lemma volatility_short (sqrt : Qc -> Qc) (xs : list (option Qc)) :
  (length xs <= 2)%nat -> volatility_pct sqrt xs = None.
Proof.
  intros Hl. unfold volatility_pct, Pd.std. cbv zeta.
  assert (length (Pd.dropna (Pd.pct_change xs)) <= 1)%nat as H.
  { destruct xs as [|x r]; [apply Nat.leb_le; reflexivity|].
    rewrite pct_change_cons.
    rewrite dropna_None.
    pose proof (length_dropna (zip_with change r (x :: r))) as Hd.
    rewrite length_zip_with in Hd. cbn [length] in *. lia. }
  apply Nat.leb_le in H. rewrite H. destruct (Pd.pct_infinite xs); reflexivity.
Qed.

(** The summary of a single day with a close that is not zero: the latest
    price is that close, the change is zero in absolute terms and in per
    cent, and the volatility is undefined. *)
Theorem summary_of_one_day (sqrt : Qc -> Qc) (sym : string) (b : bar) (self : visualizer) :
  close b <> 0%Qc ->
  exists s,
    analyze_summary sqrt sym (ohlcv [b]) self = Outcome (inr s) self []
    /\ latest_price s = Some (close b)
    /\ price_change s = Some 0%Qc
    /\ price_change_pct s = Some 0%Qc
    /\ volatility s = None
    /\ data_points s = 1%nat.
Proof.
  intros Hc. eexists. split; [apply analyze_summary_series|].
  cbn [latest_price price_change price_change_pct volatility data_points List.last length].
  split; [reflexivity|].
  split; [f_equal; ring|].
  split; [rewrite (change_pct_value _ _ Hc); f_equal; field; exact Hc|].
  split; [apply volatility_short; simpl; lia|reflexivity].
Qed.

Lemma foldl_qmax_bounds (l : list Qc) (x : Qc) :
  (x <= foldl Pd.qmax x l)%Qc
  /\ Forall (fun y => (y <= foldl Pd.qmax x l)%Qc) l
  /\ (foldl Pd.qmax x l = x \/ In (foldl Pd.qmax x l) l).
Proof.
  revert x. induction l as [|y l IH]; intros x.
  - split; [apply Qcle_refl|]. split; [constructor|left; reflexivity].
  - cbn [foldl]. destruct (IH (Pd.qmax x y)) as (H1 & H2 & H3).
    assert (x <= Pd.qmax x y /\ y <= Pd.qmax x y)%Qc as [Hx Hy].
    { unfold Pd.qmax. destruct (decide (x <= y)%Qc) as [H|H].
      - split; [exact H|apply Qcle_refl].
      - split; [apply Qcle_refl|apply Qclt_le_weak, Qcnot_le_lt, H]. }
    split; [eapply Qcle_trans; eassumption|].
    split; [constructor; [eapply Qcle_trans; eassumption|exact H2]|].
    destruct H3 as [H3|H3]; [|right; right; exact H3].
    rewrite H3. unfold Pd.qmax. destruct (decide (x <= y)%Qc); [right; left|left]; reflexivity.
Qed.

Lemma foldl_qmin_bounds (l : list Qc) (x : Qc) :
  (foldl Pd.qmin x l <= x)%Qc
  /\ Forall (fun y => (foldl Pd.qmin x l <= y)%Qc) l
  /\ (foldl Pd.qmin x l = x \/ In (foldl Pd.qmin x l) l).
Proof.
  revert x. induction l as [|y l IH]; intros x.
  - split; [apply Qcle_refl|]. split; [constructor|left; reflexivity].
  - cbn [foldl]. destruct (IH (Pd.qmin x y)) as (H1 & H2 & H3).
    assert (Pd.qmin x y <= x /\ Pd.qmin x y <= y)%Qc as [Hx Hy].
    { unfold Pd.qmin. destruct (decide (x <= y)%Qc) as [H|H].
      - split; [apply Qcle_refl|exact H].
      - split; [apply Qclt_le_weak, Qcnot_le_lt, H|apply Qcle_refl]. }
    split; [eapply Qcle_trans; eassumption|].
    split; [constructor; [eapply Qcle_trans; eassumption|exact H2]|].
    destruct H3 as [H3|H3]; [|right; right; exact H3].
    rewrite H3. unfold Pd.qmin. destruct (decide (x <= y)%Qc); [left|right; left]; reflexivity.
Qed.

(** The price range of the summary of a series: the highest price is the
    high of one of its days and no day's high exceeds it; the lowest price
    is the low of one of its days and no day's low is below it. *)
Theorem summary_price_range
    (sqrt : Qc -> Qc) (sym : string) (b0 : bar) (rest : list bar) (self : visualizer) :
  exists s hi lo,
    analyze_summary sqrt sym (ohlcv (b0 :: rest)) self = Outcome (inr s) self []
    /\ highest_price s = Some hi
    /\ lowest_price s = Some lo
    /\ In hi (map high (b0 :: rest))
    /\ In lo (map low (b0 :: rest))
    /\ Forall (fun b => (high b <= hi)%Qc /\ (lo <= low b)%Qc) (b0 :: rest).
Proof.
  eexists _, (foldl Pd.qmax (high b0) (map high rest)),
    (foldl Pd.qmin (low b0) (map low rest)).
  split; [apply analyze_summary_series|].
  cbn [highest_price lowest_price].
  assert (forall f, Pd.dropna (map Some (map f (b0 :: rest))) = f b0 :: map f rest) as Hd
    by (intros f; apply dropna_map_Some).
  unfold Pd.max, Pd.min. rewrite !Hd.
  split; [reflexivity|]. split; [reflexivity|].
  destruct (foldl_qmax_bounds (map high rest) (high b0)) as (Hx1 & Hx2 & Hx3).
  destruct (foldl_qmin_bounds (map low rest) (low b0)) as (Hn1 & Hn2 & Hn3).
  split; [cbn [map]; destruct Hx3 as [->|H]; [left; reflexivity|right; exact H]|].
  split; [cbn [map]; destruct Hn3 as [->|H]; [left; reflexivity|right; exact H]|].
  constructor; [split; assumption|].
  rewrite Forall_forall in Hx2, Hn2. apply Forall_forall. intros b Hb. split.
  - apply Hx2, in_map, Hb.
  - apply Hn2, in_map, Hb.
Qed.

(** ** Runs that succeed *)

Lemma written_app (tr tr' : list event) : written (tr ++ tr') = written tr ++ written tr'.
Proof. unfold written. apply omap_app. Qed.

Lemma shown_app (tr tr' : list event) : shown (tr ++ tr') = (shown tr + shown tr')%nat.
Proof. unfold shown. rewrite List.filter_app, length_app. reflexivity. Qed.

Lemma given_in_directory (dir name : string) :
  given (Some (dir +:+ "/" +:+ name)) = Some (dir +:+ "/" +:+ name).
Proof. destruct dir; reflexivity. Qed.

Lemma given_nonempty (p : string) : p <> "" -> given (Some p) = Some p.
Proof. destruct p; [congruence|reflexivity]. Qed.

Lemma app_nonempty_l (a b : string) : a <> "" -> a +:+ b <> "".
Proof. destruct a; [congruence|discriminate]. Qed.

Lemma app_nonempty_r (a b : string) : b <> "" -> a +:+ b <> "".
Proof. destruct a; [intros H; exact H|discriminate]. Qed.

(** A joined path is not empty when the name is not. *)
Lemma path_join_nonempty (dir name : string) : name <> "" -> path_join dir name <> "".
Proof.
  intros Hn. unfold path_join.
  destruct (String.prefix "/" name); [exact Hn|].
  destruct (String.eqb dir "") eqn:E; [exact Hn|].
  apply String.eqb_neq in E.
  destruct (Str.ends_with "/" dir); apply app_nonempty_l, E.
Qed.

(** A name that does not start with a slash is put inside the directory. *)
Lemma path_join_inside (dir name : string) :
  String.prefix "/" name = false ->
  path_join dir name
  = if String.eqb dir "" then name
    else if Str.ends_with "/" dir then dir +:+ name else dir +:+ "/" +:+ name.
Proof. intros H. unfold path_join. rewrite H. reflexivity. Qed.

(** A name that starts with a slash replaces the directory. *)
Lemma path_join_absolute (dir name : string) :
  String.prefix "/" name = true -> path_join dir name = name.
Proof. intros H. unfold path_join. rewrite H. reflexivity. Qed.

Lemma upper_empty (s : string) : Str.upper s = "" -> s = "".
Proof. destruct s; [reflexivity|discriminate]. Qed.

Lemma returns_chart_run (sym a b : string) (bars : list bar) (save_path : option string) :
  bars <> [] ->
  Forall (fun c => c <> 0%Qc) (map close bars) ->
  plot_daily_returns save_path (holding sym a b (ohlcv bars))
  = Outcome (inr tt) (holding sym a b (ohlcv bars))
      ([Line "" (tail (index (ohlcv bars))) (map Num (return_percents (map close bars)));
        Hist (map Num (return_percents (map close bars)))]
       ++ figure_end save_path).
Proof.
  intros Hne Hcs. unfold plot_daily_returns, hist.
  rewrite (with_data_series sym a b bars Hne).
  rewrite getitem_close, bind_lift_inr, numbers_map_Num, bind_lift_inr. cbv zeta.
  rewrite (pct_infinite_numeric _ Hcs).
  rewrite (daily_returns_numeric (map close bars))
    by (exact Hcs || (destruct bars; [congruence|discriminate])).
  cbn [tail]. rewrite bind_emit, bind_emit, savefig_or_show_run.
  rewrite dropna_None, dropna_map_Some. unfold Pd.cells. rewrite map_map. reflexivity.
Qed.

(** With an infinite return among them, which a close of zero followed by
    another close gives, the returns chart draws its line and fails on the
    histogram; nothing is saved or shown. *)
Lemma returns_chart_infinite (sym a b : string) (bars : list bar)
    (save_path : option string) :
  bars <> [] ->
  Pd.pct_infinite (map Some (map close bars)) = true ->
  plot_daily_returns save_path (holding sym a b (ohlcv bars))
  = Outcome (inl (ValueError "range of the histogram is not finite"))
      (holding sym a b (ohlcv bars))
      [Line "" (tail (index (ohlcv bars)))
         (Pd.cells (tail (daily_returns_pct (map Some (map close bars)))))].
Proof.
  intros Hne Hinf. unfold plot_daily_returns, hist.
  rewrite (with_data_series sym a b bars Hne).
  rewrite getitem_close, bind_lift_inr, numbers_map_Num, bind_lift_inr. cbv zeta.
  rewrite Hinf, bind_emit. reflexivity.
Qed.

(** What the first three charts leave on disk when each is given a path
    that is not empty: three files, in this order, and no window. *)
Lemma three_charts_saved {B} (sym a b : string) (bars : list bar)
    (p1 p2 p3 : string) (k : M B) :
  bars <> [] ->
  p1 <> "" -> p2 <> "" -> p3 <> "" ->
  exists tr,
    (plot_candlestick_chart (Some p1) ;;;
     plot_price_and_moving_averages default_ma_periods (Some p2) ;;;
     plot_volume_analysis (Some p3) ;;;
     k)
      (holding sym a b (ohlcv bars))
    = after tr (k (holding sym a b (ohlcv bars)))
    /\ written tr = [p1; p2; p3]
    /\ shown tr = 0%nat.
Proof.
  intros Hne H1 H2 H3.
  assert (Forall (fun p => (0 <= p)%Z) default_ma_periods) as Hp
    by (repeat constructor; discriminate).
  rewrite bind_run, (candlestick_chart_run sym a b bars Hne). cbn [result final trace].
  rewrite bind_run, (price_chart_run sym a b bars Hne _ _ Hp). cbn [result final trace].
  rewrite bind_run, (volume_chart_run sym a b bars Hne). cbn [result final trace].
  unfold after. rewrite !(app_assoc _ _ (trace _)).
  eexists. split; [reflexivity|].
  unfold html_end, figure_end.
  rewrite (given_nonempty _ H1), (given_nonempty _ H2), (given_nonempty _ H3).
  rewrite !written_app, !shown_app.
  set (ps := List.filter _ default_ma_periods).
  assert (written (map (ma_line bars) ps) = [] /\ shown (map (ma_line bars) ps) = 0%nat)
    as [Hw Hs] by (induction ps; split; try reflexivity; cbn; tauto).
  change (written (Line "Close Price" (index (ohlcv bars)) (map Num (map close bars))
                   :: map (ma_line bars) ps ++ ?k))
    with (written (map (ma_line bars) ps ++ k)).
  change (shown (Line "Close Price" (index (ohlcv bars)) (map Num (map close bars))
                 :: map (ma_line bars) ps ++ ?k))
    with (shown (map (ma_line bars) ps ++ k)).
  rewrite written_app, shown_app.
  rewrite Hw, Hs. split; reflexivity.
Qed.

(** What the four charts leave on disk, for closes that are not zero:
    exactly these four files, in this order, and no window. *)
Lemma four_charts_saved {B} (sym a b : string) (bars : list bar)
    (p1 p2 p3 p4 : string) (k : M B) :
  bars <> [] ->
  Forall (fun c => c <> 0%Qc) (map close bars) ->
  p1 <> "" -> p2 <> "" -> p3 <> "" -> p4 <> "" ->
  exists tr,
    (plot_candlestick_chart (Some p1) ;;;
     plot_price_and_moving_averages default_ma_periods (Some p2) ;;;
     plot_volume_analysis (Some p3) ;;;
     plot_daily_returns (Some p4) ;;;
     k)
      (holding sym a b (ohlcv bars))
    = after tr (k (holding sym a b (ohlcv bars)))
    /\ written tr = [p1; p2; p3; p4]
    /\ shown tr = 0%nat.
Proof.
  intros Hne Hcs H1 H2 H3 H4.
  destruct (three_charts_saved sym a b bars p1 p2 p3
              (plot_daily_returns (Some p4) ;;; k) Hne H1 H2 H3) as (tr & Hrun & Hw & Hs).
  rewrite Hrun, bind_run, (returns_chart_run sym a b bars (Some p4) Hne Hcs).
  cbn [result final trace]. unfold after. cbn [result final trace].
  rewrite !(app_assoc _ _ (trace _)).
  eexists. split; [reflexivity|].
  unfold figure_end. rewrite (given_nonempty _ H4).
  rewrite !written_app, !shown_app, Hw, Hs. split; reflexivity.
Qed.

Section Running.

Variable sqrt : Qc -> Qc.
Variable to_datetime : list cell -> exn + list cell.
Variable VNSTOCK_VERSION : Z.
Variable history : string -> string -> string -> exn + option DataFrame.
Variable stock_historical_data : string -> string -> string -> exn + option DataFrame.
Variable now : clock.
Variable CHART_OUTPUT_DIR : string.

Local Abbreviation fetch :=
  (fetch_data to_datetime VNSTOCK_VERSION history stock_historical_data).
Local Abbreviation run_main :=
  (main sqrt to_datetime VNSTOCK_VERSION history stock_historical_data now).
Local Abbreviation handle :=
  (analyze_stock sqrt to_datetime VNSTOCK_VERSION history stock_historical_data now
     CHART_OUTPUT_DIR).

(** A fetch changes nothing of the analyzer but its frame. *)
Lemma fetch_data_final (self : visualizer) :
  final (fetch self) = with_frame self (data (final (fetch self))).
Proof.
  rewrite fetch_data_cases.
  destruct (retrieved _ _ _ self) as [e|r].
  { cbn [fetch_caught final]. symmetry. apply with_frame_data. }
  assert (forall v, final (fetch_verdict (fetching self) v) = v) as Hv.
  { intros v. unfold fetch_verdict. destruct (data v) as [df|]; [|reflexivity].
    destruct (Pd.empty df); reflexivity. }
  destruct (VNSTOCK_VERSION =? 3)%Z.
  - cbv zeta.
    assert (exists d, final (normalize to_datetime (with_frame self r)) = with_frame self d)
      as [d Hd].
    { rewrite normalize_cases. cbn [data with_frame].
      destruct r as [df|]; [|eexists; reflexivity]. cbv zeta.
      destruct (Pd.has_column "time" _); [|eexists; reflexivity].
      destruct (time_series _); [eexists; reflexivity|].
      destruct (to_datetime _); [eexists; reflexivity|].
      destruct (Pd.set_index _ "time"); eexists; reflexivity. }
    destruct (result (normalize to_datetime (with_frame self r))) as [e|[]].
    + cbn [fetch_caught final]. rewrite Hd. reflexivity.
    + rewrite Hv, Hd. reflexivity.
  - rewrite Hv. reflexivity.
Qed.

(** The web handler reads the symbol without regard to case: a request
    gets the answer, and leaves the trace, of the same request with the
    symbol in capitals. *)
Theorem analyze_stock_ignores_case (t : nat) (sym : string) (a b : option string) :
  handle t (Some {| req_symbol := Some (JString sym); req_start_date := a;
                    req_end_date := b |})
  = handle t (Some {| req_symbol := Some (JString (Str.upper sym)); req_start_date := a;
                      req_end_date := b |}).
Proof.
  unfold analyze_stock.
  cbn [req_symbol req_start_date req_end_date default from_option json_upper].
  unfold id. cbn [json_upper]. rewrite !upper_idempotent. reflexivity.
Qed.

(** What the handler does with the symbol of a request.  Without the key,
    or with the empty string, it answers 400 and "Stock symbol is required"
    before anything is fetched.  With null, a number, a boolean, a list or
    an object under the key, [.upper()] raises: the answer is 500 with the
    text of the [AttributeError], the traceback is printed and nothing is
    fetched.  With any other string the provider is asked, for the symbol
    in capitals.  Without a JSON object at all the answer is 500 as well. *)
Theorem analyze_stock_requires_symbol (t : nat) (r : request) :
  (req_symbol r = None \/ req_symbol r = Some (JString "") ->
   handle t (Some r) = (ErrorBody "Stock symbol is required" 400, []))
  /\ (forall v,
        req_symbol r = Some v ->
        (forall s, v <> JString s) ->
        handle t (Some r)
        = (ErrorBody ("'" +:+ type_name v +:+ "' object has no attribute 'upper'") 500,
           [PrintExc (AttributeError
                        ("'" +:+ type_name v +:+ "' object has no attribute 'upper'"))]))
  /\ (forall s,
        req_symbol r = Some (JString s) ->
        s <> "" ->
        exists tr,
          snd (handle t (Some r))
          = fetching (fst (init now t s (req_start_date r) (req_end_date r))) :: tr
          /\ symbol (fst (init now t s (req_start_date r) (req_end_date r))) = Str.upper s)
  /\ handle t None
     = (ErrorBody "'NoneType' object has no attribute 'get'" 500,
        [PrintExc (AttributeError "'NoneType' object has no attribute 'get'")]).
Proof.
  unfold analyze_stock. split; [|split; [|split; [|reflexivity]]].
  - intros [-> | ->]; reflexivity.
  - intros v -> Hv. cbn [default from_option]. unfold id.
    destruct v; try reflexivity. exfalso. exact (Hv s eq_refl).
  - intros s -> Hs. cbn [default from_option json_upper]. unfold id. cbn [json_upper].
    destruct (String.eqb (Str.upper s) "") eqn:E.
    { apply String.eqb_eq, upper_empty in E. contradiction. }
    rewrite init_upper.
    pose proof (init_symbol now t s (req_start_date r) (req_end_date r)) as Hsym.
    destruct (init now t s (req_start_date r) (req_end_date r)) as [v t'].
    cbn [fst] in *. unfold analyze_body. rewrite bind_run.
    destruct (fetch_data_returns to_datetime VNSTOCK_VERSION history
                stock_historical_data v) as (b & v' & tr & -> & _).
    cbn [result final trace].
    match goal with
    | |- context [result ?o] =>
        destruct (result o); cbn [snd]; eexists; (split; [reflexivity|exact Hsym])
    end.
Qed.

Lemma prefix_slash_app (s r : string) :
  s <> "" -> String.prefix "/" (s +:+ r) = String.prefix "/" s.
Proof.
  destruct s as [|c s]; [congruence|]. intros _.
  change (String c s +:+ r) with (String c (s +:+ r)).
  cbn [String.prefix]. destruct (ascii_dec "/" c); [|reflexivity].
  generalize (s +:+ r). intros u. destruct s, u; reflexivity.
Qed.

(** When the fetch succeeds and leaves a series whose closes are not zero,
    the web handler answers with the summary of that series, as
    [analyze_summary] computes it, and the addresses of four charts.  The
    four files it has written are the chart directory joined with the
    same names, made of the symbol in capitals and the time of the
    request; a symbol that starts with a slash makes the names absolute,
    and the files are then written outside the chart directory.  No chart
    window is opened. *)
Theorem analyze_stock_success
    (t : nat) (sym : string) (a b : option string) (b0 : bar) (rest : list bar) :
  Str.upper sym <> "" ->
  result (fetch (fst (init now t sym a b))) = inr true ->
  data (final (fetch (fst (init now t sym a b)))) = Some (ohlcv (b0 :: rest)) ->
  Forall (fun c => c <> 0%Qc) (map close (b0 :: rest)) ->
  exists s id,
    fst (handle t (Some {| req_symbol := Some (JString sym); req_start_date := a;
                           req_end_date := b |}))
    = Success s
        [("candlestick", "/static/charts/" +:+ id +:+ "_candlestick.html");
         ("moving_average", "/static/charts/" +:+ id +:+ "_ma.png");
         ("volume", "/static/charts/" +:+ id +:+ "_volume.png");
         ("returns", "/static/charts/" +:+ id +:+ "_returns.png")]
    /\ id = Str.upper sym +:+ "_" +:+ strftime_compact (now (snd (init now t sym a b)))
    /\ analyze_summary sqrt (Str.upper sym) (ohlcv (b0 :: rest))
         (final (fetch (fst (init now t sym a b))))
       = Outcome (inr s) (final (fetch (fst (init now t sym a b)))) []
    /\ sum_symbol s = Str.upper sym
    /\ latest_price s = Some (close (List.last rest b0))
    /\ data_points s = length (b0 :: rest)
    /\ written (snd (handle t (Some {| req_symbol := Some (JString sym);
                                       req_start_date := a; req_end_date := b |})))
       = [path_join CHART_OUTPUT_DIR (id +:+ "_candlestick.html");
          path_join CHART_OUTPUT_DIR (id +:+ "_ma.png");
          path_join CHART_OUTPUT_DIR (id +:+ "_volume.png");
          path_join CHART_OUTPUT_DIR (id +:+ "_returns.png")]
    /\ (String.prefix "/" (Str.upper sym) = true ->
        written (snd (handle t (Some {| req_symbol := Some (JString sym);
                                        req_start_date := a; req_end_date := b |})))
        = [id +:+ "_candlestick.html"; id +:+ "_ma.png";
           id +:+ "_volume.png"; id +:+ "_returns.png"])
    /\ (String.prefix "/" (Str.upper sym) = false ->
        CHART_OUTPUT_DIR <> "" ->
        Str.ends_with "/" CHART_OUTPUT_DIR = false ->
        written (snd (handle t (Some {| req_symbol := Some (JString sym);
                                        req_start_date := a; req_end_date := b |})))
        = [CHART_OUTPUT_DIR +:+ "/" +:+ id +:+ "_candlestick.html";
           CHART_OUTPUT_DIR +:+ "/" +:+ id +:+ "_ma.png";
           CHART_OUTPUT_DIR +:+ "/" +:+ id +:+ "_volume.png";
           CHART_OUTPUT_DIR +:+ "/" +:+ id +:+ "_returns.png"])
    /\ shown (snd (handle t (Some {| req_symbol := Some (JString sym);
                                     req_start_date := a; req_end_date := b |}))) = 0%nat.
Proof.
  intros Hsym Hres Hdata Hcs.
  unfold analyze_stock.
  cbn [req_symbol req_start_date req_end_date default from_option json_upper].
  unfold id. cbn [json_upper].
  destruct (String.eqb (Str.upper sym) "") eqn:E;
    [apply String.eqb_eq in E; contradiction|].
  rewrite init_upper.
  destruct (fetch_data_true_shape to_datetime VNSTOCK_VERSION history
              stock_historical_data _ Hres) as (df & Hd & He & Htr).
  rewrite Hdata in Hd. injection Hd as <-.
  pose proof (fetch_data_final (fst (init now t sym a b))) as Hfin.
  rewrite Hdata in Hfin.
  destruct (init now t sym a b) as [v t'] eqn:Hi. cbn [fst snd] in *.
  unfold analyze_body. rewrite bind_run, Hres, Hfin, Htr. cbn [negb].
  rewrite bind_get_self. cbn [data with_frame].
  rewrite (ohlcv_not_empty (b0 :: rest)) by discriminate.
  rewrite bind_run.
  change (with_frame v (Some (ohlcv (b0 :: rest))))
    with (holding (symbol v) (start_date v) (end_date v) (ohlcv (b0 :: rest))).
  rewrite !analyze_summary_series. cbn [result final trace].
  set (id := Str.upper sym +:+ "_" +:+ strftime_compact (now t')).
  assert (forall ext, ext <> "" -> path_join CHART_OUTPUT_DIR (id +:+ ext) <> "") as Hp
    by (intros ext Hext; apply path_join_nonempty, app_nonempty_r, Hext).
  match goal with
  | |- context [bind _ (fun _ => bind _ (fun _ => bind _ (fun _ => bind _ (fun _ => ?k))))] =>
      destruct (four_charts_saved (symbol v) (start_date v) (end_date v) (b0 :: rest)
                  (path_join CHART_OUTPUT_DIR (id +:+ "_candlestick.html"))
                  (path_join CHART_OUTPUT_DIR (id +:+ "_ma.png"))
                  (path_join CHART_OUTPUT_DIR (id +:+ "_volume.png"))
                  (path_join CHART_OUTPUT_DIR (id +:+ "_returns.png"))
                  k ltac:(discriminate) Hcs
                  (Hp "_candlestick.html" ltac:(discriminate))
                  (Hp "_ma.png" ltac:(discriminate))
                  (Hp "_volume.png" ltac:(discriminate))
                  (Hp "_returns.png" ltac:(discriminate)))
        as (tr & Hrun & Hw & Hs)
  end.
  rewrite Hrun. cbn [after ret result final trace fst snd app].
  eexists _, id. split; [reflexivity|]. split; [reflexivity|].
  split; [reflexivity|].
  cbn [sum_symbol latest_price data_points].
  split; [reflexivity|]. split; [reflexivity|]. split; [reflexivity|].
  rewrite app_nil_r.
  assert (forall ext, String.prefix "/" (id +:+ ext) = String.prefix "/" (Str.upper sym))
    as Hpre.
  { intros ext. unfold id.
    rewrite prefix_slash_app by (apply app_nonempty_l, Hsym).
    apply prefix_slash_app, Hsym. }
  split; [exact Hw|]. split; [|split; [|exact Hs]].
  - intros Hslash. change (written (fetching v :: Print ?l :: tr)) with (written tr).
    rewrite Hw.
    rewrite !path_join_absolute by (rewrite Hpre; exact Hslash). reflexivity.
  - intros Hslash Hdir Hend.
    change (written (fetching v :: Print ?l :: tr)) with (written tr). rewrite Hw.
    rewrite !path_join_inside by (rewrite Hpre; exact Hslash).
    apply String.eqb_neq in Hdir. rewrite Hdir, Hend. reflexivity.
Qed.


(** When the fetch succeeds and leaves a series in which a close of zero
    is followed by a close that is not zero, one return is infinite: the
    handler writes the first three charts, the histogram of the returns
    refuses its range, and the answer is 500 with the text of that
    [ValueError] after the traceback; the fourth file is not written. *)
Theorem analyze_stock_infinite_return
    (t : nat) (sym : string) (a b : option string) (b0 : bar) (rest : list bar)
    (i : nat) (c : Qc) :
  Str.upper sym <> "" ->
  result (fetch (fst (init now t sym a b))) = inr true ->
  data (final (fetch (fst (init now t sym a b)))) = Some (ohlcv (b0 :: rest)) ->
  map close (b0 :: rest) !! i = Some 0%Qc ->
  map close (b0 :: rest) !! S i = Some c ->
  c <> 0%Qc ->
  exists msg id tr,
    handle t (Some {| req_symbol := Some (JString sym); req_start_date := a;
                      req_end_date := b |})
    = (ErrorBody msg 500, tr ++ [PrintExc (ValueError msg)])
    /\ id = Str.upper sym +:+ "_" +:+ strftime_compact (now (snd (init now t sym a b)))
    /\ written tr
       = [path_join CHART_OUTPUT_DIR (id +:+ "_candlestick.html");
          path_join CHART_OUTPUT_DIR (id +:+ "_ma.png");
          path_join CHART_OUTPUT_DIR (id +:+ "_volume.png")]
    /\ shown tr = 0%nat.
Proof.
  intros Hsym Hres Hdata H0 Hc Hnz.
  pose proof (pct_infinite_at _ i c H0 Hc Hnz) as Hinf.
  unfold analyze_stock.
  cbn [req_symbol req_start_date req_end_date default from_option json_upper].
  unfold id. cbn [json_upper].
  destruct (String.eqb (Str.upper sym) "") eqn:E;
    [apply String.eqb_eq in E; contradiction|].
  rewrite init_upper.
  destruct (fetch_data_true_shape to_datetime VNSTOCK_VERSION history
              stock_historical_data _ Hres) as (df & Hd & He & Htr).
  rewrite Hdata in Hd. injection Hd as <-.
  pose proof (fetch_data_final (fst (init now t sym a b))) as Hfin.
  rewrite Hdata in Hfin.
  destruct (init now t sym a b) as [v t'] eqn:Hi. cbn [fst snd] in *.
  unfold analyze_body. rewrite bind_run, Hres, Hfin, Htr. cbn [negb].
  rewrite bind_get_self. cbn [data with_frame].
  rewrite (ohlcv_not_empty (b0 :: rest)) by discriminate.
  rewrite bind_run.
  change (with_frame v (Some (ohlcv (b0 :: rest))))
    with (holding (symbol v) (start_date v) (end_date v) (ohlcv (b0 :: rest))).
  rewrite !analyze_summary_series. cbn [result final trace].
  set (id := Str.upper sym +:+ "_" +:+ strftime_compact (now t')).
  assert (forall ext, ext <> "" -> path_join CHART_OUTPUT_DIR (id +:+ ext) <> "") as Hp
    by (intros ext Hext; apply path_join_nonempty, app_nonempty_r, Hext).
  match goal with
  | |- context [bind _ (fun _ => bind _ (fun _ => bind _ (fun _ => ?k)))] =>
      destruct (three_charts_saved (symbol v) (start_date v) (end_date v) (b0 :: rest)
                  (path_join CHART_OUTPUT_DIR (id +:+ "_candlestick.html"))
                  (path_join CHART_OUTPUT_DIR (id +:+ "_ma.png"))
                  (path_join CHART_OUTPUT_DIR (id +:+ "_volume.png"))
                  k ltac:(discriminate)
                  (Hp "_candlestick.html" ltac:(discriminate))
                  (Hp "_ma.png" ltac:(discriminate))
                  (Hp "_volume.png" ltac:(discriminate)))
        as (tr & Hrun & Hw & Hs)
  end.
  rewrite Hrun, bind_run.
  rewrite (returns_chart_infinite _ _ _ (b0 :: rest) _ ltac:(discriminate) Hinf).
  cbn [after result final trace fst snd app exn_str].
  eexists _, id, (fetching v :: Print _ :: tr ++ [Line "" _ _]).
  split; [reflexivity|].
  split; [reflexivity|].
  change (written (fetching v :: Print ?l :: ?k)) with (written k).
  change (shown (fetching v :: Print ?l :: ?k)) with (shown k).
  rewrite written_app, shown_app, Hw, Hs. split; reflexivity.
Qed.

(** Two ways [main] fails after a fetch that succeeded and a summary that
    was printed, both with [--save-charts].  With the empty string as the
    output directory [os.makedirs] raises [FileNotFoundError] and no chart
    is made.  With a directory, and a series in which a close of zero is
    followed by a close that is not zero, the first three charts are
    written and the histogram of the returns raises [ValueError]. *)
Theorem main_save_charts_failures
    (t : nat) (sym : string) (a b : option string) (dir : string)
    (b0 : bar) (rest : list bar) :
  result (fetch (fst (init now t sym a b))) = inr true ->
  data (final (fetch (fst (init now t sym a b)))) = Some (ohlcv (b0 :: rest)) ->
  (dir = "" ->
   result (run_main t {| arg_symbol := sym; arg_start := a; arg_end := b;
                         save_charts := true; output_dir := dir |})
   = inl (FileNotFoundError "[Errno 2] No such file or directory: ''")
   /\ written (trace (run_main t {| arg_symbol := sym; arg_start := a; arg_end := b;
                                    save_charts := true; output_dir := dir |})) = []
   /\ shown (trace (run_main t {| arg_symbol := sym; arg_start := a; arg_end := b;
                                  save_charts := true; output_dir := dir |})) = 0%nat)
  /\ (dir <> "" ->
      forall (i : nat) (c : Qc),
        map close (b0 :: rest) !! i = Some 0%Qc ->
        map close (b0 :: rest) !! S i = Some c ->
        c <> 0%Qc ->
        exists msg,
          result (run_main t {| arg_symbol := sym; arg_start := a; arg_end := b;
                                save_charts := true; output_dir := dir |})
          = inl (ValueError msg)
          /\ written (trace (run_main t {| arg_symbol := sym; arg_start := a;
                                           arg_end := b; save_charts := true;
                                           output_dir := dir |}))
             = [dir +:+ "/" +:+ Str.upper sym +:+ "_candlestick.html";
                dir +:+ "/" +:+ Str.upper sym +:+ "_ma.png";
                dir +:+ "/" +:+ Str.upper sym +:+ "_volume.png"]
          /\ shown (trace (run_main t {| arg_symbol := sym; arg_start := a;
                                         arg_end := b; save_charts := true;
                                         output_dir := dir |})) = 0%nat).
Proof.
  intros Hres Hdata.
  destruct (fetch_data_true_shape to_datetime VNSTOCK_VERSION history
              stock_historical_data _ Hres) as (df & Hd & He & Htr).
  rewrite Hdata in Hd. injection Hd as <-.
  pose proof (fetch_data_final (fst (init now t sym a b))) as Hfin.
  rewrite Hdata in Hfin.
  pose proof (init_symbol now t sym a b) as Hsym.
  unfold main. cbn [arg_symbol arg_start arg_end save_charts output_dir].
  destruct (init now t sym a b) as [v t'] eqn:Hi. cbn [fst snd] in *.
  rewrite bind_run, Hres, Hfin, Htr. cbn [negb].
  change (with_frame v (Some (ohlcv (b0 :: rest))))
    with (holding (symbol v) (start_date v) (end_date v) (ohlcv (b0 :: rest))).
  rewrite bind_run, print_summary_series. cbn [result final trace].
  split.
  - intros ->. cbn [makedirs String.eqb]. split; [reflexivity|]. split; reflexivity.
  - intros Hdir i c H0 Hc Hnz.
    pose proof (pct_infinite_at _ i c H0 Hc Hnz) as Hinf.
    unfold makedirs. apply String.eqb_neq in Hdir as Hdir'. rewrite Hdir'.
    rewrite bind_emit, bind_get_self. cbv zeta. rewrite bind_print.
    cbn [symbol holding]. rewrite Hsym.
    assert (forall name, dir +:+ "/" +:+ name <> "") as Hp
      by (intros name; apply app_nonempty_l, Hdir).
    match goal with
    | |- context [bind _ (fun _ => bind _ (fun _ => bind _ (fun _ => ?k)))] =>
        destruct (three_charts_saved (symbol v) (start_date v) (end_date v) (b0 :: rest)
                    (dir +:+ "/" +:+ Str.upper sym +:+ "_candlestick.html")
                    (dir +:+ "/" +:+ Str.upper sym +:+ "_ma.png")
                    (dir +:+ "/" +:+ Str.upper sym +:+ "_volume.png")
                    k ltac:(discriminate) (Hp _) (Hp _) (Hp _))
          as (tr & Hrun & Hw & Hs)
    end.
    rewrite Hsym in Hrun. rewrite Hrun, bind_run.
    rewrite (returns_chart_infinite _ _ _ (b0 :: rest) _ ltac:(discriminate) Hinf).
    cbn [after result final trace].
    eexists. split; [reflexivity|].
    rewrite !written_app, !shown_app, Hw, Hs. split; reflexivity.
Qed.

End Running.

(** ** The statements about fetching and the charts, in full *)

(** No exception of the provider or of the normalization leaves
    [fetch_data] (the exceptions are those of class [Exception]): it
    returns a boolean and leaves only printed lines.  The first names the
    symbol and the range; what follows is the count of the rows for [True],
    and for [False] either "No data retrieved" or the error with the
    traceback.  Nothing of the analyzer changes but its frame. *)
Theorem fetch_data_never_raises
    (to_datetime : list cell -> exn + list cell) (VNSTOCK_VERSION : Z)
    (history stock_historical_data : string -> string -> string -> exn + option DataFrame)
    (self : visualizer) :
  exists b tr,
    result (fetch_data to_datetime VNSTOCK_VERSION history stock_historical_data self) = inr b
    /\ trace (fetch_data to_datetime VNSTOCK_VERSION history stock_historical_data self)
       = fetching self :: tr
    /\ quiet tr = true
    /\ (if b
        then exists df,
               data (final (fetch_data to_datetime VNSTOCK_VERSION history
                              stock_historical_data self)) = Some df
               /\ tr = [Print ("Successfully fetched " +:+ Str.of_nat (Pd.len df)
                               +:+ " data points")]
        else tr = [Print "No data retrieved"]
             \/ exists e, tr = [Print ("Error fetching data: " +:+ exn_str e); PrintExc e])
    /\ symbol (final (fetch_data to_datetime VNSTOCK_VERSION history
                        stock_historical_data self)) = symbol self
    /\ start_date (final (fetch_data to_datetime VNSTOCK_VERSION history
                            stock_historical_data self)) = start_date self
    /\ end_date (final (fetch_data to_datetime VNSTOCK_VERSION history
                          stock_historical_data self)) = end_date self.
Proof.
  pose proof (fetch_data_final to_datetime VNSTOCK_VERSION history stock_historical_data self)
    as Hf.
  pose proof (fetch_data_true_shape to_datetime VNSTOCK_VERSION history
                stock_historical_data self) as Ht.
  pose proof (fetch_data_false_shape to_datetime VNSTOCK_VERSION history
                stock_historical_data self) as Hn.
  destruct (fetch_data_returns to_datetime VNSTOCK_VERSION history stock_historical_data self)
    as (b & v & tr & H & Hq).
  exists b, tr. rewrite H in *. cbn [result final trace] in *.
  split; [reflexivity|]. split; [reflexivity|]. split; [exact Hq|].
  split; [|rewrite Hf; repeat split].
  destruct b.
  - destruct (Ht eq_refl) as (df & Hd & _ & Htr). exists df.
    split; [exact Hd|]. injection Htr as ->. reflexivity.
  - destruct (Hn eq_refl) as [Htr|[e Htr]]; injection Htr as ->.
    + left. reflexivity.
    + right. exists e. reflexivity.
Qed.

(** A fetch that returns [True] has stored a frame with at least one row
    and one column, and its second and last line reports the number of
    rows. *)
Theorem fetch_data_true_means_data
    (to_datetime : list cell -> exn + list cell) (VNSTOCK_VERSION : Z)
    (history stock_historical_data : string -> string -> string -> exn + option DataFrame)
    (self : visualizer) :
  result (fetch_data to_datetime VNSTOCK_VERSION history stock_historical_data self)
  = inr true ->
  exists df,
    data (final (fetch_data to_datetime VNSTOCK_VERSION history stock_historical_data self))
    = Some df
    /\ (0 < Pd.len df)%nat
    /\ columns df <> []
    /\ trace (fetch_data to_datetime VNSTOCK_VERSION history stock_historical_data self)
       = [fetching self;
          Print ("Successfully fetched " +:+ Str.of_nat (Pd.len df) +:+ " data points")].
Proof.
  intros H.
  destruct (fetch_data_true_shape to_datetime VNSTOCK_VERSION history
              stock_historical_data self H) as (df & Hd & He & Htr).
  exists df. split; [exact Hd|].
  unfold Pd.empty in He. apply orb_false_iff in He as [H1 H2].
  apply Nat.eqb_neq in H1, H2.
  split; [lia|]. split; [|exact Htr].
  intros Hc. rewrite Hc in H2. apply H2. reflexivity.
Qed.

Lemma end_written (save_path : option string) :
  written (html_end save_path) = match given save_path with Some p => [p] | None => [] end
  /\ written (figure_end save_path) = match given save_path with Some p => [p] | None => [] end
  /\ shown (html_end save_path) = match given save_path with Some _ => 0 | None => 1 end
  /\ shown (figure_end save_path) = match given save_path with Some _ => 0 | None => 1 end.
Proof. unfold html_end, figure_end. destruct (given save_path); repeat split. Qed.

(** On a series the candlestick chart always succeeds: it draws the candles
    and the coloured volume bars over all days; with a path that is not
    empty it writes the page there and opens no window, without one (or
    with the empty path) it writes nothing and shows the chart. *)
Theorem candlestick_chart_of_series
    (sym start stop : string) (bars : list bar) (save_path : option string) :
  bars <> [] ->
  plot_candlestick_chart save_path (holding sym start stop (ohlcv bars))
  = Outcome (inr tt) (holding sym start stop (ohlcv bars))
      ([Candlestick (index (ohlcv bars)) (map Num (map open bars))
          (map Num (map high bars)) (map Num (map low bars)) (map Num (map close bars));
        Bar (index (ohlcv bars)) (map Num (map volume bars))
          (colors_of (map close bars) (map open bars))]
       ++ html_end save_path)
  /\ written (trace (plot_candlestick_chart save_path (holding sym start stop (ohlcv bars))))
     = match given save_path with Some p => [p] | None => [] end
  /\ shown (trace (plot_candlestick_chart save_path (holding sym start stop (ohlcv bars))))
     = match given save_path with Some _ => 0%nat | None => 1%nat end.
Proof.
  intros Hne. rewrite (candlestick_chart_run sym start stop bars Hne).
  split; [reflexivity|]. cbn [trace]. rewrite written_app, shown_app.
  destruct (end_written save_path) as (-> & _ & -> & _). split; reflexivity.
Qed.

Lemma prefix_MA (s : string) : String.prefix "MA" ("MA" +:+ s) = true.
Proof. vm_compute. destruct s; reflexivity. Qed.

Lemma overlays_figure_end (save_path : option string) :
  overlays (figure_end save_path) = [].
Proof. unfold figure_end. destruct (given save_path); reflexivity. Qed.

Lemma overlays_ma_lines (bars : list bar) (ps : list Z) (k : list event) :
  map fst (overlays (map (ma_line bars) ps ++ k))
  = map (fun p => "MA" +:+ Str.of_Z p) ps ++ map fst (overlays k).
Proof.
  induction ps as [|p ps IH]; [reflexivity|].
  cbn [map app]. rewrite overlays_cons. unfold ma_line at 1.
  rewrite prefix_MA. cbn [orb map fst]. f_equal. exact IH.
Qed.

(** On a series the price chart always succeeds for periods that are no
    negative numbers: after the closes it draws one overlay for each period
    that is at most the number of days, in the order of the list and
    labelled "MA" with the period, and none for a longer period. *)
Theorem price_chart_of_series
    (sym start stop : string) (bars : list bar) (periods : list Z)
    (save_path : option string) :
  bars <> [] ->
  Forall (fun p => (0 <= p)%Z) periods ->
  plot_price_and_moving_averages periods save_path (holding sym start stop (ohlcv bars))
  = Outcome (inr tt) (holding sym start stop (ohlcv bars))
      (Line "Close Price" (index (ohlcv bars)) (map Num (map close bars))
       :: map (ma_line bars)
            (List.filter (fun p => (p <=? Z.of_nat (length bars))%Z) periods)
       ++ figure_end save_path)
  /\ map fst (overlays (trace (plot_price_and_moving_averages periods save_path
                                 (holding sym start stop (ohlcv bars)))))
     = map (fun p => "MA" +:+ Str.of_Z p)
         (List.filter (fun p => (p <=? Z.of_nat (length bars))%Z) periods).
Proof.
  intros Hne Hp. rewrite (price_chart_run sym start stop bars Hne _ _ Hp).
  split; [reflexivity|]. cbn [trace].
  change (overlays (Line "Close Price" ?x ?y :: ?k)) with (overlays k).
  rewrite overlays_ma_lines, overlays_figure_end. apply app_nil_r.
Qed.

(** On a series the volume chart always succeeds: closes, coloured volume
    bars and the 20-day volume average, over all days, whatever the length
    of the series. *)
Theorem volume_chart_of_series
    (sym start stop : string) (bars : list bar) (save_path : option string) :
  bars <> [] ->
  plot_volume_analysis save_path (holding sym start stop (ohlcv bars))
  = Outcome (inr tt) (holding sym start stop (ohlcv bars))
      ([Line "" (index (ohlcv bars)) (map Num (map close bars));
        Bar (index (ohlcv bars)) (map Num (map volume bars))
          (colors_of (map close bars) (map open bars));
        Line "Volume MA20" (index (ohlcv bars))
          (Pd.cells (rolled 20 (map volume bars)))]
       ++ figure_end save_path)
  /\ length (Pd.cells (rolled 20 (map volume bars))) = length bars.
Proof.
  intros Hne. split; [apply (volume_chart_run sym start stop bars Hne)|].
  unfold Pd.cells, rolled. rewrite length_map, length_roll_mean, !length_map. reflexivity.
Qed.

(** For closes that are not zero the volatility is undefined exactly for
    series of at most two days. *)
Theorem volatility_needs_three_days (sqrt : Qc -> Qc) (cs : list Qc) :
  Forall (fun c => c <> 0%Qc) cs ->
  volatility_pct sqrt (map Some cs) = None <-> (length cs <= 2)%nat.
Proof.
  intros Hnz. split.
  - destruct cs as [|c0 [|c1 [|c2 r]]]; cbn [length]; try lia.
    rewrite volatility_pct_numeric by (discriminate || exact Hnz).
    unfold sample_std.
    assert (length (return_fractions (c0 :: c1 :: c2 :: r)) = S (S (length r))) as ->.
    { unfold return_fractions. rewrite length_zip_with. cbn [tail length]. lia. }
    discriminate.
  - intros Hl. apply volatility_short. rewrite length_map. exact Hl.
Qed.

(** ** The examples *)

Section Examples.

Variable sqrt : Qc -> Qc.
Variable to_datetime : list cell -> exn + list cell.
Variable VNSTOCK_VERSION : Z.
Variable history : string -> string -> string -> exn + option DataFrame.
Variable stock_historical_data : string -> string -> string -> exn + option DataFrame.
Variable now : clock.

Local Abbreviation fetch :=
  (fetch_data to_datetime VNSTOCK_VERSION history stock_historical_data).
Local Abbreviation one :=
  (ExampleUsage.analyze_one sqrt to_datetime VNSTOCK_VERSION history stock_historical_data).
Local Abbreviation each :=
  (ExampleUsage.analyze_each sqrt to_datetime VNSTOCK_VERSION history
     stock_historical_data now).
Local Abbreviation examples :=
  (ExampleUsage.main sqrt to_datetime VNSTOCK_VERSION history stock_historical_data now).

Lemma analyze_each_without_data (start stop : string) (stocks : list string) (t : nat) :
  (forall sym, In sym stocks -> result (fetch (analyzer sym start stop)) = inr false) ->
  each start stop stocks t
  = (inr tt,
     concat (map (fun sym => analyzing sym :: trace (fetch (analyzer sym start stop)))
               stocks)).
Proof.
  revert t. induction stocks as [|sym stocks IH]; intros t H; [reflexivity|].
  pose proof (H sym (or_introl eq_refl)) as Hfalse.
  cbn [ExampleUsage.analyze_each init]. fold (analyzer sym start stop).
  unfold ExampleUsage.analyze_one. rewrite bind_run, Hfalse. cbn [result final trace ret].
  rewrite (IH t (fun s Hs => H s (or_intror Hs))).
  cbn [map concat app]. rewrite app_nil_r. reflexivity.
Qed.

(** When no stock can be fetched the examples go through all three
    stocks, in order, and print nothing but this: the two banners and, for
    each stock, its line followed by the lines of its fetch, which are the
    request for the last 90 days and then either "No data retrieved" or the
    error the fetch caught with the traceback.  No summary is computed,
    nothing is drawn, and no "Error running examples" line ends the run. *)
Theorem examples_without_data (t : nat) :
  (forall sym, In sym ExampleUsage.stocks ->
     result (fetch (analyzer sym (strftime_ymd (minus_days (now (S t)) 90))
                      (strftime_ymd (now t)))) = inr false) ->
  examples t
  = examples_banner ++ example_banner
    ++ concat (map (fun sym =>
                      analyzing sym
                      :: trace (fetch (analyzer sym
                                         (strftime_ymd (minus_days (now (S t)) 90))
                                         (strftime_ymd (now t)))))
                 ExampleUsage.stocks)
  /\ Forall (fun sym =>
               trace (fetch (analyzer sym (strftime_ymd (minus_days (now (S t)) 90))
                               (strftime_ymd (now t))))
               = [fetching (analyzer sym (strftime_ymd (minus_days (now (S t)) 90))
                              (strftime_ymd (now t)));
                  Print "No data retrieved"]
               \/ exists e,
                    trace (fetch (analyzer sym (strftime_ymd (minus_days (now (S t)) 90))
                                    (strftime_ymd (now t))))
                    = [fetching (analyzer sym (strftime_ymd (minus_days (now (S t)) 90))
                                   (strftime_ymd (now t)));
                       Print ("Error fetching data: " +:+ exn_str e); PrintExc e])
       ExampleUsage.stocks.
Proof.
  intros H. split.
  - unfold ExampleUsage.main, ExampleUsage.example_multiple_stocks. cbv zeta.
    rewrite (analyze_each_without_data _ _ ExampleUsage.stocks (S (S t)) H).
    rewrite app_nil_r. reflexivity.
  - apply Forall_forall. intros sym Hin.
    apply (fetch_data_false_shape to_datetime VNSTOCK_VERSION history stock_historical_data).
    apply H. exact Hin.
Qed.

(** When the old provider's frame for the first stock has rows but no
    [close] column, its fetch succeeds and its summary raises [KeyError]:
    the examples stop there.  The other stocks are not asked for, and the
    last line is "Error running examples: 'close'". *)
Theorem examples_stop_at_an_error (t : nat) (df : DataFrame) :
  VNSTOCK_VERSION <> 3%Z ->
  stock_historical_data "VNM" (strftime_ymd (minus_days (now (S t)) 90))
    (strftime_ymd (now t)) = inr (Some df) ->
  Pd.empty df = false ->
  Pd.find_column "close" (columns df) = None ->
  examples t
  = examples_banner ++ example_banner
    ++ [analyzing "VNM";
        fetching (analyzer "VNM" (strftime_ymd (minus_days (now (S t)) 90))
                    (strftime_ymd (now t)));
        Print ("Successfully fetched " +:+ Str.of_nat (Pd.len df) +:+ " data points");
        Print (nl +:+ rule60);
        Print "Summary Statistics for VNM";
        Print ("Period: " +:+ strftime_ymd (minus_days (now (S t)) 90) +:+ " to "
               +:+ strftime_ymd (now t));
        Print rule60;
        Print (nl +:+ nl +:+ "Error running examples: 'close'")].
Proof.
  intros HV Hr He Hc.
  unfold ExampleUsage.main, ExampleUsage.example_multiple_stocks, ExampleUsage.stocks.
  cbv zeta. cbn [ExampleUsage.analyze_each init].
  set (a := strftime_ymd (minus_days (now (S t)) 90)) in *.
  set (b := strftime_ymd (now t)) in *.
  change {| symbol := Str.upper "VNM"; start_date := a; end_date := b; data := None |}
    with (analyzer "VNM" a b).
  assert (one (analyzer "VNM" a b)
          = Outcome (inl (KeyError "close")) (with_frame (analyzer "VNM" a b) (Some df))
              [fetching (analyzer "VNM" a b);
               Print ("Successfully fetched " +:+ Str.of_nat (Pd.len df) +:+ " data points");
               Print (nl +:+ rule60);
               Print "Summary Statistics for VNM";
               Print ("Period: " +:+ a +:+ " to " +:+ b);
               Print rule60]) as Hone.
  { unfold ExampleUsage.analyze_one. rewrite bind_run, fetch_data_cases.
    unfold retrieved. apply Z.eqb_neq in HV. rewrite HV.
    change (symbol (analyzer "VNM" a b)) with "VNM".
    cbn [start_date end_date analyzer]. rewrite Hr.
    unfold fetch_verdict. cbn [data with_frame]. rewrite He. cbn [negb result final trace].
    rewrite (print_summary_without_close sqrt (with_frame (analyzer "VNM" a b) (Some df))
               df eq_refl He Hc). reflexivity. }
  rewrite Hone. reflexivity.
Qed.

End Examples.

(** ** The further properties at the samples *)

Lemma fetch_true_witness :
  exists df,
    data (final (fetch_data sample_to_datetime 3 (gives (inr (Some raw3)))
                   (gives (inr None)) vnm)) = Some df
    /\ (0 < Pd.len df)%nat.
Proof.
  destruct (fetch_data_true_means_data sample_to_datetime 3 (gives (inr (Some raw3)))
              (gives (inr None)) vnm eq_refl) as (df & H1 & H2 & _).
  exists df. split; assumption.
Defined.

Lemma old_provider_witness :
  final (fetch_data sample_to_datetime 0 (gives (inr None)) (gives (inr (Some raw3))) vnm)
  = with_frame vnm (Some raw3).
Proof.
  refine (proj1 (fetch_data_old_provider_keeps_frame sample_to_datetime 0 (gives (inr None))
                   (gives (inr (Some raw3))) vnm (Some raw3) _ eq_refl)).
  discriminate.
Defined.

Lemma unparsed_time_witness :
  fetch_data sample_to_datetime 3 (gives (inr (Some raw_bad))) (gives (inr None)) vnm
  = Outcome (inr false) (with_frame vnm (Some (Pd.lower_columns raw_bad)))
      [fetching vnm;
       Print ("Error fetching data: "
              +:+ exn_str (ValueError "Unknown datetime string format: yesterday"));
       PrintExc (ValueError "Unknown datetime string format: yesterday")].
Proof.
  apply (fetch_data_unparsed_time_is_kept sample_to_datetime 3 (gives (inr (Some raw_bad)))
           (gives (inr None)) vnm raw_bad [Text "yesterday"]); reflexivity.
Defined.

Lemma normalize_cells_witness :
  exists df',
    xyz_three_days = with_frame (holding "XYZ" "2024-01-02" "2024-01-04" raw3) (Some df')
    /\ columns df'
       = List.filter (fun nc => negb (String.eqb (fst nc) "time"))
           (map (fun nc => (Str.lower (fst nc), snd nc)) (columns raw3)).
Proof.
  destruct (normalize_keeps_the_cells sample_to_datetime
              (holding "XYZ" "2024-01-02" "2024-01-04" raw3) xyz_three_days raw3
              eq_refl ex_normalize_raw3) as (df' & H1 & H2 & _).
  exists df'. split; assumption.
Defined.

Lemma bar_colors_witness :
  exists colors,
    bar_colors (map Num [q 100; q 102; q 99]) (map Num [q 100; q 100; q 102]) = inr colors
    /\ length colors = 3%nat.
Proof.
  destruct (bar_colors_by_day [q 100; q 102; q 99] [q 100; q 100; q 102] 0 (q 100) (q 100)
              eq_refl eq_refl) as (colors & H1 & H2 & _).
  exists colors. split; assumption.
Defined.

Lemma three_days_not_empty : three_days <> [].
Proof. discriminate. Qed.

Lemma candlestick_witness :
  written (trace (plot_candlestick_chart (Some "c.html") xyz_three_days)) = ["c.html"].
Proof.
  exact (proj1 (proj2 (candlestick_chart_of_series "XYZ" "2024-01-02" "2024-01-04"
                         three_days (Some "c.html") three_days_not_empty))).
Defined.

Lemma price_chart_witness :
  map fst (overlays (trace (plot_price_and_moving_averages [2; 5; 3]%Z None xyz_three_days)))
  = map (fun p => "MA" +:+ Str.of_Z p)
      (List.filter (fun p => (p <=? Z.of_nat (length three_days))%Z) [2; 5; 3]%Z).
Proof.
  refine (proj2 (price_chart_of_series "XYZ" "2024-01-02" "2024-01-04" three_days
                   [2; 5; 3]%Z None three_days_not_empty _)).
  repeat constructor; discriminate.
Defined.

Lemma negative_period_witness :
  plot_price_and_moving_averages [-1; 2]%Z (Some "ma.png") xyz_three_days
  = Outcome (inl (ValueError "window must be an integer 0 or greater")) xyz_three_days
      [Line "Close Price" (index (ohlcv three_days)) (map Num (map close three_days))].
Proof.
  apply (price_chart_negative_period "XYZ" "2024-01-02" "2024-01-04" three_days
           three_days_not_empty (-1) [2%Z] (Some "ma.png")).
  reflexivity.
Defined.

Lemma volume_chart_witness :
  length (Pd.cells (rolled 20 (map volume three_days))) = length three_days.
Proof.
  exact (proj2 (volume_chart_of_series "XYZ" "2024-01-02" "2024-01-04" three_days None
                  three_days_not_empty)).
Defined.

Lemma returns_chart_witness :
  length (return_percents (map close three_days)) = (length three_days - 1)%nat.
Proof.
  refine (proj2 (returns_chart_of_series "XYZ" "2024-01-02" "2024-01-04" three_days
                   three_days_not_empty None _)).
  repeat constructor; by_evaluation.
Defined.

Lemma without_close_witness :
  plot_daily_returns None (holding "XYZ" "2024-01-02" "2024-01-04" raw3)
  = Outcome (inl (KeyError "close")) (holding "XYZ" "2024-01-02" "2024-01-04" raw3) [].
Proof.
  exact (proj1 (proj2 (proj2 (methods_without_close_column sample_sqrt
                                (holding "XYZ" "2024-01-02" "2024-01-04" raw3) raw3 None
                                [20%Z] eq_refl eq_refl eq_refl)))).
Defined.

Lemma aligned_witness :
  exists col,
    Pd.getitem (ohlcv three_days) "close" = inr col
    /\ length ([None; None; None] : list (option Qc)) = length col.
Proof.
  exact (proj1 (overlays_are_aligned (ohlcv three_days) "close" 5 [None; None; None] []
                  ex_window_five_on_three)).
Defined.

Lemma volatility_days_witness :
  volatility_pct sample_sqrt (map Some [q 100; q 102]) = None <-> (2 <= 2)%nat.
Proof.
  apply (volatility_needs_three_days sample_sqrt [q 100; q 102]).
  repeat constructor; by_evaluation.
Defined.

Lemma one_day_witness :
  exists s,
    analyze_summary sample_sqrt "XYZ" (ohlcv [first_day]) xyz_three_days
    = Outcome (inr s) xyz_three_days []
    /\ volatility s = None.
Proof.
  destruct (summary_of_one_day sample_sqrt "XYZ" first_day xyz_three_days)
    as (s & H1 & _ & _ & _ & H2 & _).
  - by_evaluation.
  - exists s. split; assumption.
Defined.

Lemma handler_success_witness :
  exists s id,
    fst (analyze_stock sample_sqrt sample_to_datetime 3 (gives (inr (Some raw3)))
           (gives (inr None)) sample_clock "static/charts" 0
           (Some {| req_symbol := Some (JString "vnm"); req_start_date := None;
                    req_end_date := None |}))
    = Success s
        [("candlestick", "/static/charts/" +:+ id +:+ "_candlestick.html");
         ("moving_average", "/static/charts/" +:+ id +:+ "_ma.png");
         ("volume", "/static/charts/" +:+ id +:+ "_volume.png");
         ("returns", "/static/charts/" +:+ id +:+ "_returns.png")]
    /\ id = "VNM_20261104090000".
Proof.
  destruct (analyze_stock_success sample_sqrt sample_to_datetime 3
              (gives (inr (Some raw3))) (gives (inr None)) sample_clock "static/charts"
              0 "vnm" None None first_day (tail three_days))
    as (s & id & H & Hid & _).
  - discriminate.
  - reflexivity.
  - by_evaluation.
  - repeat constructor; by_evaluation.
  - exists s, id. split; [exact H|exact Hid].
Defined.


Lemma handler_infinite_return_witness :
  exists msg id tr,
    analyze_stock sample_sqrt sample_to_datetime 3 (gives (inr (Some raw_zero)))
      (gives (inr None)) sample_clock "static/charts" 0
      (Some {| req_symbol := Some (JString "vnm"); req_start_date := None;
               req_end_date := None |})
    = (ErrorBody msg 500, tr ++ [PrintExc (ValueError msg)])
    /\ id = "VNM_20261104090000"
    /\ written tr
       = [path_join "static/charts" (id +:+ "_candlestick.html");
          path_join "static/charts" (id +:+ "_ma.png");
          path_join "static/charts" (id +:+ "_volume.png")].
Proof.
  destruct (analyze_stock_infinite_return sample_sqrt sample_to_datetime 3
              (gives (inr (Some raw_zero))) (gives (inr None)) sample_clock "static/charts"
              0 "vnm" None None first_day (tail zero_days) 1 (q 50))
    as (msg & id & tr & H & Hid & Hw & _).
  - discriminate.
  - reflexivity.
  - by_evaluation.
  - by_evaluation.
  - by_evaluation.
  - by_evaluation.
  - exists msg, id, tr. split; [exact H|]. split; [exact Hid|exact Hw].
Defined.

Lemma main_failures_witness :
  result (main sample_sqrt sample_to_datetime 3 (gives (inr (Some raw3)))
            (gives (inr None)) sample_clock 0
            {| arg_symbol := "vnm"; arg_start := None; arg_end := None;
               save_charts := true; output_dir := "" |})
  = inl (FileNotFoundError "[Errno 2] No such file or directory: ''").
Proof.
  refine (proj1 (proj1 (main_save_charts_failures sample_sqrt sample_to_datetime 3
                          (gives (inr (Some raw3))) (gives (inr None)) sample_clock 0
                          "vnm" None None "" first_day (tail three_days) eq_refl _)
                   eq_refl)).
  by_evaluation.
Defined.

Lemma examples_without_data_witness :
  ExampleUsage.main sample_sqrt sample_to_datetime 3 (gives (inr None)) (gives (inr None))
    sample_clock 0
  = examples_banner ++ example_banner
    ++ [analyzing "VNM";
        Print "Fetching data for VNM from 2026-08-06 to 2026-11-04...";
        Print "No data retrieved";
        analyzing "VCB";
        Print "Fetching data for VCB from 2026-08-06 to 2026-11-04...";
        Print "No data retrieved";
        analyzing "HPG";
        Print "Fetching data for HPG from 2026-08-06 to 2026-11-04...";
        Print "No data retrieved"].
Proof.
  refine (proj1 (examples_without_data sample_sqrt sample_to_datetime 3 (gives (inr None))
                   (gives (inr None)) sample_clock 0 _)).
  intros sym _. reflexivity.
Defined.

Lemma examples_error_witness :
  List.last (ExampleUsage.main sample_sqrt sample_to_datetime 0 (gives (inr None))
               (gives (inr (Some raw3))) sample_clock 0) Show
  = Print (nl +:+ nl +:+ "Error running examples: 'close'").
Proof.
  rewrite (examples_stop_at_an_error sample_sqrt sample_to_datetime 0 (gives (inr None))
             (gives (inr (Some raw3))) sample_clock 0 raw3);
    [reflexivity|discriminate|reflexivity|reflexivity|reflexivity].
Defined.
